(** * Jakarta AQI scraper: a shallow embedding of [aqi_scraper.py]

    The script fetches one page, walks the parse tree that BeautifulSoup
    builds with [html.parser], turns every station item into a record and
    writes the records to a JSON snapshot and a CSV log.

    Layout of the development:
    - [Py]   : the Python built-ins the script calls ([str] methods,
               [strftime], [json.dump], [csv.DictWriter]);
    - [Bs4]  : the parse tree and the four CSS selectors the script uses;
    - the script itself ([slug_to_name], [scrape], [save_json],
      [append_csv], [main]) over an explicit world (network reply, clock,
      file system, standard output); the three functions that write
      take the paths [open] refuses as a parameter ([save_json_on],
      [append_csv_on], [main_on]), and the source names stand for the
      script where no path is refused;
    - [csv.reader], to read back what [append_csv] writes;
    - the properties. *)

From Stdlib Require Import List NArith ZArith Lia Bool String Ascii.
Import ListNotations.

Set Warnings "-register-all".
Local Open Scope string_scope.
Local Open Scope list_scope.
Local Open Scope N_scope.

(** ** Python built-ins *)

Module Py.

(** A Python [str] is a sequence of Unicode code points. *)
Definition char := N.
Definition str := list char.

(** A string literal of the script, as a [str]. *)
Definition py (s : string) : str :=
  map N_of_ascii (list_ascii_of_string s).

Fixpoint str_eqb (a b : str) : bool :=
  match a, b with
  | [], [] => true
  | x :: a', y :: b' => (x =? y) && str_eqb a' b'
  | _, _ => false
  end.

Definition is_ascii (c : char) : bool := c <? 128.
Definition ascii_str (s : str) : bool := forallb is_ascii s.

Definition ascii_upper (c : char) : bool := (65 <=? c) && (c <=? 90).
Definition ascii_lower (c : char) : bool := (97 <=? c) && (c <=? 122).

(** *** Case data

    CPython reads the case of a character from the Unicode character
    database.  The four tables below are that data at version 14.0.0,
    the one CPython 3.11 holds: every code point from 0 to 1114111 is
    covered, a code point outside a table having the default (not
    cased, not case-ignorable, mapped to itself). *)

(** The code points with the property Cased, as ranges in increasing order. *)
Definition cased_ranges : list (N * N) :=
  [
   (65, 90); (97, 122); (170, 170); (181, 181); (186, 186); (192, 214);
   (216, 246); (248, 442); (444, 447); (452, 659); (661, 696); (704, 705);
   (736, 740); (837, 837); (880, 883); (886, 887); (890, 893); (895, 895);
   (902, 902); (904, 906); (908, 908); (910, 929); (931, 1013);
   (1015, 1153); (1162, 1327); (1329, 1366); (1376, 1416); (4256, 4293);
   (4295, 4295); (4301, 4301); (4304, 4346); (4349, 4351); (5024, 5109);
   (5112, 5117); (7296, 7304); (7312, 7354); (7357, 7359); (7424, 7615);
   (7680, 7957); (7960, 7965); (7968, 8005); (8008, 8013); (8016, 8023);
   (8025, 8025); (8027, 8027); (8029, 8029); (8031, 8061); (8064, 8116);
   (8118, 8124); (8126, 8126); (8130, 8132); (8134, 8140); (8144, 8147);
   (8150, 8155); (8160, 8172); (8178, 8180); (8182, 8188); (8305, 8305);
   (8319, 8319); (8336, 8348); (8450, 8450); (8455, 8455); (8458, 8467);
   (8469, 8469); (8473, 8477); (8484, 8484); (8486, 8486); (8488, 8488);
   (8490, 8493); (8495, 8500); (8505, 8505); (8508, 8511); (8517, 8521);
   (8526, 8526); (8544, 8575); (8579, 8580); (9398, 9449); (11264, 11492);
   (11499, 11502); (11506, 11507); (11520, 11557); (11559, 11559);
   (11565, 11565); (42560, 42605); (42624, 42653); (42786, 42887);
   (42891, 42894); (42896, 42954); (42960, 42961); (42963, 42963);
   (42965, 42969); (42997, 42998); (43000, 43002); (43824, 43866);
   (43868, 43880); (43888, 43967); (64256, 64262); (64275, 64279);
   (65313, 65338); (65345, 65370); (66560, 66639); (66736, 66771);
   (66776, 66811); (66928, 66938); (66940, 66954); (66956, 66962);
   (66964, 66965); (66967, 66977); (66979, 66993); (66995, 67001);
   (67003, 67004); (67456, 67456); (67459, 67461); (67463, 67504);
   (67506, 67514); (68736, 68786); (68800, 68850); (71840, 71903);
   (93760, 93823); (119808, 119892); (119894, 119964); (119966, 119967);
   (119970, 119970); (119973, 119974); (119977, 119980); (119982, 119993);
   (119995, 119995); (119997, 120003); (120005, 120069); (120071, 120074);
   (120077, 120084); (120086, 120092); (120094, 120121); (120123, 120126);
   (120128, 120132); (120134, 120134); (120138, 120144); (120146, 120485);
   (120488, 120512); (120514, 120538); (120540, 120570); (120572, 120596);
   (120598, 120628); (120630, 120654); (120656, 120686); (120688, 120712);
   (120714, 120744); (120746, 120770); (120772, 120779); (122624, 122633);
   (122635, 122654); (125184, 125251); (127280, 127305); (127312, 127337);
   (127344, 127369)
  ].

(** The code points with the property Case_Ignorable, as ranges in
    increasing order. *)
Definition case_ignorable_ranges : list (N * N) :=
  [
   (39, 39); (46, 46); (58, 58); (94, 94); (96, 96); (168, 168);
   (173, 173); (175, 175); (180, 180); (183, 184); (688, 879); (884, 885);
   (890, 890); (900, 901); (903, 903); (1155, 1161); (1369, 1369);
   (1375, 1375); (1425, 1469); (1471, 1471); (1473, 1474); (1476, 1477);
   (1479, 1479); (1524, 1524); (1536, 1541); (1552, 1562); (1564, 1564);
   (1600, 1600); (1611, 1631); (1648, 1648); (1750, 1757); (1759, 1768);
   (1770, 1773); (1807, 1807); (1809, 1809); (1840, 1866); (1958, 1968);
   (2027, 2037); (2042, 2042); (2045, 2045); (2070, 2093); (2137, 2139);
   (2184, 2184); (2192, 2193); (2200, 2207); (2249, 2306); (2362, 2362);
   (2364, 2364); (2369, 2376); (2381, 2381); (2385, 2391); (2402, 2403);
   (2417, 2417); (2433, 2433); (2492, 2492); (2497, 2500); (2509, 2509);
   (2530, 2531); (2558, 2558); (2561, 2562); (2620, 2620); (2625, 2626);
   (2631, 2632); (2635, 2637); (2641, 2641); (2672, 2673); (2677, 2677);
   (2689, 2690); (2748, 2748); (2753, 2757); (2759, 2760); (2765, 2765);
   (2786, 2787); (2810, 2815); (2817, 2817); (2876, 2876); (2879, 2879);
   (2881, 2884); (2893, 2893); (2901, 2902); (2914, 2915); (2946, 2946);
   (3008, 3008); (3021, 3021); (3072, 3072); (3076, 3076); (3132, 3132);
   (3134, 3136); (3142, 3144); (3146, 3149); (3157, 3158); (3170, 3171);
   (3201, 3201); (3260, 3260); (3263, 3263); (3270, 3270); (3276, 3277);
   (3298, 3299); (3328, 3329); (3387, 3388); (3393, 3396); (3405, 3405);
   (3426, 3427); (3457, 3457); (3530, 3530); (3538, 3540); (3542, 3542);
   (3633, 3633); (3636, 3642); (3654, 3662); (3761, 3761); (3764, 3772);
   (3782, 3782); (3784, 3789); (3864, 3865); (3893, 3893); (3895, 3895);
   (3897, 3897); (3953, 3966); (3968, 3972); (3974, 3975); (3981, 3991);
   (3993, 4028); (4038, 4038); (4141, 4144); (4146, 4151); (4153, 4154);
   (4157, 4158); (4184, 4185); (4190, 4192); (4209, 4212); (4226, 4226);
   (4229, 4230); (4237, 4237); (4253, 4253); (4348, 4348); (4957, 4959);
   (5906, 5908); (5938, 5939); (5970, 5971); (6002, 6003); (6068, 6069);
   (6071, 6077); (6086, 6086); (6089, 6099); (6103, 6103); (6109, 6109);
   (6155, 6159); (6211, 6211); (6277, 6278); (6313, 6313); (6432, 6434);
   (6439, 6440); (6450, 6450); (6457, 6459); (6679, 6680); (6683, 6683);
   (6742, 6742); (6744, 6750); (6752, 6752); (6754, 6754); (6757, 6764);
   (6771, 6780); (6783, 6783); (6823, 6823); (6832, 6862); (6912, 6915);
   (6964, 6964); (6966, 6970); (6972, 6972); (6978, 6978); (7019, 7027);
   (7040, 7041); (7074, 7077); (7080, 7081); (7083, 7085); (7142, 7142);
   (7144, 7145); (7149, 7149); (7151, 7153); (7212, 7219); (7222, 7223);
   (7288, 7293); (7376, 7378); (7380, 7392); (7394, 7400); (7405, 7405);
   (7412, 7412); (7416, 7417); (7468, 7530); (7544, 7544); (7579, 7679);
   (8125, 8125); (8127, 8129); (8141, 8143); (8157, 8159); (8173, 8175);
   (8189, 8190); (8203, 8207); (8216, 8217); (8228, 8228); (8231, 8231);
   (8234, 8238); (8288, 8292); (8294, 8303); (8305, 8305); (8319, 8319);
   (8336, 8348); (8400, 8432); (11388, 11389); (11503, 11505);
   (11631, 11631); (11647, 11647); (11744, 11775); (11823, 11823);
   (12293, 12293); (12330, 12333); (12337, 12341); (12347, 12347);
   (12441, 12446); (12540, 12542); (40981, 40981); (42232, 42237);
   (42508, 42508); (42607, 42610); (42612, 42621); (42623, 42623);
   (42652, 42655); (42736, 42737); (42752, 42785); (42864, 42864);
   (42888, 42890); (42994, 42996); (43000, 43001); (43010, 43010);
   (43014, 43014); (43019, 43019); (43045, 43046); (43052, 43052);
   (43204, 43205); (43232, 43249); (43263, 43263); (43302, 43309);
   (43335, 43345); (43392, 43394); (43443, 43443); (43446, 43449);
   (43452, 43453); (43471, 43471); (43493, 43494); (43561, 43566);
   (43569, 43570); (43573, 43574); (43587, 43587); (43596, 43596);
   (43632, 43632); (43644, 43644); (43696, 43696); (43698, 43700);
   (43703, 43704); (43710, 43711); (43713, 43713); (43741, 43741);
   (43756, 43757); (43763, 43764); (43766, 43766); (43867, 43871);
   (43881, 43883); (44005, 44005); (44008, 44008); (44013, 44013);
   (64286, 64286); (64434, 64450); (65024, 65039); (65043, 65043);
   (65056, 65071); (65106, 65106); (65109, 65109); (65279, 65279);
   (65287, 65287); (65294, 65294); (65306, 65306); (65342, 65342);
   (65344, 65344); (65392, 65392); (65438, 65439); (65507, 65507);
   (65529, 65531); (66045, 66045); (66272, 66272); (66422, 66426);
   (67456, 67461); (67463, 67504); (67506, 67514); (68097, 68099);
   (68101, 68102); (68108, 68111); (68152, 68154); (68159, 68159);
   (68325, 68326); (68900, 68903); (69291, 69292); (69446, 69456);
   (69506, 69509); (69633, 69633); (69688, 69702); (69744, 69744);
   (69747, 69748); (69759, 69761); (69811, 69814); (69817, 69818);
   (69821, 69821); (69826, 69826); (69837, 69837); (69888, 69890);
   (69927, 69931); (69933, 69940); (70003, 70003); (70016, 70017);
   (70070, 70078); (70089, 70092); (70095, 70095); (70191, 70193);
   (70196, 70196); (70198, 70199); (70206, 70206); (70367, 70367);
   (70371, 70378); (70400, 70401); (70459, 70460); (70464, 70464);
   (70502, 70508); (70512, 70516); (70712, 70719); (70722, 70724);
   (70726, 70726); (70750, 70750); (70835, 70840); (70842, 70842);
   (70847, 70848); (70850, 70851); (71090, 71093); (71100, 71101);
   (71103, 71104); (71132, 71133); (71219, 71226); (71229, 71229);
   (71231, 71232); (71339, 71339); (71341, 71341); (71344, 71349);
   (71351, 71351); (71453, 71455); (71458, 71461); (71463, 71467);
   (71727, 71735); (71737, 71738); (71995, 71996); (71998, 71998);
   (72003, 72003); (72148, 72151); (72154, 72155); (72160, 72160);
   (72193, 72202); (72243, 72248); (72251, 72254); (72263, 72263);
   (72273, 72278); (72281, 72283); (72330, 72342); (72344, 72345);
   (72752, 72758); (72760, 72765); (72767, 72767); (72850, 72871);
   (72874, 72880); (72882, 72883); (72885, 72886); (73009, 73014);
   (73018, 73018); (73020, 73021); (73023, 73029); (73031, 73031);
   (73104, 73105); (73109, 73109); (73111, 73111); (73459, 73460);
   (78896, 78904); (92912, 92916); (92976, 92982); (92992, 92995);
   (94031, 94031); (94095, 94111); (94176, 94177); (94179, 94180);
   (110576, 110579); (110581, 110587); (110589, 110590); (113821, 113822);
   (113824, 113827); (118528, 118573); (118576, 118598); (119143, 119145);
   (119155, 119170); (119173, 119179); (119210, 119213); (119362, 119364);
   (121344, 121398); (121403, 121452); (121461, 121461); (121476, 121476);
   (121499, 121503); (121505, 121519); (122880, 122886); (122888, 122904);
   (122907, 122913); (122915, 122916); (122918, 122922); (123184, 123197);
   (123566, 123566); (123628, 123631); (125136, 125142); (125252, 125259);
   (127995, 127999); (917505, 917505); (917536, 917631); (917760, 917999)
  ].

(** The code points whose full title-case mapping is not the code point
    itself, with the mapping, in increasing order. *)
Definition title_table : list (N * str) :=
  [
   (97, [65]); (98, [66]); (99, [67]); (100, [68]); (101, [69]);
   (102, [70]); (103, [71]); (104, [72]); (105, [73]); (106, [74]);
   (107, [75]); (108, [76]); (109, [77]); (110, [78]); (111, [79]);
   (112, [80]); (113, [81]); (114, [82]); (115, [83]); (116, [84]);
   (117, [85]); (118, [86]); (119, [87]); (120, [88]); (121, [89]);
   (122, [90]); (181, [924]); (223, [83; 115]); (224, [192]); (225, [193]);
   (226, [194]); (227, [195]); (228, [196]); (229, [197]); (230, [198]);
   (231, [199]); (232, [200]); (233, [201]); (234, [202]); (235, [203]);
   (236, [204]); (237, [205]); (238, [206]); (239, [207]); (240, [208]);
   (241, [209]); (242, [210]); (243, [211]); (244, [212]); (245, [213]);
   (246, [214]); (248, [216]); (249, [217]); (250, [218]); (251, [219]);
   (252, [220]); (253, [221]); (254, [222]); (255, [376]); (257, [256]);
   (259, [258]); (261, [260]); (263, [262]); (265, [264]); (267, [266]);
   (269, [268]); (271, [270]); (273, [272]); (275, [274]); (277, [276]);
   (279, [278]); (281, [280]); (283, [282]); (285, [284]); (287, [286]);
   (289, [288]); (291, [290]); (293, [292]); (295, [294]); (297, [296]);
   (299, [298]); (301, [300]); (303, [302]); (305, [73]); (307, [306]);
   (309, [308]); (311, [310]); (314, [313]); (316, [315]); (318, [317]);
   (320, [319]); (322, [321]); (324, [323]); (326, [325]); (328, [327]);
   (329, [700; 78]); (331, [330]); (333, [332]); (335, [334]);
   (337, [336]); (339, [338]); (341, [340]); (343, [342]); (345, [344]);
   (347, [346]); (349, [348]); (351, [350]); (353, [352]); (355, [354]);
   (357, [356]); (359, [358]); (361, [360]); (363, [362]); (365, [364]);
   (367, [366]); (369, [368]); (371, [370]); (373, [372]); (375, [374]);
   (378, [377]); (380, [379]); (382, [381]); (383, [83]); (384, [579]);
   (387, [386]); (389, [388]); (392, [391]); (396, [395]); (402, [401]);
   (405, [502]); (409, [408]); (410, [573]); (414, [544]); (417, [416]);
   (419, [418]); (421, [420]); (424, [423]); (429, [428]); (432, [431]);
   (436, [435]); (438, [437]); (441, [440]); (445, [444]); (447, [503]);
   (452, [453]); (454, [453]); (455, [456]); (457, [456]); (458, [459]);
   (460, [459]); (462, [461]); (464, [463]); (466, [465]); (468, [467]);
   (470, [469]); (472, [471]); (474, [473]); (476, [475]); (477, [398]);
   (479, [478]); (481, [480]); (483, [482]); (485, [484]); (487, [486]);
   (489, [488]); (491, [490]); (493, [492]); (495, [494]);
   (496, [74; 780]); (497, [498]); (499, [498]); (501, [500]);
   (505, [504]); (507, [506]); (509, [508]); (511, [510]); (513, [512]);
   (515, [514]); (517, [516]); (519, [518]); (521, [520]); (523, [522]);
   (525, [524]); (527, [526]); (529, [528]); (531, [530]); (533, [532]);
   (535, [534]); (537, [536]); (539, [538]); (541, [540]); (543, [542]);
   (547, [546]); (549, [548]); (551, [550]); (553, [552]); (555, [554]);
   (557, [556]); (559, [558]); (561, [560]); (563, [562]); (572, [571]);
   (575, [11390]); (576, [11391]); (578, [577]); (583, [582]);
   (585, [584]); (587, [586]); (589, [588]); (591, [590]); (592, [11375]);
   (593, [11373]); (594, [11376]); (595, [385]); (596, [390]);
   (598, [393]); (599, [394]); (601, [399]); (603, [400]); (604, [42923]);
   (608, [403]); (609, [42924]); (611, [404]); (613, [42893]);
   (614, [42922]); (616, [407]); (617, [406]); (618, [42926]);
   (619, [11362]); (620, [42925]); (623, [412]); (625, [11374]);
   (626, [413]); (629, [415]); (637, [11364]); (640, [422]);
   (642, [42949]); (643, [425]); (647, [42929]); (648, [430]);
   (649, [580]); (650, [433]); (651, [434]); (652, [581]); (658, [439]);
   (669, [42930]); (670, [42928]); (837, [921]); (881, [880]);
   (883, [882]); (887, [886]); (891, [1021]); (892, [1022]); (893, [1023]);
   (912, [921; 776; 769]); (940, [902]); (941, [904]); (942, [905]);
   (943, [906]); (944, [933; 776; 769]); (945, [913]); (946, [914]);
   (947, [915]); (948, [916]); (949, [917]); (950, [918]); (951, [919]);
   (952, [920]); (953, [921]); (954, [922]); (955, [923]); (956, [924]);
   (957, [925]); (958, [926]); (959, [927]); (960, [928]); (961, [929]);
   (962, [931]); (963, [931]); (964, [932]); (965, [933]); (966, [934]);
   (967, [935]); (968, [936]); (969, [937]); (970, [938]); (971, [939]);
   (972, [908]); (973, [910]); (974, [911]); (976, [914]); (977, [920]);
   (981, [934]); (982, [928]); (983, [975]); (985, [984]); (987, [986]);
   (989, [988]); (991, [990]); (993, [992]); (995, [994]); (997, [996]);
   (999, [998]); (1001, [1000]); (1003, [1002]); (1005, [1004]);
   (1007, [1006]); (1008, [922]); (1009, [929]); (1010, [1017]);
   (1011, [895]); (1013, [917]); (1016, [1015]); (1019, [1018]);
   (1072, [1040]); (1073, [1041]); (1074, [1042]); (1075, [1043]);
   (1076, [1044]); (1077, [1045]); (1078, [1046]); (1079, [1047]);
   (1080, [1048]); (1081, [1049]); (1082, [1050]); (1083, [1051]);
   (1084, [1052]); (1085, [1053]); (1086, [1054]); (1087, [1055]);
   (1088, [1056]); (1089, [1057]); (1090, [1058]); (1091, [1059]);
   (1092, [1060]); (1093, [1061]); (1094, [1062]); (1095, [1063]);
   (1096, [1064]); (1097, [1065]); (1098, [1066]); (1099, [1067]);
   (1100, [1068]); (1101, [1069]); (1102, [1070]); (1103, [1071]);
   (1104, [1024]); (1105, [1025]); (1106, [1026]); (1107, [1027]);
   (1108, [1028]); (1109, [1029]); (1110, [1030]); (1111, [1031]);
   (1112, [1032]); (1113, [1033]); (1114, [1034]); (1115, [1035]);
   (1116, [1036]); (1117, [1037]); (1118, [1038]); (1119, [1039]);
   (1121, [1120]); (1123, [1122]); (1125, [1124]); (1127, [1126]);
   (1129, [1128]); (1131, [1130]); (1133, [1132]); (1135, [1134]);
   (1137, [1136]); (1139, [1138]); (1141, [1140]); (1143, [1142]);
   (1145, [1144]); (1147, [1146]); (1149, [1148]); (1151, [1150]);
   (1153, [1152]); (1163, [1162]); (1165, [1164]); (1167, [1166]);
   (1169, [1168]); (1171, [1170]); (1173, [1172]); (1175, [1174]);
   (1177, [1176]); (1179, [1178]); (1181, [1180]); (1183, [1182]);
   (1185, [1184]); (1187, [1186]); (1189, [1188]); (1191, [1190]);
   (1193, [1192]); (1195, [1194]); (1197, [1196]); (1199, [1198]);
   (1201, [1200]); (1203, [1202]); (1205, [1204]); (1207, [1206]);
   (1209, [1208]); (1211, [1210]); (1213, [1212]); (1215, [1214]);
   (1218, [1217]); (1220, [1219]); (1222, [1221]); (1224, [1223]);
   (1226, [1225]); (1228, [1227]); (1230, [1229]); (1231, [1216]);
   (1233, [1232]); (1235, [1234]); (1237, [1236]); (1239, [1238]);
   (1241, [1240]); (1243, [1242]); (1245, [1244]); (1247, [1246]);
   (1249, [1248]); (1251, [1250]); (1253, [1252]); (1255, [1254]);
   (1257, [1256]); (1259, [1258]); (1261, [1260]); (1263, [1262]);
   (1265, [1264]); (1267, [1266]); (1269, [1268]); (1271, [1270]);
   (1273, [1272]); (1275, [1274]); (1277, [1276]); (1279, [1278]);
   (1281, [1280]); (1283, [1282]); (1285, [1284]); (1287, [1286]);
   (1289, [1288]); (1291, [1290]); (1293, [1292]); (1295, [1294]);
   (1297, [1296]); (1299, [1298]); (1301, [1300]); (1303, [1302]);
   (1305, [1304]); (1307, [1306]); (1309, [1308]); (1311, [1310]);
   (1313, [1312]); (1315, [1314]); (1317, [1316]); (1319, [1318]);
   (1321, [1320]); (1323, [1322]); (1325, [1324]); (1327, [1326]);
   (1377, [1329]); (1378, [1330]); (1379, [1331]); (1380, [1332]);
   (1381, [1333]); (1382, [1334]); (1383, [1335]); (1384, [1336]);
   (1385, [1337]); (1386, [1338]); (1387, [1339]); (1388, [1340]);
   (1389, [1341]); (1390, [1342]); (1391, [1343]); (1392, [1344]);
   (1393, [1345]); (1394, [1346]); (1395, [1347]); (1396, [1348]);
   (1397, [1349]); (1398, [1350]); (1399, [1351]); (1400, [1352]);
   (1401, [1353]); (1402, [1354]); (1403, [1355]); (1404, [1356]);
   (1405, [1357]); (1406, [1358]); (1407, [1359]); (1408, [1360]);
   (1409, [1361]); (1410, [1362]); (1411, [1363]); (1412, [1364]);
   (1413, [1365]); (1414, [1366]); (1415, [1333; 1410]); (5112, [5104]);
   (5113, [5105]); (5114, [5106]); (5115, [5107]); (5116, [5108]);
   (5117, [5109]); (7296, [1042]); (7297, [1044]); (7298, [1054]);
   (7299, [1057]); (7300, [1058]); (7301, [1058]); (7302, [1066]);
   (7303, [1122]); (7304, [42570]); (7545, [42877]); (7549, [11363]);
   (7566, [42950]); (7681, [7680]); (7683, [7682]); (7685, [7684]);
   (7687, [7686]); (7689, [7688]); (7691, [7690]); (7693, [7692]);
   (7695, [7694]); (7697, [7696]); (7699, [7698]); (7701, [7700]);
   (7703, [7702]); (7705, [7704]); (7707, [7706]); (7709, [7708]);
   (7711, [7710]); (7713, [7712]); (7715, [7714]); (7717, [7716]);
   (7719, [7718]); (7721, [7720]); (7723, [7722]); (7725, [7724]);
   (7727, [7726]); (7729, [7728]); (7731, [7730]); (7733, [7732]);
   (7735, [7734]); (7737, [7736]); (7739, [7738]); (7741, [7740]);
   (7743, [7742]); (7745, [7744]); (7747, [7746]); (7749, [7748]);
   (7751, [7750]); (7753, [7752]); (7755, [7754]); (7757, [7756]);
   (7759, [7758]); (7761, [7760]); (7763, [7762]); (7765, [7764]);
   (7767, [7766]); (7769, [7768]); (7771, [7770]); (7773, [7772]);
   (7775, [7774]); (7777, [7776]); (7779, [7778]); (7781, [7780]);
   (7783, [7782]); (7785, [7784]); (7787, [7786]); (7789, [7788]);
   (7791, [7790]); (7793, [7792]); (7795, [7794]); (7797, [7796]);
   (7799, [7798]); (7801, [7800]); (7803, [7802]); (7805, [7804]);
   (7807, [7806]); (7809, [7808]); (7811, [7810]); (7813, [7812]);
   (7815, [7814]); (7817, [7816]); (7819, [7818]); (7821, [7820]);
   (7823, [7822]); (7825, [7824]); (7827, [7826]); (7829, [7828]);
   (7830, [72; 817]); (7831, [84; 776]); (7832, [87; 778]);
   (7833, [89; 778]); (7834, [65; 702]); (7835, [7776]); (7841, [7840]);
   (7843, [7842]); (7845, [7844]); (7847, [7846]); (7849, [7848]);
   (7851, [7850]); (7853, [7852]); (7855, [7854]); (7857, [7856]);
   (7859, [7858]); (7861, [7860]); (7863, [7862]); (7865, [7864]);
   (7867, [7866]); (7869, [7868]); (7871, [7870]); (7873, [7872]);
   (7875, [7874]); (7877, [7876]); (7879, [7878]); (7881, [7880]);
   (7883, [7882]); (7885, [7884]); (7887, [7886]); (7889, [7888]);
   (7891, [7890]); (7893, [7892]); (7895, [7894]); (7897, [7896]);
   (7899, [7898]); (7901, [7900]); (7903, [7902]); (7905, [7904]);
   (7907, [7906]); (7909, [7908]); (7911, [7910]); (7913, [7912]);
   (7915, [7914]); (7917, [7916]); (7919, [7918]); (7921, [7920]);
   (7923, [7922]); (7925, [7924]); (7927, [7926]); (7929, [7928]);
   (7931, [7930]); (7933, [7932]); (7935, [7934]); (7936, [7944]);
   (7937, [7945]); (7938, [7946]); (7939, [7947]); (7940, [7948]);
   (7941, [7949]); (7942, [7950]); (7943, [7951]); (7952, [7960]);
   (7953, [7961]); (7954, [7962]); (7955, [7963]); (7956, [7964]);
   (7957, [7965]); (7968, [7976]); (7969, [7977]); (7970, [7978]);
   (7971, [7979]); (7972, [7980]); (7973, [7981]); (7974, [7982]);
   (7975, [7983]); (7984, [7992]); (7985, [7993]); (7986, [7994]);
   (7987, [7995]); (7988, [7996]); (7989, [7997]); (7990, [7998]);
   (7991, [7999]); (8000, [8008]); (8001, [8009]); (8002, [8010]);
   (8003, [8011]); (8004, [8012]); (8005, [8013]); (8016, [933; 787]);
   (8017, [8025]); (8018, [933; 787; 768]); (8019, [8027]);
   (8020, [933; 787; 769]); (8021, [8029]); (8022, [933; 787; 834]);
   (8023, [8031]); (8032, [8040]); (8033, [8041]); (8034, [8042]);
   (8035, [8043]); (8036, [8044]); (8037, [8045]); (8038, [8046]);
   (8039, [8047]); (8048, [8122]); (8049, [8123]); (8050, [8136]);
   (8051, [8137]); (8052, [8138]); (8053, [8139]); (8054, [8154]);
   (8055, [8155]); (8056, [8184]); (8057, [8185]); (8058, [8170]);
   (8059, [8171]); (8060, [8186]); (8061, [8187]); (8064, [8072]);
   (8065, [8073]); (8066, [8074]); (8067, [8075]); (8068, [8076]);
   (8069, [8077]); (8070, [8078]); (8071, [8079]); (8080, [8088]);
   (8081, [8089]); (8082, [8090]); (8083, [8091]); (8084, [8092]);
   (8085, [8093]); (8086, [8094]); (8087, [8095]); (8096, [8104]);
   (8097, [8105]); (8098, [8106]); (8099, [8107]); (8100, [8108]);
   (8101, [8109]); (8102, [8110]); (8103, [8111]); (8112, [8120]);
   (8113, [8121]); (8114, [8122; 837]); (8115, [8124]); (8116, [902; 837]);
   (8118, [913; 834]); (8119, [913; 834; 837]); (8126, [921]);
   (8130, [8138; 837]); (8131, [8140]); (8132, [905; 837]);
   (8134, [919; 834]); (8135, [919; 834; 837]); (8144, [8152]);
   (8145, [8153]); (8146, [921; 776; 768]); (8147, [921; 776; 769]);
   (8150, [921; 834]); (8151, [921; 776; 834]); (8160, [8168]);
   (8161, [8169]); (8162, [933; 776; 768]); (8163, [933; 776; 769]);
   (8164, [929; 787]); (8165, [8172]); (8166, [933; 834]);
   (8167, [933; 776; 834]); (8178, [8186; 837]); (8179, [8188]);
   (8180, [911; 837]); (8182, [937; 834]); (8183, [937; 834; 837]);
   (8526, [8498]); (8560, [8544]); (8561, [8545]); (8562, [8546]);
   (8563, [8547]); (8564, [8548]); (8565, [8549]); (8566, [8550]);
   (8567, [8551]); (8568, [8552]); (8569, [8553]); (8570, [8554]);
   (8571, [8555]); (8572, [8556]); (8573, [8557]); (8574, [8558]);
   (8575, [8559]); (8580, [8579]); (9424, [9398]); (9425, [9399]);
   (9426, [9400]); (9427, [9401]); (9428, [9402]); (9429, [9403]);
   (9430, [9404]); (9431, [9405]); (9432, [9406]); (9433, [9407]);
   (9434, [9408]); (9435, [9409]); (9436, [9410]); (9437, [9411]);
   (9438, [9412]); (9439, [9413]); (9440, [9414]); (9441, [9415]);
   (9442, [9416]); (9443, [9417]); (9444, [9418]); (9445, [9419]);
   (9446, [9420]); (9447, [9421]); (9448, [9422]); (9449, [9423]);
   (11312, [11264]); (11313, [11265]); (11314, [11266]); (11315, [11267]);
   (11316, [11268]); (11317, [11269]); (11318, [11270]); (11319, [11271]);
   (11320, [11272]); (11321, [11273]); (11322, [11274]); (11323, [11275]);
   (11324, [11276]); (11325, [11277]); (11326, [11278]); (11327, [11279]);
   (11328, [11280]); (11329, [11281]); (11330, [11282]); (11331, [11283]);
   (11332, [11284]); (11333, [11285]); (11334, [11286]); (11335, [11287]);
   (11336, [11288]); (11337, [11289]); (11338, [11290]); (11339, [11291]);
   (11340, [11292]); (11341, [11293]); (11342, [11294]); (11343, [11295]);
   (11344, [11296]); (11345, [11297]); (11346, [11298]); (11347, [11299]);
   (11348, [11300]); (11349, [11301]); (11350, [11302]); (11351, [11303]);
   (11352, [11304]); (11353, [11305]); (11354, [11306]); (11355, [11307]);
   (11356, [11308]); (11357, [11309]); (11358, [11310]); (11359, [11311]);
   (11361, [11360]); (11365, [570]); (11366, [574]); (11368, [11367]);
   (11370, [11369]); (11372, [11371]); (11379, [11378]); (11382, [11381]);
   (11393, [11392]); (11395, [11394]); (11397, [11396]); (11399, [11398]);
   (11401, [11400]); (11403, [11402]); (11405, [11404]); (11407, [11406]);
   (11409, [11408]); (11411, [11410]); (11413, [11412]); (11415, [11414]);
   (11417, [11416]); (11419, [11418]); (11421, [11420]); (11423, [11422]);
   (11425, [11424]); (11427, [11426]); (11429, [11428]); (11431, [11430]);
   (11433, [11432]); (11435, [11434]); (11437, [11436]); (11439, [11438]);
   (11441, [11440]); (11443, [11442]); (11445, [11444]); (11447, [11446]);
   (11449, [11448]); (11451, [11450]); (11453, [11452]); (11455, [11454]);
   (11457, [11456]); (11459, [11458]); (11461, [11460]); (11463, [11462]);
   (11465, [11464]); (11467, [11466]); (11469, [11468]); (11471, [11470]);
   (11473, [11472]); (11475, [11474]); (11477, [11476]); (11479, [11478]);
   (11481, [11480]); (11483, [11482]); (11485, [11484]); (11487, [11486]);
   (11489, [11488]); (11491, [11490]); (11500, [11499]); (11502, [11501]);
   (11507, [11506]); (11520, [4256]); (11521, [4257]); (11522, [4258]);
   (11523, [4259]); (11524, [4260]); (11525, [4261]); (11526, [4262]);
   (11527, [4263]); (11528, [4264]); (11529, [4265]); (11530, [4266]);
   (11531, [4267]); (11532, [4268]); (11533, [4269]); (11534, [4270]);
   (11535, [4271]); (11536, [4272]); (11537, [4273]); (11538, [4274]);
   (11539, [4275]); (11540, [4276]); (11541, [4277]); (11542, [4278]);
   (11543, [4279]); (11544, [4280]); (11545, [4281]); (11546, [4282]);
   (11547, [4283]); (11548, [4284]); (11549, [4285]); (11550, [4286]);
   (11551, [4287]); (11552, [4288]); (11553, [4289]); (11554, [4290]);
   (11555, [4291]); (11556, [4292]); (11557, [4293]); (11559, [4295]);
   (11565, [4301]); (42561, [42560]); (42563, [42562]); (42565, [42564]);
   (42567, [42566]); (42569, [42568]); (42571, [42570]); (42573, [42572]);
   (42575, [42574]); (42577, [42576]); (42579, [42578]); (42581, [42580]);
   (42583, [42582]); (42585, [42584]); (42587, [42586]); (42589, [42588]);
   (42591, [42590]); (42593, [42592]); (42595, [42594]); (42597, [42596]);
   (42599, [42598]); (42601, [42600]); (42603, [42602]); (42605, [42604]);
   (42625, [42624]); (42627, [42626]); (42629, [42628]); (42631, [42630]);
   (42633, [42632]); (42635, [42634]); (42637, [42636]); (42639, [42638]);
   (42641, [42640]); (42643, [42642]); (42645, [42644]); (42647, [42646]);
   (42649, [42648]); (42651, [42650]); (42787, [42786]); (42789, [42788]);
   (42791, [42790]); (42793, [42792]); (42795, [42794]); (42797, [42796]);
   (42799, [42798]); (42803, [42802]); (42805, [42804]); (42807, [42806]);
   (42809, [42808]); (42811, [42810]); (42813, [42812]); (42815, [42814]);
   (42817, [42816]); (42819, [42818]); (42821, [42820]); (42823, [42822]);
   (42825, [42824]); (42827, [42826]); (42829, [42828]); (42831, [42830]);
   (42833, [42832]); (42835, [42834]); (42837, [42836]); (42839, [42838]);
   (42841, [42840]); (42843, [42842]); (42845, [42844]); (42847, [42846]);
   (42849, [42848]); (42851, [42850]); (42853, [42852]); (42855, [42854]);
   (42857, [42856]); (42859, [42858]); (42861, [42860]); (42863, [42862]);
   (42874, [42873]); (42876, [42875]); (42879, [42878]); (42881, [42880]);
   (42883, [42882]); (42885, [42884]); (42887, [42886]); (42892, [42891]);
   (42897, [42896]); (42899, [42898]); (42900, [42948]); (42903, [42902]);
   (42905, [42904]); (42907, [42906]); (42909, [42908]); (42911, [42910]);
   (42913, [42912]); (42915, [42914]); (42917, [42916]); (42919, [42918]);
   (42921, [42920]); (42933, [42932]); (42935, [42934]); (42937, [42936]);
   (42939, [42938]); (42941, [42940]); (42943, [42942]); (42945, [42944]);
   (42947, [42946]); (42952, [42951]); (42954, [42953]); (42961, [42960]);
   (42967, [42966]); (42969, [42968]); (42998, [42997]); (43859, [42931]);
   (43888, [5024]); (43889, [5025]); (43890, [5026]); (43891, [5027]);
   (43892, [5028]); (43893, [5029]); (43894, [5030]); (43895, [5031]);
   (43896, [5032]); (43897, [5033]); (43898, [5034]); (43899, [5035]);
   (43900, [5036]); (43901, [5037]); (43902, [5038]); (43903, [5039]);
   (43904, [5040]); (43905, [5041]); (43906, [5042]); (43907, [5043]);
   (43908, [5044]); (43909, [5045]); (43910, [5046]); (43911, [5047]);
   (43912, [5048]); (43913, [5049]); (43914, [5050]); (43915, [5051]);
   (43916, [5052]); (43917, [5053]); (43918, [5054]); (43919, [5055]);
   (43920, [5056]); (43921, [5057]); (43922, [5058]); (43923, [5059]);
   (43924, [5060]); (43925, [5061]); (43926, [5062]); (43927, [5063]);
   (43928, [5064]); (43929, [5065]); (43930, [5066]); (43931, [5067]);
   (43932, [5068]); (43933, [5069]); (43934, [5070]); (43935, [5071]);
   (43936, [5072]); (43937, [5073]); (43938, [5074]); (43939, [5075]);
   (43940, [5076]); (43941, [5077]); (43942, [5078]); (43943, [5079]);
   (43944, [5080]); (43945, [5081]); (43946, [5082]); (43947, [5083]);
   (43948, [5084]); (43949, [5085]); (43950, [5086]); (43951, [5087]);
   (43952, [5088]); (43953, [5089]); (43954, [5090]); (43955, [5091]);
   (43956, [5092]); (43957, [5093]); (43958, [5094]); (43959, [5095]);
   (43960, [5096]); (43961, [5097]); (43962, [5098]); (43963, [5099]);
   (43964, [5100]); (43965, [5101]); (43966, [5102]); (43967, [5103]);
   (64256, [70; 102]); (64257, [70; 105]); (64258, [70; 108]);
   (64259, [70; 102; 105]); (64260, [70; 102; 108]); (64261, [83; 116]);
   (64262, [83; 116]); (64275, [1348; 1398]); (64276, [1348; 1381]);
   (64277, [1348; 1387]); (64278, [1358; 1398]); (64279, [1348; 1389]);
   (65345, [65313]); (65346, [65314]); (65347, [65315]); (65348, [65316]);
   (65349, [65317]); (65350, [65318]); (65351, [65319]); (65352, [65320]);
   (65353, [65321]); (65354, [65322]); (65355, [65323]); (65356, [65324]);
   (65357, [65325]); (65358, [65326]); (65359, [65327]); (65360, [65328]);
   (65361, [65329]); (65362, [65330]); (65363, [65331]); (65364, [65332]);
   (65365, [65333]); (65366, [65334]); (65367, [65335]); (65368, [65336]);
   (65369, [65337]); (65370, [65338]); (66600, [66560]); (66601, [66561]);
   (66602, [66562]); (66603, [66563]); (66604, [66564]); (66605, [66565]);
   (66606, [66566]); (66607, [66567]); (66608, [66568]); (66609, [66569]);
   (66610, [66570]); (66611, [66571]); (66612, [66572]); (66613, [66573]);
   (66614, [66574]); (66615, [66575]); (66616, [66576]); (66617, [66577]);
   (66618, [66578]); (66619, [66579]); (66620, [66580]); (66621, [66581]);
   (66622, [66582]); (66623, [66583]); (66624, [66584]); (66625, [66585]);
   (66626, [66586]); (66627, [66587]); (66628, [66588]); (66629, [66589]);
   (66630, [66590]); (66631, [66591]); (66632, [66592]); (66633, [66593]);
   (66634, [66594]); (66635, [66595]); (66636, [66596]); (66637, [66597]);
   (66638, [66598]); (66639, [66599]); (66776, [66736]); (66777, [66737]);
   (66778, [66738]); (66779, [66739]); (66780, [66740]); (66781, [66741]);
   (66782, [66742]); (66783, [66743]); (66784, [66744]); (66785, [66745]);
   (66786, [66746]); (66787, [66747]); (66788, [66748]); (66789, [66749]);
   (66790, [66750]); (66791, [66751]); (66792, [66752]); (66793, [66753]);
   (66794, [66754]); (66795, [66755]); (66796, [66756]); (66797, [66757]);
   (66798, [66758]); (66799, [66759]); (66800, [66760]); (66801, [66761]);
   (66802, [66762]); (66803, [66763]); (66804, [66764]); (66805, [66765]);
   (66806, [66766]); (66807, [66767]); (66808, [66768]); (66809, [66769]);
   (66810, [66770]); (66811, [66771]); (66967, [66928]); (66968, [66929]);
   (66969, [66930]); (66970, [66931]); (66971, [66932]); (66972, [66933]);
   (66973, [66934]); (66974, [66935]); (66975, [66936]); (66976, [66937]);
   (66977, [66938]); (66979, [66940]); (66980, [66941]); (66981, [66942]);
   (66982, [66943]); (66983, [66944]); (66984, [66945]); (66985, [66946]);
   (66986, [66947]); (66987, [66948]); (66988, [66949]); (66989, [66950]);
   (66990, [66951]); (66991, [66952]); (66992, [66953]); (66993, [66954]);
   (66995, [66956]); (66996, [66957]); (66997, [66958]); (66998, [66959]);
   (66999, [66960]); (67000, [66961]); (67001, [66962]); (67003, [66964]);
   (67004, [66965]); (68800, [68736]); (68801, [68737]); (68802, [68738]);
   (68803, [68739]); (68804, [68740]); (68805, [68741]); (68806, [68742]);
   (68807, [68743]); (68808, [68744]); (68809, [68745]); (68810, [68746]);
   (68811, [68747]); (68812, [68748]); (68813, [68749]); (68814, [68750]);
   (68815, [68751]); (68816, [68752]); (68817, [68753]); (68818, [68754]);
   (68819, [68755]); (68820, [68756]); (68821, [68757]); (68822, [68758]);
   (68823, [68759]); (68824, [68760]); (68825, [68761]); (68826, [68762]);
   (68827, [68763]); (68828, [68764]); (68829, [68765]); (68830, [68766]);
   (68831, [68767]); (68832, [68768]); (68833, [68769]); (68834, [68770]);
   (68835, [68771]); (68836, [68772]); (68837, [68773]); (68838, [68774]);
   (68839, [68775]); (68840, [68776]); (68841, [68777]); (68842, [68778]);
   (68843, [68779]); (68844, [68780]); (68845, [68781]); (68846, [68782]);
   (68847, [68783]); (68848, [68784]); (68849, [68785]); (68850, [68786]);
   (71872, [71840]); (71873, [71841]); (71874, [71842]); (71875, [71843]);
   (71876, [71844]); (71877, [71845]); (71878, [71846]); (71879, [71847]);
   (71880, [71848]); (71881, [71849]); (71882, [71850]); (71883, [71851]);
   (71884, [71852]); (71885, [71853]); (71886, [71854]); (71887, [71855]);
   (71888, [71856]); (71889, [71857]); (71890, [71858]); (71891, [71859]);
   (71892, [71860]); (71893, [71861]); (71894, [71862]); (71895, [71863]);
   (71896, [71864]); (71897, [71865]); (71898, [71866]); (71899, [71867]);
   (71900, [71868]); (71901, [71869]); (71902, [71870]); (71903, [71871]);
   (93792, [93760]); (93793, [93761]); (93794, [93762]); (93795, [93763]);
   (93796, [93764]); (93797, [93765]); (93798, [93766]); (93799, [93767]);
   (93800, [93768]); (93801, [93769]); (93802, [93770]); (93803, [93771]);
   (93804, [93772]); (93805, [93773]); (93806, [93774]); (93807, [93775]);
   (93808, [93776]); (93809, [93777]); (93810, [93778]); (93811, [93779]);
   (93812, [93780]); (93813, [93781]); (93814, [93782]); (93815, [93783]);
   (93816, [93784]); (93817, [93785]); (93818, [93786]); (93819, [93787]);
   (93820, [93788]); (93821, [93789]); (93822, [93790]); (93823, [93791]);
   (125218, [125184]); (125219, [125185]); (125220, [125186]);
   (125221, [125187]); (125222, [125188]); (125223, [125189]);
   (125224, [125190]); (125225, [125191]); (125226, [125192]);
   (125227, [125193]); (125228, [125194]); (125229, [125195]);
   (125230, [125196]); (125231, [125197]); (125232, [125198]);
   (125233, [125199]); (125234, [125200]); (125235, [125201]);
   (125236, [125202]); (125237, [125203]); (125238, [125204]);
   (125239, [125205]); (125240, [125206]); (125241, [125207]);
   (125242, [125208]); (125243, [125209]); (125244, [125210]);
   (125245, [125211]); (125246, [125212]); (125247, [125213]);
   (125248, [125214]); (125249, [125215]); (125250, [125216]);
   (125251, [125217])
  ].

(** The code points whose full lower-case mapping is not the code point
    itself, with the mapping, in increasing order. *)
Definition lower_table : list (N * str) :=
  [
   (65, [97]); (66, [98]); (67, [99]); (68, [100]); (69, [101]);
   (70, [102]); (71, [103]); (72, [104]); (73, [105]); (74, [106]);
   (75, [107]); (76, [108]); (77, [109]); (78, [110]); (79, [111]);
   (80, [112]); (81, [113]); (82, [114]); (83, [115]); (84, [116]);
   (85, [117]); (86, [118]); (87, [119]); (88, [120]); (89, [121]);
   (90, [122]); (192, [224]); (193, [225]); (194, [226]); (195, [227]);
   (196, [228]); (197, [229]); (198, [230]); (199, [231]); (200, [232]);
   (201, [233]); (202, [234]); (203, [235]); (204, [236]); (205, [237]);
   (206, [238]); (207, [239]); (208, [240]); (209, [241]); (210, [242]);
   (211, [243]); (212, [244]); (213, [245]); (214, [246]); (216, [248]);
   (217, [249]); (218, [250]); (219, [251]); (220, [252]); (221, [253]);
   (222, [254]); (256, [257]); (258, [259]); (260, [261]); (262, [263]);
   (264, [265]); (266, [267]); (268, [269]); (270, [271]); (272, [273]);
   (274, [275]); (276, [277]); (278, [279]); (280, [281]); (282, [283]);
   (284, [285]); (286, [287]); (288, [289]); (290, [291]); (292, [293]);
   (294, [295]); (296, [297]); (298, [299]); (300, [301]); (302, [303]);
   (304, [105; 775]); (306, [307]); (308, [309]); (310, [311]);
   (313, [314]); (315, [316]); (317, [318]); (319, [320]); (321, [322]);
   (323, [324]); (325, [326]); (327, [328]); (330, [331]); (332, [333]);
   (334, [335]); (336, [337]); (338, [339]); (340, [341]); (342, [343]);
   (344, [345]); (346, [347]); (348, [349]); (350, [351]); (352, [353]);
   (354, [355]); (356, [357]); (358, [359]); (360, [361]); (362, [363]);
   (364, [365]); (366, [367]); (368, [369]); (370, [371]); (372, [373]);
   (374, [375]); (376, [255]); (377, [378]); (379, [380]); (381, [382]);
   (385, [595]); (386, [387]); (388, [389]); (390, [596]); (391, [392]);
   (393, [598]); (394, [599]); (395, [396]); (398, [477]); (399, [601]);
   (400, [603]); (401, [402]); (403, [608]); (404, [611]); (406, [617]);
   (407, [616]); (408, [409]); (412, [623]); (413, [626]); (415, [629]);
   (416, [417]); (418, [419]); (420, [421]); (422, [640]); (423, [424]);
   (425, [643]); (428, [429]); (430, [648]); (431, [432]); (433, [650]);
   (434, [651]); (435, [436]); (437, [438]); (439, [658]); (440, [441]);
   (444, [445]); (452, [454]); (453, [454]); (455, [457]); (456, [457]);
   (458, [460]); (459, [460]); (461, [462]); (463, [464]); (465, [466]);
   (467, [468]); (469, [470]); (471, [472]); (473, [474]); (475, [476]);
   (478, [479]); (480, [481]); (482, [483]); (484, [485]); (486, [487]);
   (488, [489]); (490, [491]); (492, [493]); (494, [495]); (497, [499]);
   (498, [499]); (500, [501]); (502, [405]); (503, [447]); (504, [505]);
   (506, [507]); (508, [509]); (510, [511]); (512, [513]); (514, [515]);
   (516, [517]); (518, [519]); (520, [521]); (522, [523]); (524, [525]);
   (526, [527]); (528, [529]); (530, [531]); (532, [533]); (534, [535]);
   (536, [537]); (538, [539]); (540, [541]); (542, [543]); (544, [414]);
   (546, [547]); (548, [549]); (550, [551]); (552, [553]); (554, [555]);
   (556, [557]); (558, [559]); (560, [561]); (562, [563]); (570, [11365]);
   (571, [572]); (573, [410]); (574, [11366]); (577, [578]); (579, [384]);
   (580, [649]); (581, [652]); (582, [583]); (584, [585]); (586, [587]);
   (588, [589]); (590, [591]); (880, [881]); (882, [883]); (886, [887]);
   (895, [1011]); (902, [940]); (904, [941]); (905, [942]); (906, [943]);
   (908, [972]); (910, [973]); (911, [974]); (913, [945]); (914, [946]);
   (915, [947]); (916, [948]); (917, [949]); (918, [950]); (919, [951]);
   (920, [952]); (921, [953]); (922, [954]); (923, [955]); (924, [956]);
   (925, [957]); (926, [958]); (927, [959]); (928, [960]); (929, [961]);
   (931, [963]); (932, [964]); (933, [965]); (934, [966]); (935, [967]);
   (936, [968]); (937, [969]); (938, [970]); (939, [971]); (975, [983]);
   (984, [985]); (986, [987]); (988, [989]); (990, [991]); (992, [993]);
   (994, [995]); (996, [997]); (998, [999]); (1000, [1001]);
   (1002, [1003]); (1004, [1005]); (1006, [1007]); (1012, [952]);
   (1015, [1016]); (1017, [1010]); (1018, [1019]); (1021, [891]);
   (1022, [892]); (1023, [893]); (1024, [1104]); (1025, [1105]);
   (1026, [1106]); (1027, [1107]); (1028, [1108]); (1029, [1109]);
   (1030, [1110]); (1031, [1111]); (1032, [1112]); (1033, [1113]);
   (1034, [1114]); (1035, [1115]); (1036, [1116]); (1037, [1117]);
   (1038, [1118]); (1039, [1119]); (1040, [1072]); (1041, [1073]);
   (1042, [1074]); (1043, [1075]); (1044, [1076]); (1045, [1077]);
   (1046, [1078]); (1047, [1079]); (1048, [1080]); (1049, [1081]);
   (1050, [1082]); (1051, [1083]); (1052, [1084]); (1053, [1085]);
   (1054, [1086]); (1055, [1087]); (1056, [1088]); (1057, [1089]);
   (1058, [1090]); (1059, [1091]); (1060, [1092]); (1061, [1093]);
   (1062, [1094]); (1063, [1095]); (1064, [1096]); (1065, [1097]);
   (1066, [1098]); (1067, [1099]); (1068, [1100]); (1069, [1101]);
   (1070, [1102]); (1071, [1103]); (1120, [1121]); (1122, [1123]);
   (1124, [1125]); (1126, [1127]); (1128, [1129]); (1130, [1131]);
   (1132, [1133]); (1134, [1135]); (1136, [1137]); (1138, [1139]);
   (1140, [1141]); (1142, [1143]); (1144, [1145]); (1146, [1147]);
   (1148, [1149]); (1150, [1151]); (1152, [1153]); (1162, [1163]);
   (1164, [1165]); (1166, [1167]); (1168, [1169]); (1170, [1171]);
   (1172, [1173]); (1174, [1175]); (1176, [1177]); (1178, [1179]);
   (1180, [1181]); (1182, [1183]); (1184, [1185]); (1186, [1187]);
   (1188, [1189]); (1190, [1191]); (1192, [1193]); (1194, [1195]);
   (1196, [1197]); (1198, [1199]); (1200, [1201]); (1202, [1203]);
   (1204, [1205]); (1206, [1207]); (1208, [1209]); (1210, [1211]);
   (1212, [1213]); (1214, [1215]); (1216, [1231]); (1217, [1218]);
   (1219, [1220]); (1221, [1222]); (1223, [1224]); (1225, [1226]);
   (1227, [1228]); (1229, [1230]); (1232, [1233]); (1234, [1235]);
   (1236, [1237]); (1238, [1239]); (1240, [1241]); (1242, [1243]);
   (1244, [1245]); (1246, [1247]); (1248, [1249]); (1250, [1251]);
   (1252, [1253]); (1254, [1255]); (1256, [1257]); (1258, [1259]);
   (1260, [1261]); (1262, [1263]); (1264, [1265]); (1266, [1267]);
   (1268, [1269]); (1270, [1271]); (1272, [1273]); (1274, [1275]);
   (1276, [1277]); (1278, [1279]); (1280, [1281]); (1282, [1283]);
   (1284, [1285]); (1286, [1287]); (1288, [1289]); (1290, [1291]);
   (1292, [1293]); (1294, [1295]); (1296, [1297]); (1298, [1299]);
   (1300, [1301]); (1302, [1303]); (1304, [1305]); (1306, [1307]);
   (1308, [1309]); (1310, [1311]); (1312, [1313]); (1314, [1315]);
   (1316, [1317]); (1318, [1319]); (1320, [1321]); (1322, [1323]);
   (1324, [1325]); (1326, [1327]); (1329, [1377]); (1330, [1378]);
   (1331, [1379]); (1332, [1380]); (1333, [1381]); (1334, [1382]);
   (1335, [1383]); (1336, [1384]); (1337, [1385]); (1338, [1386]);
   (1339, [1387]); (1340, [1388]); (1341, [1389]); (1342, [1390]);
   (1343, [1391]); (1344, [1392]); (1345, [1393]); (1346, [1394]);
   (1347, [1395]); (1348, [1396]); (1349, [1397]); (1350, [1398]);
   (1351, [1399]); (1352, [1400]); (1353, [1401]); (1354, [1402]);
   (1355, [1403]); (1356, [1404]); (1357, [1405]); (1358, [1406]);
   (1359, [1407]); (1360, [1408]); (1361, [1409]); (1362, [1410]);
   (1363, [1411]); (1364, [1412]); (1365, [1413]); (1366, [1414]);
   (4256, [11520]); (4257, [11521]); (4258, [11522]); (4259, [11523]);
   (4260, [11524]); (4261, [11525]); (4262, [11526]); (4263, [11527]);
   (4264, [11528]); (4265, [11529]); (4266, [11530]); (4267, [11531]);
   (4268, [11532]); (4269, [11533]); (4270, [11534]); (4271, [11535]);
   (4272, [11536]); (4273, [11537]); (4274, [11538]); (4275, [11539]);
   (4276, [11540]); (4277, [11541]); (4278, [11542]); (4279, [11543]);
   (4280, [11544]); (4281, [11545]); (4282, [11546]); (4283, [11547]);
   (4284, [11548]); (4285, [11549]); (4286, [11550]); (4287, [11551]);
   (4288, [11552]); (4289, [11553]); (4290, [11554]); (4291, [11555]);
   (4292, [11556]); (4293, [11557]); (4295, [11559]); (4301, [11565]);
   (5024, [43888]); (5025, [43889]); (5026, [43890]); (5027, [43891]);
   (5028, [43892]); (5029, [43893]); (5030, [43894]); (5031, [43895]);
   (5032, [43896]); (5033, [43897]); (5034, [43898]); (5035, [43899]);
   (5036, [43900]); (5037, [43901]); (5038, [43902]); (5039, [43903]);
   (5040, [43904]); (5041, [43905]); (5042, [43906]); (5043, [43907]);
   (5044, [43908]); (5045, [43909]); (5046, [43910]); (5047, [43911]);
   (5048, [43912]); (5049, [43913]); (5050, [43914]); (5051, [43915]);
   (5052, [43916]); (5053, [43917]); (5054, [43918]); (5055, [43919]);
   (5056, [43920]); (5057, [43921]); (5058, [43922]); (5059, [43923]);
   (5060, [43924]); (5061, [43925]); (5062, [43926]); (5063, [43927]);
   (5064, [43928]); (5065, [43929]); (5066, [43930]); (5067, [43931]);
   (5068, [43932]); (5069, [43933]); (5070, [43934]); (5071, [43935]);
   (5072, [43936]); (5073, [43937]); (5074, [43938]); (5075, [43939]);
   (5076, [43940]); (5077, [43941]); (5078, [43942]); (5079, [43943]);
   (5080, [43944]); (5081, [43945]); (5082, [43946]); (5083, [43947]);
   (5084, [43948]); (5085, [43949]); (5086, [43950]); (5087, [43951]);
   (5088, [43952]); (5089, [43953]); (5090, [43954]); (5091, [43955]);
   (5092, [43956]); (5093, [43957]); (5094, [43958]); (5095, [43959]);
   (5096, [43960]); (5097, [43961]); (5098, [43962]); (5099, [43963]);
   (5100, [43964]); (5101, [43965]); (5102, [43966]); (5103, [43967]);
   (5104, [5112]); (5105, [5113]); (5106, [5114]); (5107, [5115]);
   (5108, [5116]); (5109, [5117]); (7312, [4304]); (7313, [4305]);
   (7314, [4306]); (7315, [4307]); (7316, [4308]); (7317, [4309]);
   (7318, [4310]); (7319, [4311]); (7320, [4312]); (7321, [4313]);
   (7322, [4314]); (7323, [4315]); (7324, [4316]); (7325, [4317]);
   (7326, [4318]); (7327, [4319]); (7328, [4320]); (7329, [4321]);
   (7330, [4322]); (7331, [4323]); (7332, [4324]); (7333, [4325]);
   (7334, [4326]); (7335, [4327]); (7336, [4328]); (7337, [4329]);
   (7338, [4330]); (7339, [4331]); (7340, [4332]); (7341, [4333]);
   (7342, [4334]); (7343, [4335]); (7344, [4336]); (7345, [4337]);
   (7346, [4338]); (7347, [4339]); (7348, [4340]); (7349, [4341]);
   (7350, [4342]); (7351, [4343]); (7352, [4344]); (7353, [4345]);
   (7354, [4346]); (7357, [4349]); (7358, [4350]); (7359, [4351]);
   (7680, [7681]); (7682, [7683]); (7684, [7685]); (7686, [7687]);
   (7688, [7689]); (7690, [7691]); (7692, [7693]); (7694, [7695]);
   (7696, [7697]); (7698, [7699]); (7700, [7701]); (7702, [7703]);
   (7704, [7705]); (7706, [7707]); (7708, [7709]); (7710, [7711]);
   (7712, [7713]); (7714, [7715]); (7716, [7717]); (7718, [7719]);
   (7720, [7721]); (7722, [7723]); (7724, [7725]); (7726, [7727]);
   (7728, [7729]); (7730, [7731]); (7732, [7733]); (7734, [7735]);
   (7736, [7737]); (7738, [7739]); (7740, [7741]); (7742, [7743]);
   (7744, [7745]); (7746, [7747]); (7748, [7749]); (7750, [7751]);
   (7752, [7753]); (7754, [7755]); (7756, [7757]); (7758, [7759]);
   (7760, [7761]); (7762, [7763]); (7764, [7765]); (7766, [7767]);
   (7768, [7769]); (7770, [7771]); (7772, [7773]); (7774, [7775]);
   (7776, [7777]); (7778, [7779]); (7780, [7781]); (7782, [7783]);
   (7784, [7785]); (7786, [7787]); (7788, [7789]); (7790, [7791]);
   (7792, [7793]); (7794, [7795]); (7796, [7797]); (7798, [7799]);
   (7800, [7801]); (7802, [7803]); (7804, [7805]); (7806, [7807]);
   (7808, [7809]); (7810, [7811]); (7812, [7813]); (7814, [7815]);
   (7816, [7817]); (7818, [7819]); (7820, [7821]); (7822, [7823]);
   (7824, [7825]); (7826, [7827]); (7828, [7829]); (7838, [223]);
   (7840, [7841]); (7842, [7843]); (7844, [7845]); (7846, [7847]);
   (7848, [7849]); (7850, [7851]); (7852, [7853]); (7854, [7855]);
   (7856, [7857]); (7858, [7859]); (7860, [7861]); (7862, [7863]);
   (7864, [7865]); (7866, [7867]); (7868, [7869]); (7870, [7871]);
   (7872, [7873]); (7874, [7875]); (7876, [7877]); (7878, [7879]);
   (7880, [7881]); (7882, [7883]); (7884, [7885]); (7886, [7887]);
   (7888, [7889]); (7890, [7891]); (7892, [7893]); (7894, [7895]);
   (7896, [7897]); (7898, [7899]); (7900, [7901]); (7902, [7903]);
   (7904, [7905]); (7906, [7907]); (7908, [7909]); (7910, [7911]);
   (7912, [7913]); (7914, [7915]); (7916, [7917]); (7918, [7919]);
   (7920, [7921]); (7922, [7923]); (7924, [7925]); (7926, [7927]);
   (7928, [7929]); (7930, [7931]); (7932, [7933]); (7934, [7935]);
   (7944, [7936]); (7945, [7937]); (7946, [7938]); (7947, [7939]);
   (7948, [7940]); (7949, [7941]); (7950, [7942]); (7951, [7943]);
   (7960, [7952]); (7961, [7953]); (7962, [7954]); (7963, [7955]);
   (7964, [7956]); (7965, [7957]); (7976, [7968]); (7977, [7969]);
   (7978, [7970]); (7979, [7971]); (7980, [7972]); (7981, [7973]);
   (7982, [7974]); (7983, [7975]); (7992, [7984]); (7993, [7985]);
   (7994, [7986]); (7995, [7987]); (7996, [7988]); (7997, [7989]);
   (7998, [7990]); (7999, [7991]); (8008, [8000]); (8009, [8001]);
   (8010, [8002]); (8011, [8003]); (8012, [8004]); (8013, [8005]);
   (8025, [8017]); (8027, [8019]); (8029, [8021]); (8031, [8023]);
   (8040, [8032]); (8041, [8033]); (8042, [8034]); (8043, [8035]);
   (8044, [8036]); (8045, [8037]); (8046, [8038]); (8047, [8039]);
   (8072, [8064]); (8073, [8065]); (8074, [8066]); (8075, [8067]);
   (8076, [8068]); (8077, [8069]); (8078, [8070]); (8079, [8071]);
   (8088, [8080]); (8089, [8081]); (8090, [8082]); (8091, [8083]);
   (8092, [8084]); (8093, [8085]); (8094, [8086]); (8095, [8087]);
   (8104, [8096]); (8105, [8097]); (8106, [8098]); (8107, [8099]);
   (8108, [8100]); (8109, [8101]); (8110, [8102]); (8111, [8103]);
   (8120, [8112]); (8121, [8113]); (8122, [8048]); (8123, [8049]);
   (8124, [8115]); (8136, [8050]); (8137, [8051]); (8138, [8052]);
   (8139, [8053]); (8140, [8131]); (8152, [8144]); (8153, [8145]);
   (8154, [8054]); (8155, [8055]); (8168, [8160]); (8169, [8161]);
   (8170, [8058]); (8171, [8059]); (8172, [8165]); (8184, [8056]);
   (8185, [8057]); (8186, [8060]); (8187, [8061]); (8188, [8179]);
   (8486, [969]); (8490, [107]); (8491, [229]); (8498, [8526]);
   (8544, [8560]); (8545, [8561]); (8546, [8562]); (8547, [8563]);
   (8548, [8564]); (8549, [8565]); (8550, [8566]); (8551, [8567]);
   (8552, [8568]); (8553, [8569]); (8554, [8570]); (8555, [8571]);
   (8556, [8572]); (8557, [8573]); (8558, [8574]); (8559, [8575]);
   (8579, [8580]); (9398, [9424]); (9399, [9425]); (9400, [9426]);
   (9401, [9427]); (9402, [9428]); (9403, [9429]); (9404, [9430]);
   (9405, [9431]); (9406, [9432]); (9407, [9433]); (9408, [9434]);
   (9409, [9435]); (9410, [9436]); (9411, [9437]); (9412, [9438]);
   (9413, [9439]); (9414, [9440]); (9415, [9441]); (9416, [9442]);
   (9417, [9443]); (9418, [9444]); (9419, [9445]); (9420, [9446]);
   (9421, [9447]); (9422, [9448]); (9423, [9449]); (11264, [11312]);
   (11265, [11313]); (11266, [11314]); (11267, [11315]); (11268, [11316]);
   (11269, [11317]); (11270, [11318]); (11271, [11319]); (11272, [11320]);
   (11273, [11321]); (11274, [11322]); (11275, [11323]); (11276, [11324]);
   (11277, [11325]); (11278, [11326]); (11279, [11327]); (11280, [11328]);
   (11281, [11329]); (11282, [11330]); (11283, [11331]); (11284, [11332]);
   (11285, [11333]); (11286, [11334]); (11287, [11335]); (11288, [11336]);
   (11289, [11337]); (11290, [11338]); (11291, [11339]); (11292, [11340]);
   (11293, [11341]); (11294, [11342]); (11295, [11343]); (11296, [11344]);
   (11297, [11345]); (11298, [11346]); (11299, [11347]); (11300, [11348]);
   (11301, [11349]); (11302, [11350]); (11303, [11351]); (11304, [11352]);
   (11305, [11353]); (11306, [11354]); (11307, [11355]); (11308, [11356]);
   (11309, [11357]); (11310, [11358]); (11311, [11359]); (11360, [11361]);
   (11362, [619]); (11363, [7549]); (11364, [637]); (11367, [11368]);
   (11369, [11370]); (11371, [11372]); (11373, [593]); (11374, [625]);
   (11375, [592]); (11376, [594]); (11378, [11379]); (11381, [11382]);
   (11390, [575]); (11391, [576]); (11392, [11393]); (11394, [11395]);
   (11396, [11397]); (11398, [11399]); (11400, [11401]); (11402, [11403]);
   (11404, [11405]); (11406, [11407]); (11408, [11409]); (11410, [11411]);
   (11412, [11413]); (11414, [11415]); (11416, [11417]); (11418, [11419]);
   (11420, [11421]); (11422, [11423]); (11424, [11425]); (11426, [11427]);
   (11428, [11429]); (11430, [11431]); (11432, [11433]); (11434, [11435]);
   (11436, [11437]); (11438, [11439]); (11440, [11441]); (11442, [11443]);
   (11444, [11445]); (11446, [11447]); (11448, [11449]); (11450, [11451]);
   (11452, [11453]); (11454, [11455]); (11456, [11457]); (11458, [11459]);
   (11460, [11461]); (11462, [11463]); (11464, [11465]); (11466, [11467]);
   (11468, [11469]); (11470, [11471]); (11472, [11473]); (11474, [11475]);
   (11476, [11477]); (11478, [11479]); (11480, [11481]); (11482, [11483]);
   (11484, [11485]); (11486, [11487]); (11488, [11489]); (11490, [11491]);
   (11499, [11500]); (11501, [11502]); (11506, [11507]); (42560, [42561]);
   (42562, [42563]); (42564, [42565]); (42566, [42567]); (42568, [42569]);
   (42570, [42571]); (42572, [42573]); (42574, [42575]); (42576, [42577]);
   (42578, [42579]); (42580, [42581]); (42582, [42583]); (42584, [42585]);
   (42586, [42587]); (42588, [42589]); (42590, [42591]); (42592, [42593]);
   (42594, [42595]); (42596, [42597]); (42598, [42599]); (42600, [42601]);
   (42602, [42603]); (42604, [42605]); (42624, [42625]); (42626, [42627]);
   (42628, [42629]); (42630, [42631]); (42632, [42633]); (42634, [42635]);
   (42636, [42637]); (42638, [42639]); (42640, [42641]); (42642, [42643]);
   (42644, [42645]); (42646, [42647]); (42648, [42649]); (42650, [42651]);
   (42786, [42787]); (42788, [42789]); (42790, [42791]); (42792, [42793]);
   (42794, [42795]); (42796, [42797]); (42798, [42799]); (42802, [42803]);
   (42804, [42805]); (42806, [42807]); (42808, [42809]); (42810, [42811]);
   (42812, [42813]); (42814, [42815]); (42816, [42817]); (42818, [42819]);
   (42820, [42821]); (42822, [42823]); (42824, [42825]); (42826, [42827]);
   (42828, [42829]); (42830, [42831]); (42832, [42833]); (42834, [42835]);
   (42836, [42837]); (42838, [42839]); (42840, [42841]); (42842, [42843]);
   (42844, [42845]); (42846, [42847]); (42848, [42849]); (42850, [42851]);
   (42852, [42853]); (42854, [42855]); (42856, [42857]); (42858, [42859]);
   (42860, [42861]); (42862, [42863]); (42873, [42874]); (42875, [42876]);
   (42877, [7545]); (42878, [42879]); (42880, [42881]); (42882, [42883]);
   (42884, [42885]); (42886, [42887]); (42891, [42892]); (42893, [613]);
   (42896, [42897]); (42898, [42899]); (42902, [42903]); (42904, [42905]);
   (42906, [42907]); (42908, [42909]); (42910, [42911]); (42912, [42913]);
   (42914, [42915]); (42916, [42917]); (42918, [42919]); (42920, [42921]);
   (42922, [614]); (42923, [604]); (42924, [609]); (42925, [620]);
   (42926, [618]); (42928, [670]); (42929, [647]); (42930, [669]);
   (42931, [43859]); (42932, [42933]); (42934, [42935]); (42936, [42937]);
   (42938, [42939]); (42940, [42941]); (42942, [42943]); (42944, [42945]);
   (42946, [42947]); (42948, [42900]); (42949, [642]); (42950, [7566]);
   (42951, [42952]); (42953, [42954]); (42960, [42961]); (42966, [42967]);
   (42968, [42969]); (42997, [42998]); (65313, [65345]); (65314, [65346]);
   (65315, [65347]); (65316, [65348]); (65317, [65349]); (65318, [65350]);
   (65319, [65351]); (65320, [65352]); (65321, [65353]); (65322, [65354]);
   (65323, [65355]); (65324, [65356]); (65325, [65357]); (65326, [65358]);
   (65327, [65359]); (65328, [65360]); (65329, [65361]); (65330, [65362]);
   (65331, [65363]); (65332, [65364]); (65333, [65365]); (65334, [65366]);
   (65335, [65367]); (65336, [65368]); (65337, [65369]); (65338, [65370]);
   (66560, [66600]); (66561, [66601]); (66562, [66602]); (66563, [66603]);
   (66564, [66604]); (66565, [66605]); (66566, [66606]); (66567, [66607]);
   (66568, [66608]); (66569, [66609]); (66570, [66610]); (66571, [66611]);
   (66572, [66612]); (66573, [66613]); (66574, [66614]); (66575, [66615]);
   (66576, [66616]); (66577, [66617]); (66578, [66618]); (66579, [66619]);
   (66580, [66620]); (66581, [66621]); (66582, [66622]); (66583, [66623]);
   (66584, [66624]); (66585, [66625]); (66586, [66626]); (66587, [66627]);
   (66588, [66628]); (66589, [66629]); (66590, [66630]); (66591, [66631]);
   (66592, [66632]); (66593, [66633]); (66594, [66634]); (66595, [66635]);
   (66596, [66636]); (66597, [66637]); (66598, [66638]); (66599, [66639]);
   (66736, [66776]); (66737, [66777]); (66738, [66778]); (66739, [66779]);
   (66740, [66780]); (66741, [66781]); (66742, [66782]); (66743, [66783]);
   (66744, [66784]); (66745, [66785]); (66746, [66786]); (66747, [66787]);
   (66748, [66788]); (66749, [66789]); (66750, [66790]); (66751, [66791]);
   (66752, [66792]); (66753, [66793]); (66754, [66794]); (66755, [66795]);
   (66756, [66796]); (66757, [66797]); (66758, [66798]); (66759, [66799]);
   (66760, [66800]); (66761, [66801]); (66762, [66802]); (66763, [66803]);
   (66764, [66804]); (66765, [66805]); (66766, [66806]); (66767, [66807]);
   (66768, [66808]); (66769, [66809]); (66770, [66810]); (66771, [66811]);
   (66928, [66967]); (66929, [66968]); (66930, [66969]); (66931, [66970]);
   (66932, [66971]); (66933, [66972]); (66934, [66973]); (66935, [66974]);
   (66936, [66975]); (66937, [66976]); (66938, [66977]); (66940, [66979]);
   (66941, [66980]); (66942, [66981]); (66943, [66982]); (66944, [66983]);
   (66945, [66984]); (66946, [66985]); (66947, [66986]); (66948, [66987]);
   (66949, [66988]); (66950, [66989]); (66951, [66990]); (66952, [66991]);
   (66953, [66992]); (66954, [66993]); (66956, [66995]); (66957, [66996]);
   (66958, [66997]); (66959, [66998]); (66960, [66999]); (66961, [67000]);
   (66962, [67001]); (66964, [67003]); (66965, [67004]); (68736, [68800]);
   (68737, [68801]); (68738, [68802]); (68739, [68803]); (68740, [68804]);
   (68741, [68805]); (68742, [68806]); (68743, [68807]); (68744, [68808]);
   (68745, [68809]); (68746, [68810]); (68747, [68811]); (68748, [68812]);
   (68749, [68813]); (68750, [68814]); (68751, [68815]); (68752, [68816]);
   (68753, [68817]); (68754, [68818]); (68755, [68819]); (68756, [68820]);
   (68757, [68821]); (68758, [68822]); (68759, [68823]); (68760, [68824]);
   (68761, [68825]); (68762, [68826]); (68763, [68827]); (68764, [68828]);
   (68765, [68829]); (68766, [68830]); (68767, [68831]); (68768, [68832]);
   (68769, [68833]); (68770, [68834]); (68771, [68835]); (68772, [68836]);
   (68773, [68837]); (68774, [68838]); (68775, [68839]); (68776, [68840]);
   (68777, [68841]); (68778, [68842]); (68779, [68843]); (68780, [68844]);
   (68781, [68845]); (68782, [68846]); (68783, [68847]); (68784, [68848]);
   (68785, [68849]); (68786, [68850]); (71840, [71872]); (71841, [71873]);
   (71842, [71874]); (71843, [71875]); (71844, [71876]); (71845, [71877]);
   (71846, [71878]); (71847, [71879]); (71848, [71880]); (71849, [71881]);
   (71850, [71882]); (71851, [71883]); (71852, [71884]); (71853, [71885]);
   (71854, [71886]); (71855, [71887]); (71856, [71888]); (71857, [71889]);
   (71858, [71890]); (71859, [71891]); (71860, [71892]); (71861, [71893]);
   (71862, [71894]); (71863, [71895]); (71864, [71896]); (71865, [71897]);
   (71866, [71898]); (71867, [71899]); (71868, [71900]); (71869, [71901]);
   (71870, [71902]); (71871, [71903]); (93760, [93792]); (93761, [93793]);
   (93762, [93794]); (93763, [93795]); (93764, [93796]); (93765, [93797]);
   (93766, [93798]); (93767, [93799]); (93768, [93800]); (93769, [93801]);
   (93770, [93802]); (93771, [93803]); (93772, [93804]); (93773, [93805]);
   (93774, [93806]); (93775, [93807]); (93776, [93808]); (93777, [93809]);
   (93778, [93810]); (93779, [93811]); (93780, [93812]); (93781, [93813]);
   (93782, [93814]); (93783, [93815]); (93784, [93816]); (93785, [93817]);
   (93786, [93818]); (93787, [93819]); (93788, [93820]); (93789, [93821]);
   (93790, [93822]); (93791, [93823]); (125184, [125218]);
   (125185, [125219]); (125186, [125220]); (125187, [125221]);
   (125188, [125222]); (125189, [125223]); (125190, [125224]);
   (125191, [125225]); (125192, [125226]); (125193, [125227]);
   (125194, [125228]); (125195, [125229]); (125196, [125230]);
   (125197, [125231]); (125198, [125232]); (125199, [125233]);
   (125200, [125234]); (125201, [125235]); (125202, [125236]);
   (125203, [125237]); (125204, [125238]); (125205, [125239]);
   (125206, [125240]); (125207, [125241]); (125208, [125242]);
   (125209, [125243]); (125210, [125244]); (125211, [125245]);
   (125212, [125246]); (125213, [125247]); (125214, [125248]);
   (125215, [125249]); (125216, [125250]); (125217, [125251])
  ].

Fixpoint in_ranges (ranges : list (N * N)) (c : char) : bool :=
  match ranges with
  | [] => false
  | (lo, hi) :: rest =>
      if c <? lo then false
      else if c <=? hi then true
      else in_ranges rest c
  end.

Fixpoint table_get (table : list (N * str)) (c : char) : option str :=
  match table with
  | [] => None
  | (k, m) :: rest =>
      if c <? k then None
      else if c =? k then Some m
      else table_get rest c
  end.

(** [_PyUnicode_IsCased] *)
Definition is_cased (c : char) : bool := in_ranges cased_ranges c.

(** [_PyUnicode_IsCaseIgnorable] *)
Definition is_case_ignorable (c : char) : bool :=
  in_ranges case_ignorable_ranges c.

(** [_PyUnicode_ToTitleFull] *)
Definition to_title_full (c : char) : str :=
  match table_get title_table c with
  | Some m => m
  | None => [c]
  end.

(** [_PyUnicode_ToLowerFull] *)
Definition to_lower_full (c : char) : str :=
  match table_get lower_table c with
  | Some m => m
  | None => [c]
  end.

(** The two loops of [handle_capital_sigma]: the first character that
    is not case-ignorable, going away from the sigma. *)
Fixpoint first_not_ignorable (s : str) : option char :=
  match s with
  | [] => None
  | c :: rest => if is_case_ignorable c then first_not_ignorable rest else Some c
  end.

(** A cased character stands before, case-ignorable ones apart. *)
Definition cased_before (before : str) : bool :=
  match first_not_ignorable before with
  | Some c => is_cased c
  | None => false
  end.

(** No cased character stands after, case-ignorable ones apart. *)
Definition uncased_after (after : str) : bool :=
  match first_not_ignorable after with
  | Some c => negb (is_cased c)
  | None => true
  end.

(** [handle_capital_sigma]: U+03A3 is lower-cased to the final sigma
    U+03C2 at the end of a word and to U+03C3 elsewhere.  [before] is
    the text before the character, the nearest character first, [after]
    the text after it. *)
Definition handle_capital_sigma (before after : str) : char :=
  if cased_before before && uncased_after after then 962 else 963.

(** [lower_ucs4] *)
Definition lower_ucs4 (before after : str) (c : char) : str :=
  if c =? 931 then [handle_capital_sigma before after]
  else to_lower_full c.

(** [str.title()]: the loop of [do_title] in [unicodeobject.c], with the
    text already gone through in [before], the nearest character
    first. *)
Fixpoint do_title (before : str) (previous_is_cased : bool) (s : str) : str :=
  match s with
  | [] => []
  | c :: rest =>
      (if previous_is_cased then lower_ucs4 before rest c else to_title_full c)
        ++ do_title (c :: before) (is_cased c) rest
  end.

Definition title (s : str) : str := do_title [] false s.

(** [s.replace(old, new)] for one-character [old] and [new]. *)
Definition replace (old new : char) (s : str) : str :=
  map (fun c => if c =? old then new else c) s.

(** [s.rstrip(chars)] for a one-character [chars]. *)
Fixpoint lstrip_char (ch : char) (s : str) : str :=
  match s with
  | c :: rest => if c =? ch then lstrip_char ch rest else s
  | [] => []
  end.

Definition rstrip (ch : char) (s : str) : str :=
  rev (lstrip_char ch (rev s)).

(** [s.split(sep)] for a one-character [sep]: never empty. *)
Fixpoint split (sep : char) (s : str) : list str :=
  match s with
  | [] => [[]]
  | c :: rest =>
      if c =? sep then [] :: split sep rest
      else match split sep rest with
           | w :: ws => (c :: w) :: ws
           | [] => [[c]]
           end
  end.

(** [sep.join(parts)] for a one-character [sep]. *)
Fixpoint join (sep : char) (parts : list str) : str :=
  match parts with
  | [] => []
  | [w] => w
  | w :: ws => w ++ sep :: join sep ws
  end.

(** [xs[-1]]: [None] stands for [IndexError]. *)
Fixpoint last_item {A} (xs : list A) : option A :=
  match xs with
  | [] => None
  | [x] => Some x
  | _ :: rest => last_item rest
  end.


(** [Py_UNICODE_ISSPACE]: the characters [str.strip()] removes and the
    regular expression class [\s] matches. *)
Definition isspace (c : char) : bool :=
  ((9 <=? c) && (c <=? 13)) || ((28 <=? c) && (c <=? 32))
  || (c =? 133) || (c =? 160) || (c =? 5760)
  || ((8192 <=? c) && (c <=? 8202))
  || (c =? 8232) || (c =? 8233) || (c =? 8239) || (c =? 8287)
  || (c =? 12288).

Fixpoint lstrip (s : str) : str :=
  match s with
  | c :: rest => if isspace c then lstrip rest else s
  | [] => []
  end.

(** [s.strip()] *)
Definition strip (s : str) : str := rev (lstrip (rev (lstrip s))).

(** [re.findall(r"\S+", s)]: the maximal runs without whitespace. *)
Fixpoint tokens_from (cur : str) (s : str) : list str :=
  match s with
  | [] => match cur with [] => [] | _ => [rev cur] end
  | c :: rest =>
      if isspace c
      then match cur with
           | [] => tokens_from [] rest
           | _ => rev cur :: tokens_from [] rest
           end
      else tokens_from (c :: cur) rest
  end.

Definition tokens (s : str) : list str := tokens_from [] s.

Fixpoint startswith (prefix s : str) : bool :=
  match prefix, s with
  | [], _ => true
  | p :: prefix', c :: s' => (p =? c) && startswith prefix' s'
  | _ :: _, [] => false
  end.

(** [sub in s] *)
Fixpoint contains (sub s : str) : bool :=
  startswith sub s
  || match s with
     | [] => false
     | _ :: s' => contains sub s'
     end.

(** Python values of the script's records: [None] or a [str]. *)
Definition value := option str.

(** Truth value of [None] and of a [str]. *)
Definition truthy (v : value) : bool :=
  match v with
  | None => false
  | Some [] => false
  | Some (_ :: _) => true
  end.

(** A [dict] with [str] keys, in insertion order. *)
Definition dict := list (str * value).

Fixpoint dict_get (d : dict) (key : str) : option value :=
  match d with
  | [] => None
  | (k, v) :: d' => if str_eqb k key then Some v else dict_get d' key
  end.

Definition keys (d : dict) : list str := map fst d.

(** *** [datetime] and [strftime] *)

Record datetime := {
  year : N; month : N; day : N;
  hour : N; minute : N; second : N
}.

(** The range of a [datetime] value. *)
Definition datetime_ok (t : datetime) : bool :=
  (1 <=? year t) && (year t <=? 9999)
  && (1 <=? month t) && (month t <=? 12)
  && (1 <=? day t) && (day t <=? 31)
  && (hour t <=? 23) && (minute t <=? 59) && (second t <=? 59).

Definition digit (d : N) : char := 48 + d.
Definition isdigit (c : char) : bool := (48 <=? c) && (c <=? 57).

(** [%m], [%d], [%H], [%M], [%S]: two digits, zero padded. *)
Definition pad2 (n : N) : str := [digit (n / 10 mod 10); digit (n mod 10)].

Fixpoint drop_zeros (s : str) : str :=
  match s with
  | c :: (_ :: _) as rest => if c =? 48 then drop_zeros rest else s
  | _ => s
  end.

(** [%Y] as glibc prints it: the year in decimal, not padded. *)
Definition fmt_year (y : N) : str :=
  drop_zeros [digit (y / 1000 mod 10); digit (y / 100 mod 10);
              digit (y / 10 mod 10); digit (y mod 10)].

(** [t.strftime("%Y-%m-%dT%H:%M:%SZ")] *)
Definition strftime_iso_z (t : datetime) : str :=
  fmt_year (year t) ++ [45] ++ pad2 (month t) ++ [45] ++ pad2 (day t)
  ++ [84] ++ pad2 (hour t) ++ [58] ++ pad2 (minute t) ++ [58]
  ++ pad2 (second t) ++ [90].

(** *** [json.dump(records, f, ensure_ascii=False, indent=2)] *)

Definition hex_digit (d : N) : char :=
  if d <? 10 then 48 + d else 87 + d.

(** [ESCAPE_DCT] of [json.encoder]. *)
Definition json_escape (c : char) : str :=
  if c =? 34 then [92; 34]
  else if c =? 92 then [92; 92]
  else if c =? 10 then [92; 110]
  else if c =? 13 then [92; 114]
  else if c =? 9 then [92; 116]
  else if c =? 8 then [92; 98]
  else if c =? 12 then [92; 102]
  else if c <? 32 then [92; 117; 48; 48; hex_digit (c / 16); hex_digit (c mod 16)]
  else [c].

Definition json_string (s : str) : str :=
  [34] ++ flat_map json_escape s ++ [34].

Definition json_value (v : value) : str :=
  match v with
  | None => py "null"
  | Some s => json_string s
  end.

Fixpoint join_str (sep : str) (parts : list str) : str :=
  match parts with
  | [] => []
  | [w] => w
  | w :: ws => w ++ sep ++ join_str sep ws
  end.

Definition newline_indent (level : nat) : str :=
  10 :: repeat 32 (2 * level).

Definition json_dict (level : nat) (d : dict) : str :=
  match d with
  | [] => py "{}"
  | _ =>
      [123] ++ newline_indent (S level)
      ++ join_str (44 :: newline_indent (S level))
           (map (fun kv => json_string (fst kv) ++ [58; 32] ++ json_value (snd kv)) d)
      ++ newline_indent level ++ [125]
  end.

Definition json_dumps (records : list dict) : str :=
  match records with
  | [] => py "[]"
  | _ =>
      [91] ++ newline_indent 1
      ++ join_str (44 :: newline_indent 1) (map (json_dict 1) records)
      ++ newline_indent 0 ++ [93]
  end.

(** *** [csv.writer] with the default dialect *)

(** A field is quoted when it holds the delimiter, the quote character
    or a character of the line terminator; quotes are doubled. *)
Definition csv_special (c : char) : bool :=
  (c =? 44) || (c =? 34) || (c =? 13) || (c =? 10).

Definition csv_field (v : value) : str :=
  match v with
  | None => []
  | Some s =>
      if existsb csv_special s
      then [34] ++ flat_map (fun c => if c =? 34 then [34; 34] else [c]) s ++ [34]
      else s
  end.

(** [writer.writerow(fields)]: the text of one row, terminator included.
    A row whose only field is empty is written as two quotes. *)
Definition csv_writerow (fields : list value) : str :=
  let body := join 44 (map csv_field fields) in
  (match fields, body with
   | _ :: _, [] => [34; 34]
   | _, _ => body
   end) ++ [13; 10].

End Py.

Import Py.

(** ** The BeautifulSoup parse tree and the selectors *)

Module Bs4.

(** A node of the tree [BeautifulSoup(text, "html.parser")] builds.
    [attrs] is the attribute dictionary of a tag, in document order; the
    [class] attribute is kept as written and split into its tokens where
    a selector reads it. *)
Inductive node :=
| NavigableString (s : str)  (* text, CDATA *)
| OtherString (s : str)      (* comments, declarations, script and style text *)
| Tag (name : str) (attrs : list (str * str)) (contents : list node).

(** What a selector reads of a tag. *)
Record head := { hname : str; hattrs : list (str * str) }.

(** A tag together with its place in the tree: [parents] lists the
    enclosing tags, the nearest first. *)
Record tag := {
  parents : list head;
  this : head;
  contents : list node
}.

(** The tags of a subtree in document order, the root of the subtree
    first. *)
Fixpoint tags_of (above : list head) (n : node) : list tag :=
  match n with
  | Tag nm at_ cs =>
      let h := {| hname := nm; hattrs := at_ |} in
      {| parents := above; this := h; contents := cs |}
        :: flat_map (tags_of (h :: above)) cs
  | _ => []
  end.

(** [tag.descendants], tags only. *)
Definition descendants (t : tag) : list tag :=
  flat_map (tags_of (this t :: parents t)) (contents t).

(** [tag.attrs.get(key)] *)
Fixpoint attr_get (attrs : list (str * str)) (key : str) : option str :=
  match attrs with
  | [] => None
  | (k, v) :: rest => if str_eqb k key then Some v else attr_get rest key
  end.

(** [soupsieve.util.lower]: lower-cases the ASCII letters only. *)
Definition sv_lower (s : str) : str :=
  map (fun c => if ascii_upper c then c + 32 else c) s.

(** [match_attribute_name] for a tree without namespaces: the first
    attribute whose name equals [name] up to ASCII case. *)
Fixpoint match_attribute_name (attrs : list (str * str)) (name : str)
  : option str :=
  match attrs with
  | [] => None
  | (k, v) :: rest =>
      if str_eqb (sv_lower name) (sv_lower k) then Some v
      else match_attribute_name rest name
  end.

(** A compound selector: a tag name, class names and [[name*='text']]
    tests. *)
Record compound := {
  sel_name : str;
  sel_classes : list str;
  sel_attr_contains : list (str * str)
}.

(** [get_classes]: the tokens of the attribute whose name is [class] up
    to ASCII case. *)
Definition get_classes (h : head) : list str :=
  match match_attribute_name (hattrs h) (py "class") with
  | Some v => tokens v
  | None => []
  end.

(** [match_tag], [match_classes] and [match_attributes] of one compound
    selector. *)
Definition match_compound (c : compound) (h : head) : bool :=
  str_eqb (sv_lower (sel_name c)) (sv_lower (hname h))
  && forallb (fun cl => existsb (str_eqb cl) (get_classes h)) (sel_classes c)
  && forallb (fun av =>
       match match_attribute_name (hattrs h) (fst av) with
       | Some v => contains (snd av) v
       | None => false
       end) (sel_attr_contains c).

(** Selectors built with the child and the descendant combinator. *)
Inductive selector :=
| Simple (c : compound)
| Child (parent : selector) (c : compound)
| Descendant (ancestor : selector) (c : compound).

Fixpoint sel_match (s : selector) (h : head) (above : list head) : bool :=
  match s with
  | Simple c => match_compound c h
  | Child p c =>
      match_compound c h
      && match above with
         | [] => false
         | ph :: pp => sel_match p ph pp
         end
  | Descendant a c =>
      match_compound c h
      && (fix up (hs : list head) : bool :=
            match hs with
            | [] => false
            | ph :: pp => sel_match a ph pp || up pp
            end) above
  end.

Definition matches (s : selector) (t : tag) : bool :=
  sel_match s (this t) (parents t).

(** [soup.select(s)] on the document. *)
Definition select (s : selector) (soup : list node) : list tag :=
  filter (matches s) (flat_map (tags_of []) soup).

(** [tag.select_one(s)]: the first matching descendant; ancestors of a
    match may lie above [tag]. *)
Definition select_one (s : selector) (t : tag) : option tag :=
  find (matches s) (descendants t).

(** [tag[key]]: [None] stands for [KeyError]. *)
Definition getitem (t : tag) (key : str) : option str :=
  attr_get (hattrs (this t)) key.

Fixpoint strings_of (n : node) : list str :=
  match n with
  | NavigableString s => [s]
  | OtherString _ => []
  | Tag _ _ cs => flat_map strings_of cs
  end.

Definition nonempty (s : str) : bool :=
  match s with [] => false | _ => true end.

(** [tag.get_text(strip=True)] *)
Definition get_text_strip (t : tag) : str :=
  List.concat (filter nonempty (map strip (flat_map strings_of (contents t)))).

(** [html.parser] lower-cases tag and attribute names, so no ASCII
    capital is left in the names of its trees; [from_html_parser] checks
    this for a subtree. *)
Definition lowered (s : str) : bool := forallb (fun c => negb (ascii_upper c)) s.

Definition head_lowered (h : head) : bool :=
  lowered (hname h) && forallb (fun kv => lowered (fst kv)) (hattrs h).

Fixpoint from_html_parser (n : node) : bool :=
  match n with
  | Tag nm at_ cs =>
      head_lowered {| hname := nm; hattrs := at_ |}
      && forallb from_html_parser cs
  | _ => true
  end.

End Bs4.

Import Bs4.

(** ** The world the script runs in *)

(** The exceptions that can leave a call of the script. *)
Inductive exn :=
| RequestException       (* [requests.get]: timeout, connection failure *)
| HTTPError (status : N) (* [raise_for_status] *)
| KeyError (key : str)
| IndexError
| ValueError             (* [DictWriter]: a key outside [fieldnames] *)
| OSError.               (* [open]: the path cannot be opened *)

Inductive result (A : Type) :=
| Ok (a : A)
| Raise (e : exn).

Arguments Ok {A} a.
Arguments Raise {A} e.

(** What the GET of this run meets.  [soup] is the tree
    [BeautifulSoup(resp.text, "html.parser")] builds from the body. *)
Inductive reply :=
| Unreachable
| Response (status_code : N) (soup : list node).

Record response := { status_code : N; parsed : list node }.

(** The lines the script prints. *)
Inductive message :=
| Starting (t : datetime)
| JsonSaved (n : nat)
| CsvAppended (n : nat)
| Done
| NoData.

(** Regular files by path, with their text. *)
Definition filesystem := list (str * str).

Record world := {
  net : reply;
  clock : nat -> datetime;   (* the successive readings of the clock *)
  ticks : nat;               (* readings taken so far *)
  files : filesystem;
  stdout : list message
}.

(** Computations on the world that return or raise. *)
Definition M (A : Type) := world -> result A * world.

Definition ret {A} (a : A) : M A := fun w => (Ok a, w).

Definition raise {A} (e : exn) : M A := fun w => (Raise e, w).

Definition bind {A B} (m : M A) (k : A -> M B) : M B :=
  fun w =>
    match m w with
    | (Ok a, w') => k a w'
    | (Raise e, w') => (Raise e, w')
    end.

Definition lift {A} (r : result A) : M A := fun w => (r, w).

Notation "x <- m ;; k" := (bind m (fun x => k))
  (at level 61, m at next level, right associativity).
Notation "m ;; k" := (bind m (fun _ => k))
  (at level 61, right associativity).

Fixpoint fs_read (fs : filesystem) (path : str) : option str :=
  match fs with
  | [] => None
  | (p, text) :: rest => if str_eqb p path then Some text else fs_read rest path
  end.

Fixpoint fs_write (fs : filesystem) (path text : str) : filesystem :=
  match fs with
  | [] => [(path, text)]
  | (p, old) :: rest =>
      if str_eqb p path then (p, text) :: rest
      else (p, old) :: fs_write rest path text
  end.

Definition set_files (w : world) (fs : filesystem) : world :=
  {| net := net w; clock := clock w; ticks := ticks w;
     files := fs; stdout := stdout w |}.

(** [requests.get(url, headers=HEADERS, timeout=15)]: the world holds
    what the one GET of the run meets. *)
Definition requests_get (url : str) : M response :=
  fun w =>
    match net w with
    | Unreachable => (Raise RequestException, w)
    | Response st soup => (Ok {| status_code := st; parsed := soup |}, w)
    end.

(** The statuses of a client or server error, 400 to 599. *)
Definition error_status (status : N) : bool :=
  (400 <=? status) && (status <? 600).

(** [resp.raise_for_status()]: raises for the codes 400 to 599. *)
Definition raise_for_status (resp : response) : M unit :=
  if error_status (status_code resp)
  then raise (HTTPError (status_code resp))
  else ret tt.

(** [datetime.now(timezone.utc)] *)
Definition now : M datetime :=
  fun w =>
    (Ok (clock w (ticks w)),
     {| net := net w; clock := clock w; ticks := S (ticks w);
        files := files w; stdout := stdout w |}).

Definition print (m : message) : M unit :=
  fun w =>
    (Ok tt,
     {| net := net w; clock := clock w; ticks := ticks w;
        files := files w; stdout := stdout w ++ [m] |}).

(** [os.path.isfile(path)] *)
Definition isfile (path : str) : M bool :=
  fun w =>
    (Ok (match fs_read (files w) path with Some _ => true | None => false end),
     w).

(** [open(path, mode)] for writing or appending raises [OSError] when
    the path cannot be opened: a directory, a file that may not be
    written, a missing directory.  [locked] holds the paths that cannot
    be opened; nothing is written to them. *)
Definition open_for_writing (locked : list str) (path : str) : M unit :=
  if existsb (str_eqb path) locked then raise OSError else ret tt.

(** The text written to a file that [open(path, "w")] has opened,
    until the file is closed: the text the file had is gone.  A write
    that fails on an open file (a full disk) is left out. *)
Definition write_file (path text : str) : M unit :=
  fun w => (Ok tt, set_files w (fs_write (files w) path text)).

(** The text written to a file that [open(path, "a")] has opened,
    until the file is closed: it follows the text the file had. *)
Definition append_file (path text : str) : M unit :=
  fun w =>
    let old := match fs_read (files w) path with Some t => t | None => [] end in
    (Ok tt, set_files w (fs_write (files w) path (old ++ text))).

(** *** [csv.DictWriter] *)

(** [_dict_to_list] with [extrasaction="raise"] and [restval=""] *)
Definition dict_to_list (fieldnames : list str) (rowdict : dict)
  : result (list value) :=
  if forallb (fun k => existsb (str_eqb k) fieldnames) (keys rowdict)
  then Ok (map (fun key =>
                  match dict_get rowdict key with
                  | Some v => v
                  | None => Some []
                  end) fieldnames)
  else Raise ValueError.

Definition writeheader (fieldnames : list str) : str :=
  csv_writerow (map Some fieldnames).

(** [writerows]: the text written, and the exception that stopped it. *)
Fixpoint writerows (fieldnames : list str) (rowdicts : list dict)
  : str * option exn :=
  match rowdicts with
  | [] => ([], None)
  | d :: rest =>
      match dict_to_list fieldnames d with
      | Raise e => ([], Some e)
      | Ok fields =>
          let (text, stop) := writerows fieldnames rest in
          (csv_writerow fields ++ text, stop)
      end
  end.

(** ** The script *)

Definition URL : str := py "https://rendahemisi.jakarta.go.id/ispu".
Definition OUTPUT_JSON : str := py "aqi_latest.json".
Definition OUTPUT_CSV : str := py "aqi_log.csv".

Definition hyphen : char := 45.
Definition space : char := 32.
Definition slash : char := 47.

(** [slug_to_name]: [slug.replace("-", " ").title()] *)
Definition slug_to_name (slug : str) : str :=
  title (replace hyphen space slug).

Definition plain (name : string) (classes : list string) : compound :=
  {| sel_name := py name; sel_classes := map py classes;
     sel_attr_contains := [] |}.

(** ["ul.blog-grid > li.grid-item"] *)
Definition station_items : selector :=
  Child (Simple (plain "ul" ["blog-grid"])) (plain "li" ["grid-item"]).

(** ["a[href*='ispu-detail']"] *)
Definition detail_link : selector :=
  Simple {| sel_name := py "a"; sel_classes := [];
            sel_attr_contains := [(py "href", py "ispu-detail")] |}.

Definition value_box : compound :=
  plain "div" ["position-relative"; "text-center"; "padding-20px-lr"].

(** ["div.position-relative.text-center.padding-20px-lr h5"] *)
Definition value_heading : selector :=
  Descendant (Simple value_box) (plain "h5" []).

(** ["div.position-relative.text-center.padding-20px-lr p"] *)
Definition value_paragraph : selector :=
  Descendant (Simple value_box) (plain "p" []).

(** ["span.text-uppercase"] *)
Definition status_label : selector :=
  Simple (plain "span" ["text-uppercase"]).

Definition fieldnames : list str :=
  map py ["timestamp"; "station"; "aqi"; "pollutant"; "status"; "detail_url"].

(** Lines 41 to 49: the detail link, and the station name from its slug. *)
Definition link_fields (li : tag) : result (value * value) :=
  match select_one detail_link li with
  | None => Ok (None, None)
  | Some link_tag =>
      match getitem link_tag (py "href") with
      | None => Raise (KeyError (py "href"))
      | Some detail_url =>
          match last_item (split slash (rstrip slash detail_url)) with
          | None => Raise IndexError
          | Some slug => Ok (Some (slug_to_name slug), Some detail_url)
          end
      end
  end.

(** Lines 41 to 72: the record of one station item. *)
Definition item_record (timestamp : str) (li : tag) : result dict :=
  match link_fields li with
  | Raise e => Raise e
  | Ok (station_name, detail_url) =>
      let value_tag := select_one value_heading li in
      let pollutant_tag := select_one value_paragraph li in
      let status_tag := select_one status_label li in
      Ok [ (py "timestamp", Some timestamp);
           (py "station", station_name);
           (py "aqi", option_map get_text_strip value_tag);
           (py "pollutant", option_map get_text_strip pollutant_tag);
           (py "status", option_map get_text_strip status_tag);
           (py "detail_url", detail_url) ]
  end.

(** The loop of lines 39 to 74, with [records] as it stands. *)
Fixpoint scrape_loop (timestamp : str) (items : list tag) (records : list dict)
  : result (list dict) :=
  match items with
  | [] => Ok records
  | li :: rest =>
      match item_record timestamp li with
      | Raise e => Raise e
      | Ok record =>
          match dict_get record (py "station") with
          | None => Raise (KeyError (py "station"))
          | Some station =>
              scrape_loop timestamp rest
                (if truthy station then records ++ [record] else records)
          end
      end
  end.

Definition scrape : M (list dict) :=
  resp <- requests_get URL ;;
  raise_for_status resp ;;
  let soup := parsed resp in
  t <- now ;;
  let timestamp := strftime_iso_z t in
  lift (scrape_loop timestamp (select station_items soup) []).

(** Lines 79 to 82.  [locked] holds the paths [open] refuses. *)
Definition save_json_on (locked : list str) (records : list dict) : M unit :=
  open_for_writing locked OUTPUT_JSON ;;
  write_file OUTPUT_JSON (json_dumps records) ;;
  print (JsonSaved (List.length records)).

(** Lines 85 to 93.  [writerows] stops at the first record it refuses;
    the rows before it are in the file when the exception leaves the
    [with] block. *)
Definition append_csv_on (locked : list str) (records : list dict) : M unit :=
  file_exists <- isfile OUTPUT_CSV ;;
  open_for_writing locked OUTPUT_CSV ;;
  let header := if file_exists then [] else writeheader fieldnames in
  let (rows, stop) := writerows fieldnames records in
  append_file OUTPUT_CSV (header ++ rows) ;;
  match stop with
  | Some e => raise e
  | None => print (CsvAppended (List.length records))
  end.

(** The block under [if __name__ == "__main__"]. *)
Definition main_on (locked : list str) : M unit :=
  t <- now ;;
  print (Starting t) ;;
  data <- scrape ;;
  match data with
  | _ :: _ =>
      save_json_on locked data ;;
      append_csv_on locked data ;;
      print Done
  | [] => print NoData
  end.

(** The script where [open] refuses no path. *)
Definition save_json (records : list dict) : M unit := save_json_on [] records.

Definition append_csv (records : list dict) : M unit := append_csv_on [] records.

Definition main : M unit := main_on [].

(** ** Definitions the statements use *)

(** The mapping [do_title] applies to one character other than the
    capital sigma. *)
Definition case_map (previous_is_cased : bool) (c : char) : str :=
  if previous_is_cased then to_lower_full c else to_title_full c.

(** Title-casing word by word, the words being what lies between
    spaces. *)
Definition title_each_word (s : str) : str :=
  join space (map title (split space s)).

(** The last non-empty segment of a reference, the segments being what
    lies between slashes. *)
Definition last_nonempty_segment (href : str) : option str :=
  last_item (filter nonempty (split slash href)).

(** A tag read from a tree of [html.parser]. *)
Definition tag_lowered (t : tag) : bool :=
  head_lowered (this t) && forallb from_html_parser (contents t).

(** The text [append_csv] writes for one record: its values in the
    order of [fieldnames], an empty field for [None]. *)
Definition row_of (record : dict) : str :=
  csv_writerow
    (map (fun key =>
            match dict_get record key with
            | Some v => v
            | None => Some []
            end) fieldnames).

(** A text reads as a format when it has a digit where the format has
    one of the letters Y, M, D, H, S and the same character elsewhere. *)
Definition format_char (f c : char) : bool :=
  if existsb (N.eqb f) (py "YMDHS") then isdigit c else f =? c.

Fixpoint reads_as (fmt s : str) : bool :=
  match fmt, s with
  | [], [] => true
  | f :: fmt', c :: s' => format_char f c && reads_as fmt' s'
  | _, _ => false
  end.

(** A status outside the class 2xx. *)
Definition non_success (status : N) : bool :=
  negb ((200 <=? status) && (status <? 300)).

(** What the records of the loop have in common. *)
Definition kept (timestamp : str) (record : dict) : Prop :=
  keys record = fieldnames
  /\ dict_get record (py "timestamp") = Some (Some timestamp)
  /\ exists station,
       dict_get record (py "station") = Some (Some station) /\ station <> [].

(** The world after one reading of the clock. *)
Definition tick (w : world) : world :=
  {| net := net w; clock := clock w; ticks := S (ticks w);
     files := files w; stdout := stdout w |}.

(** The text of a file, empty when there is no file. *)
Definition text_of (fs : filesystem) (path : str) : str :=
  match fs_read fs path with
  | Some t => t
  | None => []
  end.

(** The world when [main] calls [scrape]: the clock was read once and
    the first line printed. *)
Definition started (w : world) : world :=
  {| net := net w; clock := clock w; ticks := S (ticks w);
     files := files w;
     stdout := stdout w ++ [Starting (clock w (ticks w))] |}.

(** The loop of [do_title] where no capital sigma occurs: the text
    around a character plays no part. *)
Fixpoint title_plain (previous_is_cased : bool) (s : str) : str :=
  match s with
  | [] => []
  | c :: rest => case_map previous_is_cased c ++ title_plain (is_cased c) rest
  end.

(** The ASCII code points. *)
Definition ascii_codes : list char := map N.of_nat (seq 0 128).

(** A mapping that is not empty and holds neither hyphen nor slash. *)
Definition plain_mapping (m : str) : bool :=
  nonempty m && forallb (fun x => negb (x =? hyphen) && negb (x =? slash)) m.

(** What the tables say of an ASCII character: a small letter has its
    capital 32 places before it, only letters are cased, no letter is
    case-ignorable, the character is not the capital sigma. *)
Definition ascii_data_ok (c : char) : bool :=
  str_eqb (to_title_full c) [if ascii_lower c then c - 32 else c]
  && str_eqb (to_lower_full c) [if ascii_upper c then c + 32 else c]
  && Bool.eqb (is_cased c) (ascii_upper c || ascii_lower c)
  && negb (is_case_ignorable c && (ascii_upper c || ascii_lower c))
  && negb (c =? 931).

(** A string with its ASCII capitals lower-cased. *)
Definition casefold_ascii (s : str) : str :=
  map (fun c => if ascii_upper c then c + 32 else c) s.

(** Every ASCII letter that follows a letter is a small one, every other
    ASCII letter a capital. *)
Fixpoint well_cased (previous_is_cased : bool) (s : str) : bool :=
  match s with
  | [] => true
  | c :: rest =>
      (if previous_is_cased then negb (ascii_upper c) else negb (ascii_lower c))
      && well_cased (is_cased c) rest
  end.

(** No whitespace at either end. *)
Definition trimmed (s : str) : Prop :=
  (forall c rest, s = c :: rest -> isspace c = false)
  /\ (forall front c, s = front ++ [c] -> isspace c = false).

(** The characters of a text that are not whitespace. *)
Definition visible (s : str) : str := filter (fun c => negb (isspace c)) s.

(** The text nodes under a tag, as they are, one after the other. *)
Definition text_under (t : tag) : str :=
  List.concat (flat_map strings_of (contents t)).

(** *** Reading the CSV text back

    [csv.reader] with the default dialect, as the character loop of
    [parse_process_char] over the text of a file opened with
    [newline=""]: a row ends at a line end outside quotes, a field at a
    comma outside quotes, a quote doubled inside quotes stands for
    itself.  [field] holds the characters of the field being read, the
    last one first, [row] its fields read so far, the last one first. *)
Inductive mode :=
| StartRecord
| StartField
| InField
| InQuoted
| QuoteSeen
| AfterCR.

Definition end_row (field : str) (row : list str) : list str :=
  rev (rev field :: row).

Fixpoint csv_read_from (m : mode) (field : str) (row : list str) (text : str)
  : list (list str) :=
  match text with
  | [] =>
      match m with
      | StartRecord | AfterCR => []
      | _ => [end_row field row]
      end
  | c :: rest =>
      match m with
      | InQuoted =>
          if c =? 34 then csv_read_from QuoteSeen field row rest
          else csv_read_from InQuoted (c :: field) row rest
      | QuoteSeen =>
          if c =? 34 then csv_read_from InQuoted (c :: field) row rest
          else if c =? 44 then csv_read_from StartField [] (rev field :: row) rest
          else if c =? 13 then end_row field row :: csv_read_from AfterCR [] [] rest
          else if c =? 10 then end_row field row :: csv_read_from StartRecord [] [] rest
          else csv_read_from InField (c :: field) row rest
      | InField =>
          if c =? 44 then csv_read_from StartField [] (rev field :: row) rest
          else if c =? 13 then end_row field row :: csv_read_from AfterCR [] [] rest
          else if c =? 10 then end_row field row :: csv_read_from StartRecord [] [] rest
          else csv_read_from InField (c :: field) row rest
      | StartField =>
          if c =? 34 then csv_read_from InQuoted [] row rest
          else if c =? 44 then csv_read_from StartField [] ([] :: row) rest
          else if c =? 13 then end_row [] row :: csv_read_from AfterCR [] [] rest
          else if c =? 10 then end_row [] row :: csv_read_from StartRecord [] [] rest
          else csv_read_from InField [c] row rest
      | StartRecord =>
          if c =? 13 then [] :: csv_read_from AfterCR [] [] rest
          else if c =? 10 then [] :: csv_read_from StartRecord [] [] rest
          else if c =? 34 then csv_read_from InQuoted [] [] rest
          else if c =? 44 then csv_read_from StartField [] [[]] rest
          else csv_read_from InField [c] [] rest
      | AfterCR =>
          if c =? 10 then csv_read_from StartRecord [] [] rest
          else if c =? 13 then [] :: csv_read_from AfterCR [] [] rest
          else if c =? 34 then csv_read_from InQuoted [] [] rest
          else if c =? 44 then csv_read_from StartField [] [[]] rest
          else csv_read_from InField [c] [] rest
      end
  end.

(** [list(csv.reader(f))] *)
Definition csv_read (text : str) : list (list str) :=
  csv_read_from StartRecord [] [] text.



(** ** Sample pages and worlds *)

Definition el (name : string) (attrs : list (string * string))
  (children : list node) : node :=
  Tag (py name) (map (fun kv => (py (fst kv), py (snd kv))) attrs) children.

Definition txt (s : string) : node := NavigableString (py s).

Definition value_box_classes : string :=
  "position-relative text-center padding-20px-lr".

(** A station item with every field. *)
Definition li_full : node :=
  el "li" [("class", "grid-item col-12")]
    [ el "a" [("href", "https://rendahemisi.jakarta.go.id/ispu-detail/us-embassy-1/")]
        [ el "div" [("class", value_box_classes)]
            [ el "h5" [] [txt " 55 "]; el "p" [] [txt "PM 2.5"] ] ];
      el "span" [("class", "text-uppercase letter-spacing-1px")] [txt "Sedang"] ].

(** A station item without the AQI heading. *)
Definition li_no_heading : node :=
  el "li" [("class", "grid-item")]
    [ el "a" [("href", "/ispu-detail/dki1-bundaran-hi")] [];
      el "div" [("class", value_box_classes)] [ el "p" [] [txt "PM 10"] ];
      el "span" [("class", "text-uppercase")] [txt "Baik"] ].

(** An item without a detail link. *)
Definition li_ghost : node :=
  el "li" [("class", "grid-item")] [ el "h5" [] [txt "-"] ].

Definition page (items : list node) : list node :=
  [ el "html" []
      [ el "body" []
          [ el "ul" [("class", "row blog-grid")] items;
            OtherString (py " footer ") ] ] ].

Definition page_two : list node := page [li_full; li_no_heading].
Definition page_mixed : list node := page [li_full; li_ghost; li_no_heading].
Definition page_empty : list node := page [].

(** The tag of a node that has no parents. *)
Definition top (n : node) : tag :=
  match n with
  | Tag nm at_ cs =>
      {| parents := []; this := {| hname := nm; hattrs := at_ |}; contents := cs |}
  | _ => {| parents := []; this := {| hname := []; hattrs := [] |}; contents := [] |}
  end.

Definition sample_clock (n : nat) : datetime :=
  {| year := 2024; month := 11; day := 2;
     hour := 3; minute := 4; second := N.of_nat n |}.

Definition link_of (li : tag) : tag :=
  match select_one detail_link li with
  | Some a => a
  | None => li
  end.

Definition paragraph_of (li : tag) : tag :=
  match select_one value_paragraph li with
  | Some p => p
  | None => li
  end.

Definition label_of (li : tag) : tag :=
  match select_one status_label li with
  | Some l => l
  | None => li
  end.

Definition sample_world (r : reply) (fs : filesystem) : world :=
  {| net := r; clock := sample_clock; ticks := 0; files := fs; stdout := [] |}.

Definition old_files : filesystem :=
  [ (OUTPUT_JSON, py "[]");
    (OUTPUT_CSV, writeheader fieldnames) ].

(** ** Definitions the further statements use *)

(** The item has a detail link. *)
Definition has_link (li : tag) : bool :=
  match select_one detail_link li with
  | Some _ => true
  | None => false
  end.

(** A value that is [None] or a trimmed string. *)
Definition trimmed_value (v : option value) : Prop :=
  match v with
  | Some (Some s) => trimmed s
  | _ => True
  end.


(** The header [append_csv] writes into a file system: none when the
    CSV file is there. *)
Definition header_for (fs : filesystem) : str :=
  match fs_read fs OUTPUT_CSV with
  | Some _ => []
  | None => writeheader fieldnames
  end.





(** ** Properties of the string functions *)

(** Case analysis on the comparisons of code points in the goal. *)
Ltac cases_N :=
  repeat match goal with
    | |- context [N.eqb ?a ?b] => destruct (N.eqb_spec a b)
    | |- context [N.leb ?a ?b] => destruct (N.leb_spec a b)
    | |- context [N.ltb ?a ?b] => destruct (N.ltb_spec a b)
    end;
  cbn [andb orb negb] in *.

Lemma str_eqb_eq (a b : str) : str_eqb a b = true <-> a = b.
Proof.
  revert b; induction a as [|x a IH]; intros [|y b]; simpl;
    try (split; [discriminate | congruence]); try tauto.
  rewrite andb_true_iff, N.eqb_eq, IH. split.
  - intros [-> ->]; reflexivity.
  - intros E; injection E; auto.
Qed.

Lemma str_eqb_refl (a : str) : str_eqb a a = true.
Proof. apply str_eqb_eq; reflexivity. Qed.

Lemma replace_length old new s :
  List.length (replace old new s) = List.length s.
Proof. apply length_map. Qed.

Lemma replace_nth old new s i :
  nth_error (replace old new s) i
  = option_map (fun c => if c =? old then new else c) (nth_error s i).
Proof. apply nth_error_map. Qed.

Lemma replace_not_in old new s :
  old <> new -> ~ In old (replace old new s).
Proof.
  intros D H. apply in_map_iff in H. destruct H as (c & E & _).
  destruct (N.eqb_spec c old); congruence.
Qed.

Lemma replace_absent old new s :
  ~ In old s -> replace old new s = s.
Proof.
  induction s as [|c s IH]; simpl; intros H; [reflexivity|].
  destruct (N.eqb_spec c old) as [->|_].
  - exfalso; apply H; now left.
  - f_equal; apply IH; intros I; apply H; now right.
Qed.

Lemma replace_ascii old new s :
  is_ascii new = true -> ascii_str s = true ->
  ascii_str (replace old new s) = true.
Proof.
  intros Hn. unfold ascii_str, replace. rewrite !forallb_forall.
  intros H c I. apply in_map_iff in I. destruct I as (d & <- & I).
  destruct (N.eqb_spec d old); auto.
Qed.

Lemma split_nonempty sep s : split sep s <> [].
Proof.
  destruct s as [|c s]; simpl; [discriminate|].
  destruct (c =? sep); [discriminate|].
  destruct (split sep s); discriminate.
Qed.

Lemma join_cons_app sep x y ws :
  join sep ((x ++ y) :: ws) = x ++ join sep (y :: ws).
Proof.
  destruct ws as [|w ws]; simpl; [reflexivity|].
  now rewrite <- app_assoc.
Qed.

(** *** The case tables *)

Lemma table_get_in table c m :
  table_get table c = Some m -> In (c, m) table.
Proof.
  induction table as [|[k v] t IH]; simpl; [discriminate|].
  destruct (c <? k); [discriminate|].
  destruct (N.eqb_spec c k) as [->|_].
  - intros [= ->]. now left.
  - intros H. right. now apply IH.
Qed.

Lemma tables_plain :
  forallb (fun kv => plain_mapping (snd kv)) title_table = true
  /\ forallb (fun kv => plain_mapping (snd kv)) lower_table = true.
Proof. split; vm_compute; reflexivity. Qed.

Lemma to_title_full_cases c :
  to_title_full c = [c] \/ plain_mapping (to_title_full c) = true.
Proof.
  unfold to_title_full. destruct (table_get title_table c) as [m|] eqn:E;
    [right | now left].
  apply table_get_in in E. destruct tables_plain as [T _].
  rewrite forallb_forall in T. exact (T _ E).
Qed.

Lemma to_lower_full_cases c :
  to_lower_full c = [c] \/ plain_mapping (to_lower_full c) = true.
Proof.
  unfold to_lower_full. destruct (table_get lower_table c) as [m|] eqn:E;
    [right | now left].
  apply table_get_in in E. destruct tables_plain as [_ L].
  rewrite forallb_forall in L. exact (L _ E).
Qed.

Lemma plain_mapping_out m x :
  plain_mapping m = true -> x = hyphen \/ x = slash -> ~ In x m.
Proof.
  unfold plain_mapping. intros P X I.
  apply andb_true_iff in P. destruct P as [_ P].
  rewrite forallb_forall in P. specialize (P x I).
  apply andb_true_iff in P. destruct P as [P1 P2].
  destruct X as [-> | ->].
  - now rewrite N.eqb_refl in P1.
  - now rewrite N.eqb_refl in P2.
Qed.

Lemma plain_mapping_nonempty m : plain_mapping m = true -> m <> [].
Proof. destruct m; [discriminate | discriminate]. Qed.

(** The characters [do_title] puts for [c]. *)
Lemma mapped_cases b after (p : bool) c :
  (if p then lower_ucs4 b after c else to_title_full c) = [c]
  \/ plain_mapping (if p then lower_ucs4 b after c else to_title_full c) = true.
Proof.
  destruct p; [|apply to_title_full_cases].
  unfold lower_ucs4, handle_capital_sigma.
  destruct (c =? 931); [|apply to_lower_full_cases].
  right. destruct (cased_before b && uncased_after after); reflexivity.
Qed.

Lemma mapped_keeps_out b after (p : bool) c x :
  x = hyphen \/ x = slash -> c <> x ->
  ~ In x (if p then lower_ucs4 b after c else to_title_full c).
Proof.
  intros X D. pose proof (mapped_cases b after p c) as M.
  destruct p; destruct M as [E|P];
    solve [ rewrite E; intros [I|[]]; congruence
          | now apply plain_mapping_out ].
Qed.

Lemma ascii_codes_in c : is_ascii c = true -> In c ascii_codes.
Proof.
  unfold is_ascii. intros A. apply N.ltb_lt in A.
  apply in_map_iff. exists (N.to_nat c). split; [apply N2Nat.id|].
  apply in_seq. lia.
Qed.

Lemma ascii_data c :
  is_ascii c = true ->
  to_title_full c = [if ascii_lower c then c - 32 else c]
  /\ to_lower_full c = [if ascii_upper c then c + 32 else c]
  /\ is_cased c = ascii_upper c || ascii_lower c
  /\ (ascii_upper c || ascii_lower c = true -> is_case_ignorable c = false)
  /\ c <> 931.
Proof.
  intros A.
  assert (T : forallb ascii_data_ok ascii_codes = true)
    by (vm_compute; reflexivity).
  rewrite forallb_forall in T. specialize (T c (ascii_codes_in c A)).
  unfold ascii_data_ok in T.
  repeat (apply andb_true_iff in T; destruct T as [T ?]).
  apply str_eqb_eq in T.
  repeat match goal with
    | E : str_eqb _ _ = true |- _ => apply str_eqb_eq in E
    | E : Bool.eqb _ _ = true |- _ => apply Bool.eqb_prop in E
    end.
  repeat split; try assumption.
  - intros L. rewrite L, andb_true_r in *.
    now destruct (is_case_ignorable c).
  - intros ->. discriminate.
Qed.

Lemma case_map_ascii_eq (p : bool) c :
  is_ascii c = true ->
  case_map p c
  = [if p then (if ascii_upper c then c + 32 else c)
     else (if ascii_lower c then c - 32 else c)].
Proof.
  intros A. destruct (ascii_data c A) as (T & L & _).
  unfold case_map. now destruct p.
Qed.

Lemma is_ascii_lt c : is_ascii c = true <-> c < 128.
Proof. unfold is_ascii. apply N.ltb_lt. Qed.

(** *** [str.title()] *)

Lemma do_title_cons b p c s :
  do_title b p (c :: s)
  = (if p then lower_ucs4 b s c else to_title_full c)
      ++ do_title (c :: b) (is_cased c) s.
Proof. reflexivity. Qed.

Lemma lower_ucs4_plain b after c :
  c <> 931 -> lower_ucs4 b after c = to_lower_full c.
Proof.
  intros D. unfold lower_ucs4. now destruct (N.eqb_spec c 931).
Qed.

Lemma title_plain_cons p c s :
  title_plain p (c :: s) = case_map p c ++ title_plain (is_cased c) s.
Proof. reflexivity. Qed.

(** Without a capital sigma the text around a character plays no
    part. *)
Lemma do_title_no_sigma s :
  forall b p, ~ In 931 s -> do_title b p s = title_plain p s.
Proof.
  induction s as [|c s IH]; intros b p H; [reflexivity|].
  rewrite do_title_cons, title_plain_cons, IH
    by (intros I; apply H; now right).
  f_equal. unfold case_map. destruct p; [|reflexivity].
  apply lower_ucs4_plain. intros ->. apply H. now left.
Qed.

Lemma ascii_no_sigma s : ascii_str s = true -> ~ In 931 s.
Proof.
  unfold ascii_str. rewrite forallb_forall. intros A I.
  specialize (A _ I). discriminate.
Qed.

Lemma do_title_ascii b p s :
  ascii_str s = true -> do_title b p s = title_plain p s.
Proof. intros A. apply do_title_no_sigma, ascii_no_sigma, A. Qed.

Lemma cased_before_cons c b :
  cased_before (c :: b)
  = if is_case_ignorable c then cased_before b else is_cased c.
Proof. unfold cased_before. simpl. now destruct (is_case_ignorable c). Qed.

Lemma uncased_after_cons c s :
  uncased_after (c :: s)
  = if is_case_ignorable c then uncased_after s else negb (is_cased c).
Proof. unfold uncased_after. simpl. now destruct (is_case_ignorable c). Qed.

(** Of the text gone through, [do_title] only uses whether a cased
    character stands last, case-ignorable ones apart. *)
Lemma do_title_context s :
  forall b1 b2 p,
    cased_before b1 = cased_before b2 -> do_title b1 p s = do_title b2 p s.
Proof.
  induction s as [|c s IH]; intros b1 b2 p H; [reflexivity|].
  rewrite !do_title_cons. f_equal.
  - destruct p; [|reflexivity].
    unfold lower_ucs4, handle_capital_sigma. now rewrite H.
  - apply IH. rewrite !cased_before_cons. now rewrite H.
Qed.

(** Of the text to come, only the word up to the next space counts. *)
Lemma uncased_after_word s :
  uncased_after s = uncased_after (hd [] (split space s)).
Proof.
  induction s as [|c s IH]; [reflexivity|]. cbn [split].
  destruct (N.eqb_spec c space) as [->|D]; [reflexivity|].
  pose proof (split_nonempty space s) as NE.
  destruct (split space s) as [|w ws]; [congruence|].
  cbn [hd] in *. rewrite !uncased_after_cons. now rewrite IH.
Qed.

(** [str.title()] works word by word: a space is uncased, is not
    case-ignorable and maps to itself, so it closes the word before it
    and opens the next. *)
Lemma do_title_words s :
  forall b p,
    do_title b p s
    = match split space s with
      | w :: ws => join space (do_title b p w :: map title ws)
      | [] => []
      end.
Proof.
  induction s as [|c s IH]; intros b p; [reflexivity|].
  rewrite do_title_cons. cbn [split].
  destruct (N.eqb_spec c space) as [->|D].
  - rewrite (IH (space :: b) (is_cased space)).
    pose proof (split_nonempty space s) as NE.
    destruct (split space s) as [|w ws]; [congruence|].
    rewrite (do_title_context w (space :: b) [] _ eq_refl).
    destruct p; reflexivity.
  - rewrite (IH (c :: b) (is_cased c)).
    pose proof (uncased_after_word s) as U.
    pose proof (split_nonempty space s) as NE.
    destruct (split space s) as [|w ws]; [congruence|].
    cbn [map hd] in *. rewrite do_title_cons, join_cons_app.
    f_equal. destruct p; [|reflexivity].
    unfold lower_ucs4, handle_capital_sigma. now rewrite U.
Qed.

Lemma title_words s : title s = title_each_word s.
Proof.
  unfold title, title_each_word. rewrite do_title_words.
  pose proof (split_nonempty space s).
  destruct (split space s); [congruence | reflexivity].
Qed.

Lemma do_title_keeps_out x b p s :
  x = hyphen \/ x = slash -> ~ In x s -> ~ In x (do_title b p s).
Proof.
  intros X. revert b p; induction s as [|c s IH]; intros b p H; [exact H|].
  rewrite do_title_cons. intros I. apply in_app_or in I. destruct I as [I|I].
  - revert I. apply mapped_keeps_out; [exact X|].
    intros ->. apply H; now left.
  - revert I. apply IH. intros I; apply H; now right.
Qed.

Lemma slug_to_name_no_hyphen s : ~ In hyphen (slug_to_name s).
Proof.
  apply do_title_keeps_out; [now left|].
  apply replace_not_in. discriminate.
Qed.

Lemma do_title_nonempty b p (s : str) : s <> [] -> do_title b p s <> [].
Proof.
  destruct s as [|c s]; [congruence|]. intros _.
  rewrite do_title_cons. intros E. apply app_eq_nil in E. destruct E as [E _].
  pose proof (mapped_cases b s p c) as M.
  destruct p; destruct M as [E'|P];
    solve [ rewrite E' in E; discriminate
          | exact (plain_mapping_nonempty _ P E) ].
Qed.

Lemma slug_to_name_nonempty (s : str) : s <> [] -> slug_to_name s <> [].
Proof.
  intros H. apply do_title_nonempty. destruct s; [congruence | discriminate].
Qed.

(** *** ASCII strings *)

(** On an ASCII character the case mapping yields one ASCII character of
    the same casedness, which the same mapping leaves alone. *)
Lemma case_map_ascii b c :
  is_ascii c = true ->
  exists c', case_map b c = [c'] /\ is_ascii c' = true
             /\ is_cased c' = is_cased c /\ case_map b c' = [c'].
Proof.
  intros A. pose proof A as A0. apply is_ascii_lt in A0.
  destruct (ascii_data c A) as (_ & _ & Ec & _).
  rewrite (case_map_ascii_eq b c A). eexists. split; [reflexivity|].
  match goal with |- is_ascii ?x = true /\ _ =>
    assert (A' : is_ascii x = true)
  end.
  { apply is_ascii_lt. unfold ascii_upper, ascii_lower.
    destruct b; cases_N; lia. }
  split; [exact A'|].
  destruct (ascii_data _ A') as (_ & _ & Ec' & _).
  rewrite (case_map_ascii_eq b _ A'), Ec, Ec'.
  unfold ascii_upper, ascii_lower.
  destruct b; cases_N; split; solve [reflexivity | f_equal; lia | lia].
Qed.

Lemma title_plain_idempotent_ascii b s :
  ascii_str s = true -> title_plain b (title_plain b s) = title_plain b s.
Proof.
  revert b; induction s as [|c s IH]; intros b A; [reflexivity|].
  simpl in A. apply andb_true_iff in A. destruct A as [Ac As].
  rewrite title_plain_cons.
  destruct (case_map_ascii b c Ac) as (c' & -> & _ & Ec & Ei).
  cbn [app]. rewrite title_plain_cons, Ei, Ec, IH by assumption. reflexivity.
Qed.

(** On an ASCII string the loop works in place: a space stays a space at
    its position. *)
Lemma title_plain_space_ascii s :
  forall b i,
    ascii_str s = true -> nth_error s i = Some space ->
    nth_error (title_plain b s) i = Some space.
Proof.
  induction s as [|c s IH]; intros b i A H; [destruct i; discriminate|].
  simpl in A. apply andb_true_iff in A. destruct A as [Ac As].
  rewrite title_plain_cons.
  destruct (case_map_ascii b c Ac) as (c' & E & _).
  destruct i as [|i].
  - injection H as ->. destruct b; reflexivity.
  - rewrite E. simpl in H |- *. now apply IH.
Qed.

Lemma case_map_ascii_cased p c :
  is_ascii c = true ->
  exists c', case_map p c = [c'] /\ is_ascii c' = true
             /\ is_cased c' = is_cased c
             /\ (if p then ascii_upper c' else ascii_lower c') = false.
Proof.
  intros A. pose proof A as A0. apply is_ascii_lt in A0.
  destruct (ascii_data c A) as (_ & _ & Ec & _).
  rewrite (case_map_ascii_eq p c A). eexists. split; [reflexivity|].
  match goal with |- is_ascii ?x = true /\ _ =>
    assert (A' : is_ascii x = true)
  end.
  { apply is_ascii_lt. unfold ascii_upper, ascii_lower.
    destruct p; cases_N; lia. }
  split; [exact A'|].
  destruct (ascii_data _ A') as (_ & _ & Ec' & _).
  rewrite Ec, Ec'. unfold ascii_upper, ascii_lower.
  destruct p; cases_N; split; solve [reflexivity | lia].
Qed.

Lemma title_plain_ascii_shape s :
  forall p,
    ascii_str s = true ->
    List.length (title_plain p s) = List.length s
    /\ ascii_str (title_plain p s) = true
    /\ well_cased p (title_plain p s) = true.
Proof.
  induction s as [|c s IH]; intros p A; [repeat split|].
  simpl in A. apply andb_true_iff in A. destruct A as [Ac As].
  rewrite title_plain_cons.
  destruct (case_map_ascii_cased p c Ac) as (c' & -> & Ac' & Ec & Ep).
  destruct (IH (is_cased c) As) as (L & A & W).
  cbn [app List.length ascii_str forallb well_cased].
  fold (ascii_str (title_plain (is_cased c) s)).
  rewrite L, Ac', A, Ec, W. repeat split.
  destruct p; rewrite Ep; reflexivity.
Qed.

(** On an ASCII string the loop changes the case of letters and nothing
    else. *)
Lemma title_plain_casefold_ascii s :
  forall p,
    ascii_str s = true ->
    casefold_ascii (title_plain p s) = casefold_ascii s.
Proof.
  induction s as [|c s IH]; intros p A; [reflexivity|].
  simpl in A. apply andb_true_iff in A. destruct A as [Ac As].
  rewrite title_plain_cons, (case_map_ascii_eq p c Ac).
  unfold casefold_ascii in *. cbn [app map]. rewrite (IH _ As). f_equal.
  unfold ascii_upper, ascii_lower. destruct p; cases_N; lia.
Qed.

Lemma title_ascii s : ascii_str s = true -> title s = title_plain false s.
Proof. intros A. unfold title. now apply do_title_ascii. Qed.

Lemma slug_to_name_ascii s :
  ascii_str s = true ->
  slug_to_name s = title_plain false (replace hyphen space s)
  /\ ascii_str (replace hyphen space s) = true.
Proof.
  intros A. assert (R : ascii_str (replace hyphen space s) = true)
    by (now apply replace_ascii).
  split; [|exact R]. unfold slug_to_name. now apply title_ascii.
Qed.

(** *** Segments of a reference *)

Lemma startswith_app sub s :
  startswith sub s = true -> exists post, s = sub ++ post.
Proof.
  revert s; induction sub as [|p sub IH]; intros s H.
  - now exists s.
  - destruct s as [|c s]; [discriminate|]. simpl in H.
    apply andb_true_iff in H. destruct H as [E H]. apply N.eqb_eq in E.
    destruct (IH _ H) as (post & ->). exists post. now subst.
Qed.

Lemma contains_app sub s :
  contains sub s = true -> exists pre post, s = pre ++ sub ++ post.
Proof.
  induction s as [|c s IH]; simpl; intros H.
  - rewrite orb_false_r in H. apply startswith_app in H.
    destruct H as (post & ->). now exists [], post.
  - apply orb_true_iff in H. destruct H as [H|H].
    + apply startswith_app in H. destruct H as (post & ->). now exists [], post.
    + destruct (IH H) as (pre & post & ->). now exists (c :: pre), post.
Qed.

Lemma lstrip_char_spec ch s :
  exists k, s = repeat ch k ++ lstrip_char ch s
            /\ forall c r, lstrip_char ch s = c :: r -> c <> ch.
Proof.
  induction s as [|c s (k & E & F)]; simpl.
  - exists 0%nat. split; [reflexivity | discriminate].
  - destruct (N.eqb_spec c ch) as [->|D].
    + exists (S k). split; [simpl; now f_equal | exact F].
    + exists 0%nat. split; [reflexivity|]. intros c' r [= <- _]. exact D.
Qed.

Lemma rev_repeat_same {A} (a : A) k : rev (repeat a k) = repeat a k.
Proof.
  induction k as [|k IH]; [reflexivity|].
  simpl. rewrite IH. symmetry. apply repeat_cons.
Qed.

Lemma rstrip_spec ch s :
  exists k, s = rstrip ch s ++ repeat ch k
            /\ forall r c, rstrip ch s = r ++ [c] -> c <> ch.
Proof.
  unfold rstrip. destruct (lstrip_char_spec ch (rev s)) as (k & E & F).
  exists k. split.
  - rewrite <- (rev_involutive s) at 1. rewrite E at 1.
    now rewrite rev_app_distr, rev_repeat_same.
  - intros r c H. apply (F c (rev r)).
    rewrite <- (rev_involutive (lstrip_char ch (rev s))), H, rev_app_distr.
    reflexivity.
Qed.

Lemma split_snoc_sep sep s : split sep (s ++ [sep]) = split sep s ++ [[]].
Proof.
  induction s as [|c s IH]; simpl.
  - now rewrite N.eqb_refl.
  - rewrite IH. destruct (c =? sep); [reflexivity|].
    pose proof (split_nonempty sep s).
    destruct (split sep s); [congruence | reflexivity].
Qed.

Lemma split_snoc_other sep s c :
  c <> sep ->
  exists ws w, split sep s = ws ++ [w] /\ split sep (s ++ [c]) = ws ++ [w ++ [c]].
Proof.
  intros D. induction s as [|d s (ws & w & E1 & E2)]; simpl.
  - destruct (N.eqb_spec c sep); [congruence|]. now exists [], [].
  - rewrite E1, E2. destruct (d =? sep).
    + now exists ([] :: ws), w.
    + destruct ws as [|x xs]; simpl.
      * now exists [], (d :: w).
      * now exists ((d :: x) :: xs), w.
Qed.

Lemma split_trailing sep s k :
  split sep (s ++ repeat sep k) = split sep s ++ repeat [] k.
Proof.
  induction k as [|k IH]; simpl.
  - now rewrite !app_nil_r.
  - rewrite !repeat_cons, app_assoc, split_snoc_sep, IH.
    now rewrite <- app_assoc.
Qed.

Lemma last_item_snoc {A} (xs : list A) x : last_item (xs ++ [x]) = Some x.
Proof.
  induction xs as [|y xs IH]; [reflexivity|].
  simpl. destruct (xs ++ [x]) eqn:E; [|exact IH].
  destruct xs; discriminate.
Qed.

Lemma snoc_cases {A} (l : list A) : l = [] \/ exists r c, l = r ++ [c].
Proof.
  induction l as [|c r _] using rev_ind; [now left | right; now exists r, c].
Qed.

Lemma filter_nonempty_blank k : filter nonempty (repeat ([] : str) k) = [].
Proof. induction k; simpl; auto. Qed.

(** A reference that holds a character other than the slash has a last
    non-empty segment, and the script's [rstrip], [split], [[-1]] finds
    it. *)
Lemma slug_of_reference href :
  (exists c, In c href /\ c <> slash) ->
  exists slug : str, slug <> []
    /\ last_item (split slash (rstrip slash href)) = Some slug
    /\ last_nonempty_segment href = Some slug.
Proof.
  intros (x & I & D).
  destruct (rstrip_spec slash href) as (k & E & F).
  destruct (snoc_cases (rstrip slash href)) as [R | (r & c & R)];
    rewrite R in E, F |- *.
  - exfalso. simpl in E. rewrite E in I. apply repeat_spec in I. congruence.
  - assert (Dc : c <> slash) by (apply (F r c); reflexivity).
    destruct (split_snoc_other slash r c Dc) as (ws & w & _ & E2).
    exists (w ++ [c]). split; [destruct w; discriminate|]. split.
    + now rewrite E2, last_item_snoc.
    + unfold last_nonempty_segment. rewrite E, split_trailing, E2.
      rewrite !filter_app, filter_nonempty_blank, app_nil_r.
      assert (N1 : nonempty (w ++ [c]) = true) by (destruct w; reflexivity).
      simpl. rewrite N1. apply last_item_snoc.
Qed.

Lemma marker_has_letter href :
  contains (py "ispu-detail") href = true ->
  exists c, In c href /\ c <> slash.
Proof.
  intros H. apply contains_app in H. destruct H as (pre & post & ->).
  exists 105. split; [|discriminate].
  apply in_or_app. right. now left.
Qed.

(** ** Properties of the parse tree *)

(** Induction on a tree, with the hypothesis for every child of a tag. *)
Lemma node_tree_ind (P : node -> Prop) :
  (forall s, P (NavigableString s)) ->
  (forall s, P (OtherString s)) ->
  (forall nm at_ cs, Forall P cs -> P (Tag nm at_ cs)) ->
  forall n, P n.
Proof.
  intros HN HO HT. fix IH 1. intros [s|s|nm at_ cs]; [apply HN | apply HO |].
  apply HT. induction cs as [|c cs IHcs]; constructor; [apply IH | exact IHcs].
Qed.

Lemma tags_of_lowered n :
  forall above t,
    from_html_parser n = true -> In t (tags_of above n) -> tag_lowered t = true.
Proof.
  induction n as [s|s|nm at_ cs IH] using node_tree_ind; intros above t W I;
    try contradiction.
  simpl in W, I. destruct I as [<-|I]; [exact W|].
  apply andb_true_iff in W. destruct W as [_ W].
  apply in_flat_map in I. destruct I as (c & Ic & It).
  rewrite Forall_forall in IH. rewrite forallb_forall in W.
  exact (IH c Ic _ t (W c Ic) It).
Qed.

Lemma descendants_lowered li d :
  forallb from_html_parser (contents li) = true ->
  In d (descendants li) -> tag_lowered d = true.
Proof.
  intros W I. apply in_flat_map in I. destruct I as (c & Ic & Id).
  rewrite forallb_forall in W. exact (tags_of_lowered c _ d (W c Ic) Id).
Qed.

Lemma select_lowered s soup li :
  forallb from_html_parser soup = true ->
  In li (select s soup) -> tag_lowered li = true.
Proof.
  intros W I. apply filter_In in I. destruct I as [I _].
  apply in_flat_map in I. destruct I as (c & Ic & It).
  rewrite forallb_forall in W. exact (tags_of_lowered c _ li (W c Ic) It).
Qed.

Lemma sv_lower_lowered s : lowered s = true -> sv_lower s = s.
Proof.
  induction s as [|c s IH]; simpl; intros H; [reflexivity|].
  apply andb_true_iff in H. destruct H as [Hc Hs].
  destruct (ascii_upper c); [discriminate|]. now rewrite IH.
Qed.

Lemma str_eqb_sym a b : str_eqb a b = str_eqb b a.
Proof.
  destruct (str_eqb a b) eqn:E.
  - apply str_eqb_eq in E. subst. symmetry. apply str_eqb_refl.
  - destruct (str_eqb b a) eqn:E'; [|reflexivity].
    apply str_eqb_eq in E'. subst. now rewrite str_eqb_refl in E.
Qed.

(** On lower-cased attribute names the selector's lookup and the
    dictionary lookup of [tag[key]] agree. *)
Lemma match_attribute_name_lowered attrs name :
  lowered name = true ->
  forallb (fun kv => lowered (fst kv)) attrs = true ->
  match_attribute_name attrs name = attr_get attrs name.
Proof.
  intros Hn. induction attrs as [|[k v] attrs IH]; simpl; intros H; [reflexivity|].
  apply andb_true_iff in H. destruct H as [Hk H].
  rewrite (sv_lower_lowered _ Hn), (sv_lower_lowered _ Hk), (str_eqb_sym name k).
  destruct (str_eqb k name); [reflexivity | now apply IH].
Qed.

(** What [select_one] returns is a descendant that matches. *)
Lemma select_one_some s li t :
  select_one s li = Some t -> In t (descendants li) /\ matches s t = true.
Proof. apply find_some. Qed.

(** The tag the detail-link selector finds carries [href], and the
    marker is in it. *)
Lemma detail_link_href li link_tag :
  forallb from_html_parser (contents li) = true ->
  select_one detail_link li = Some link_tag ->
  exists href, getitem link_tag (py "href") = Some href
               /\ contains (py "ispu-detail") href = true.
Proof.
  intros W S. apply select_one_some in S. destruct S as [I Mt].
  pose proof (descendants_lowered _ _ W I) as L.
  unfold tag_lowered, head_lowered in L.
  apply andb_true_iff in L. destruct L as [L _].
  apply andb_true_iff in L. destruct L as [_ L].
  unfold matches, detail_link in Mt. cbn [sel_match] in Mt.
  unfold match_compound in Mt. cbn [sel_attr_contains forallb fst snd] in Mt.
  apply andb_true_iff in Mt. destruct Mt as [_ Mt].
  rewrite andb_true_r in Mt.
  rewrite (match_attribute_name_lowered _ (py "href") eq_refl L) in Mt.
  unfold getitem.
  destruct (attr_get (hattrs (this link_tag)) (py "href")) as [href|];
    [|discriminate].
  now exists href.
Qed.

(** Lines 41 to 49 never raise on a tree of [html.parser]. *)
Lemma link_fields_found li link_tag :
  forallb from_html_parser (contents li) = true ->
  select_one detail_link li = Some link_tag ->
  exists (href slug : str),
    getitem link_tag (py "href") = Some href
    /\ contains (py "ispu-detail") href = true
    /\ slug <> []
    /\ last_nonempty_segment href = Some slug
    /\ link_fields li = Ok (Some (slug_to_name slug), Some href).
Proof.
  intros W S. destruct (detail_link_href li link_tag W S) as (href & G & C).
  destruct (slug_of_reference href (marker_has_letter href C))
    as (slug & NE & L1 & L2).
  exists href, slug. repeat split; try assumption.
  unfold link_fields. now rewrite S, G, L1.
Qed.

Lemma link_fields_absent li :
  select_one detail_link li = None -> link_fields li = Ok (None, None).
Proof. intros S. unfold link_fields. now rewrite S. Qed.

Lemma truthy_nonempty (s : str) : s <> [] -> truthy (Some s) = true.
Proof. destruct s; [congruence | reflexivity]. Qed.

(** *** The text of a tag *)

Lemma visible_app a b : visible (a ++ b) = visible a ++ visible b.
Proof. apply filter_app. Qed.

Lemma visible_rev s : visible (rev s) = rev (visible s).
Proof.
  induction s as [|c s IH]; [reflexivity|].
  cbn [rev]. rewrite visible_app, IH. cbn [visible filter].
  destruct (negb (isspace c)); cbn [rev]; [reflexivity | now rewrite app_nil_r].
Qed.

Lemma visible_lstrip s : visible (lstrip s) = visible s.
Proof.
  induction s as [|c s IH]; [reflexivity|]. cbn [lstrip].
  destruct (isspace c) eqn:E; [|reflexivity].
  rewrite IH. unfold visible. cbn [filter]. now rewrite E.
Qed.

Lemma visible_strip s : visible (strip s) = visible s.
Proof.
  unfold strip.
  now rewrite visible_rev, visible_lstrip, visible_rev, rev_involutive,
    visible_lstrip.
Qed.

(** [get_text(strip=True)] keeps every character that is not
    whitespace, in order. *)
Lemma visible_get_text t : visible (get_text_strip t) = visible (text_under t).
Proof.
  unfold get_text_strip, text_under.
  induction (flat_map strings_of (contents t)) as [|x xs IH]; [reflexivity|].
  cbn [map filter List.concat]. rewrite visible_app, <- IH, <- (visible_strip x).
  destruct (strip x) as [|c r]; cbn [nonempty]; [reflexivity|].
  cbn [List.concat]. now rewrite visible_app.
Qed.

Lemma lstrip_head s : forall c rest, lstrip s = c :: rest -> isspace c = false.
Proof.
  induction s as [|d s IH]; simpl; intros c rest H; [discriminate|].
  destruct (isspace d) eqn:E; [now apply (IH c rest)|].
  injection H as <- _. exact E.
Qed.

Lemma lstrip_suffix s : exists front, s = front ++ lstrip s.
Proof.
  induction s as [|d s (front & E)]; simpl; [now exists []|].
  destruct (isspace d); [|now exists []].
  exists (d :: front). simpl. now f_equal.
Qed.

Lemma strip_trimmed s : trimmed (strip s).
Proof.
  unfold strip. set (a := lstrip s). set (b := lstrip (rev a)). split.
  - intros c rest H.
    assert (Hb : b = rev rest ++ [c])
      by (rewrite <- (rev_involutive b), H; reflexivity).
    destruct (lstrip_suffix (rev a)) as (front & E). fold b in E.
    rewrite Hb, app_assoc in E.
    assert (Ha : a = c :: rev (front ++ rev rest))
      by (rewrite <- (rev_involutive a), E, rev_app_distr; reflexivity).
    exact (lstrip_head s c _ Ha).
  - intros front c H.
    assert (Hb : b = c :: rev front)
      by (rewrite <- (rev_involutive b), H, rev_app_distr; reflexivity).
    exact (lstrip_head (rev a) c _ Hb).
Qed.

Lemma concat_trimmed (pieces : list str) :
  Forall (fun p => trimmed p /\ p <> []) pieces ->
  trimmed (List.concat pieces).
Proof.
  induction 1 as [|p ps [[Hh Hl] NE] _ [IHh IHl]].
  { split; [discriminate | intros [|d front] c H; discriminate]. }
  simpl. split.
  - intros c rest H. destruct p as [|d p]; [congruence|].
    injection H as <- _. exact (Hh d p eq_refl).
  - intros front c H.
    destruct (snoc_cases (List.concat ps)) as [E | (q & d & E)]; rewrite E in *.
    + rewrite app_nil_r in H. exact (Hl front c H).
    + rewrite app_assoc in H. apply app_inj_tail in H. destruct H as [_ <-].
      exact (IHl q d eq_refl).
Qed.

Lemma get_text_strip_trimmed t : trimmed (get_text_strip t).
Proof.
  unfold get_text_strip. apply concat_trimmed.
  apply Forall_forall. intros p I. apply filter_In in I.
  destruct I as [I NE]. apply in_map_iff in I. destruct I as (s & <- & _).
  split; [apply strip_trimmed|]. intros E. rewrite E in NE. discriminate.
Qed.

(** ** Properties of the file system and of the runs *)

(** Where [open] refuses no path, the calls of [open] drop out. *)
Lemma save_json_eq records :
  save_json records
  = (write_file OUTPUT_JSON (json_dumps records) ;;
     print (JsonSaved (List.length records))).
Proof. reflexivity. Qed.

Lemma append_csv_eq records :
  append_csv records
  = (file_exists <- isfile OUTPUT_CSV ;;
     let header := if file_exists then [] else writeheader fieldnames in
     let (rows, stop) := writerows fieldnames records in
     append_file OUTPUT_CSV (header ++ rows) ;;
     match stop with
     | Some e => raise e
     | None => print (CsvAppended (List.length records))
     end).
Proof. reflexivity. Qed.



Lemma fs_read_write_same fs path text :
  fs_read (fs_write fs path text) path = Some text.
Proof.
  induction fs as [|[p old] fs IH]; simpl.
  - now rewrite str_eqb_refl.
  - destruct (str_eqb p path) eqn:E; simpl; rewrite E; [reflexivity | exact IH].
Qed.

Lemma fs_read_write_other fs path text other :
  other <> path -> fs_read (fs_write fs path text) other = fs_read fs other.
Proof.
  intros D. induction fs as [|[p old] fs IH]; simpl.
  - destruct (str_eqb path other) eqn:E; [|reflexivity].
    apply str_eqb_eq in E. congruence.
  - destruct (str_eqb p path) eqn:E; simpl.
    + apply str_eqb_eq in E. subst p.
      destruct (str_eqb path other) eqn:E'; [|reflexivity].
      apply str_eqb_eq in E'. congruence.
    + now rewrite IH.
Qed.

(** The record of an item, field by field. *)
Lemma item_record_fields timestamp li station detail_url :
  link_fields li = Ok (station, detail_url) ->
  item_record timestamp li
  = Ok [ (py "timestamp", Some timestamp);
         (py "station", station);
         (py "aqi", option_map get_text_strip (select_one value_heading li));
         (py "pollutant", option_map get_text_strip (select_one value_paragraph li));
         (py "status", option_map get_text_strip (select_one status_label li));
         (py "detail_url", detail_url) ].
Proof. intros H. unfold item_record. now rewrite H. Qed.

Lemma item_record_keys timestamp li record :
  item_record timestamp li = Ok record -> keys record = fieldnames.
Proof.
  unfold item_record. destruct (link_fields li) as [[station url]|e];
    [|discriminate].
  intros [= <-]. reflexivity.
Qed.

Lemma item_record_timestamp timestamp li record :
  item_record timestamp li = Ok record ->
  dict_get record (py "timestamp") = Some (Some timestamp).
Proof.
  unfold item_record. destruct (link_fields li) as [[station url]|e];
    [|discriminate].
  intros [= <-]. reflexivity.
Qed.

Lemma scrape_loop_kept timestamp items :
  forall records out,
    Forall (kept timestamp) records ->
    scrape_loop timestamp items records = Ok out ->
    Forall (kept timestamp) out.
Proof.
  induction items as [|li items IH]; simpl; intros records out F H.
  - now injection H as <-.
  - destruct (item_record timestamp li) as [record|e] eqn:R; [|discriminate].
    destruct (dict_get record (py "station")) as [station|] eqn:S; [|discriminate].
    revert H. apply IH.
    destruct (truthy station) eqn:T; [|exact F].
    apply Forall_app. split; [exact F|]. constructor; [|constructor].
    split; [exact (item_record_keys _ _ _ R)|].
    split; [exact (item_record_timestamp _ _ _ R)|].
    destruct station as [[|c s]|]; try discriminate.
    exists (c :: s). split; [exact S | discriminate].
Qed.

(** *** Where the records of the loop come from *)

Lemma link_fields_some li (name : str) url :
  link_fields li = Ok (Some name, url) ->
  exists link_tag (href slug : str),
    select_one detail_link li = Some link_tag
    /\ getitem link_tag (py "href") = Some href
    /\ last_item (split slash (rstrip slash href)) = Some slug
    /\ name = slug_to_name slug
    /\ url = Some href.
Proof.
  unfold link_fields.
  destruct (select_one detail_link li) as [link_tag|]; [|discriminate].
  destruct (getitem link_tag (py "href")) as [href|] eqn:G; [|discriminate].
  destruct (last_item (split slash (rstrip slash href))) as [slug|] eqn:L;
    [|discriminate].
  intros [= <- <-]. exists link_tag, href, slug. repeat split; assumption.
Qed.

(** Every record the loop adds is the record of one of the items, and
    its station is a string that is not empty. *)
Lemma scrape_loop_origin timestamp items :
  forall records out,
    scrape_loop timestamp items records = Ok out ->
    exists added,
      out = records ++ added
      /\ Forall (fun record =>
                   exists li (station : str),
                     In li items
                     /\ item_record timestamp li = Ok record
                     /\ dict_get record (py "station") = Some (Some station)
                     /\ station <> [])
           added.
Proof.
  induction items as [|li items IH]; simpl; intros records out H.
  - injection H as <-. exists []. split; [now rewrite app_nil_r | constructor].
  - destruct (item_record timestamp li) as [record|e] eqn:R; [|discriminate].
    destruct (dict_get record (py "station")) as [station|] eqn:S; [|discriminate].
    destruct (IH _ _ H) as (added & E & F).
    assert (F' : Forall (fun record =>
                   exists li0 (station : str),
                     (li = li0 \/ In li0 items)
                     /\ item_record timestamp li0 = Ok record
                     /\ dict_get record (py "station") = Some (Some station)
                     /\ station <> []) added).
    { eapply Forall_impl; [|exact F].
      intros r (l & s & I & Rr & Sr & NE). exists l, s. auto. }
    destruct (truthy station) eqn:T.
    + exists (record :: added). split; [now rewrite E, <- app_assoc|].
      constructor; [|exact F'].
      destruct station as [[|c s]|]; try discriminate.
      exists li, (c :: s). repeat split; auto. discriminate.
    + now exists added.
Qed.

Lemma scrape_unreachable w :
  net w = Unreachable -> scrape w = (Raise RequestException, w).
Proof. intros H. unfold scrape, bind, requests_get. now rewrite H. Qed.

Lemma scrape_error_status w st soup :
  net w = Response st soup -> error_status st = true ->
  scrape w = (Raise (HTTPError st), w).
Proof.
  intros H E. unfold scrape, bind, requests_get, raise_for_status.
  rewrite H. cbn [status_code]. now rewrite E.
Qed.

Lemma scrape_fetched w st soup :
  net w = Response st soup -> error_status st = false ->
  scrape w
  = (scrape_loop (strftime_iso_z (clock w (ticks w)))
       (select station_items soup) [],
     tick w).
Proof.
  intros H E. unfold scrape, bind, requests_get, raise_for_status.
  rewrite H. cbn [status_code parsed]. rewrite E. reflexivity.
Qed.

(** A run of [scrape] that returns has fetched the page, read the clock
    once and gone through the loop. *)
Lemma scrape_returns w records w' :
  scrape w = (Ok records, w') ->
  exists st soup,
    net w = Response st soup /\ error_status st = false
    /\ scrape_loop (strftime_iso_z (clock w (ticks w)))
         (select station_items soup) [] = Ok records
    /\ w' = tick w.
Proof.
  intros H. destruct (net w) as [|st soup] eqn:N.
  - rewrite (scrape_unreachable w N) in H. discriminate.
  - destruct (error_status st) eqn:E.
    + rewrite (scrape_error_status w st soup N E) in H. discriminate.
    + rewrite (scrape_fetched w st soup N E) in H.
      injection H as H1 H2. now exists st, soup.
Qed.


Lemma dict_to_list_fieldnames record :
  keys record = fieldnames ->
  dict_to_list fieldnames record
  = Ok (map (fun key =>
               match dict_get record key with
               | Some v => v
               | None => Some []
               end) fieldnames).
Proof. intros K. unfold dict_to_list. now rewrite K. Qed.

Lemma writerows_fieldnames records :
  Forall (fun r => keys r = fieldnames) records ->
  writerows fieldnames records = (List.concat (map row_of records), None).
Proof.
  induction 1 as [|r rs K _ IH]; [reflexivity|].
  simpl. now rewrite (dict_to_list_fieldnames r K), IH.
Qed.

(** [append_csv] on records with the six keys: the header when the file
    is new, then one row for each record; no other file changes. *)
Lemma append_csv_rows records w :
  Forall (fun r => keys r = fieldnames) records ->
  exists w',
    append_csv records w = (Ok tt, w')
    /\ fs_read (files w') OUTPUT_CSV
       = Some (text_of (files w) OUTPUT_CSV
               ++ (match fs_read (files w) OUTPUT_CSV with
                   | Some _ => []
                   | None => writeheader fieldnames
                   end)
               ++ List.concat (map row_of records))
    /\ forall path, path <> OUTPUT_CSV ->
         fs_read (files w') path = fs_read (files w) path.
Proof.
  intros K. rewrite append_csv_eq.
  unfold bind, isfile, append_file, print, text_of.
  rewrite (writerows_fieldnames records K). cbn [fst snd files set_files].
  eexists. split; [reflexivity|]. cbn [files]. split.
  - rewrite fs_read_write_same.
    destruct (fs_read (files w) OUTPUT_CSV); reflexivity.
  - intros path D. now apply fs_read_write_other.
Qed.

(** *** The CSV text, read back *)














(** *** The timestamp *)

Lemma isdigit_digit_mod n : isdigit (digit (n mod 10)) = true.
Proof.
  unfold isdigit, digit.
  pose proof (N.mod_lt n 10 ltac:(discriminate)) as H.
  set (m := n mod 10) in *. clearbody m.
  apply andb_true_intro; split; apply N.leb_le; lia.
Qed.

Lemma fmt_year_four_digits y :
  1000 <= y -> y <= 9999 ->
  fmt_year y = [digit (y / 1000 mod 10); digit (y / 100 mod 10);
                digit (y / 10 mod 10); digit (y mod 10)].
Proof.
  intros Lo Hi. unfold fmt_year, drop_zeros.
  assert (L : 1 <= y / 1000) by (apply N.div_le_lower_bound; lia).
  assert (U : y / 1000 < 10) by (apply N.Div0.div_lt_upper_bound; lia).
  rewrite (N.mod_small (y / 1000) 10) by assumption.
  unfold digit. set (q := y / 1000) in *. clearbody q.
  destruct (N.eqb_spec (48 + q) 48); [lia | reflexivity].
Qed.

Lemma format_digit f c :
  existsb (N.eqb f) (py "YMDHS") = true -> isdigit c = true ->
  format_char f c = true.
Proof. intros F D. unfold format_char. now rewrite F. Qed.

Lemma reads_as_cons f c fmt s :
  format_char f c = true -> reads_as fmt s = true ->
  reads_as (f :: fmt) (c :: s) = true.
Proof. intros F R. simpl. now rewrite F. Qed.

Lemma strftime_iso_z_shape t :
  datetime_ok t = true -> 1000 <= year t ->
  reads_as (py "YYYY-MM-DDTHH:MM:SSZ") (strftime_iso_z t) = true.
Proof.
  intros V Y. unfold datetime_ok in V.
  repeat (apply andb_true_iff in V; destruct V as [V ?]).
  unfold strftime_iso_z.
  rewrite fmt_year_four_digits by (auto; now apply N.leb_le).
  unfold pad2.
  change (py "YYYY-MM-DDTHH:MM:SSZ")
    with [89;89;89;89;45;77;77;45;68;68;84;72;72;58;77;77;58;83;83;90].
  cbn [app].
  repeat (apply reads_as_cons;
          [ first [ apply format_digit; [reflexivity | apply isdigit_digit_mod]
                  | reflexivity ] | ]).
  reflexivity.
Qed.

(** ** Runs on the sample pages *)

Example slug_examples :
  slug_to_name (py "us-embassy-1") = py "Us Embassy 1"
  /\ slug_to_name (py "dki1-bundaran-hi") = py "Dki1 Bundaran Hi"
  /\ slug_to_name (py "3rd-o'neil") = py "3Rd O'Neil".
Proof. repeat split. Qed.

Example segment_examples :
  last_nonempty_segment (py "/ispu-detail/us-embassy-1//") = Some (py "us-embassy-1")
  /\ split slash (py "a//b/") = [py "a"; []; py "b"; []]
  /\ rstrip slash (py "a//b//") = py "a//b".
Proof. repeat split. Qed.

Example strftime_example :
  strftime_iso_z (sample_clock 5) = py "2024-11-02T03:04:05Z".
Proof. reflexivity. Qed.

(** A field with a comma and a quote is quoted, [None] is empty. *)
Example csv_row_example :
  csv_writerow [Some (py "t"); None; Some [97; 44; 34; 98]]
  = py "t,," ++ [34; 97; 44; 34; 34; 98; 34; 13; 10].
Proof. reflexivity. Qed.

Example json_example :
  json_dumps [[(py "aqi", None); (py "station", Some (py "A"))]]
  = [91; 10] ++ py "  {" ++ [10]
    ++ py "    " ++ [34] ++ py "aqi" ++ [34] ++ py ": null," ++ [10]
    ++ py "    " ++ [34] ++ py "station" ++ [34] ++ py ": " ++ [34; 65; 34; 10]
    ++ py "  }" ++ [10; 93].
Proof. reflexivity. Qed.

(** The item without a link is dropped, the other two are kept in the
    order of the page. *)
Example scrape_page_mixed :
  option_map (map (fun r => dict_get r (py "station")))
    (match fst (scrape (sample_world (Response 200 page_mixed) [])) with
     | Ok records => Some records
     | Raise _ => None
     end)
  = Some [Some (Some (py "Us Embassy 1")); Some (Some (py "Dki1 Bundaran Hi"))].
Proof. reflexivity. Qed.

Example main_page_two_output :
  stdout (snd (main (sample_world (Response 200 page_two) [])))
  = [Starting (sample_clock 0); JsonSaved 2; CsvAppended 2; Done].
Proof. reflexivity. Qed.

Example main_page_two_csv :
  fs_read (files (snd (main (sample_world (Response 200 page_two) old_files))))
    OUTPUT_CSV
  = Some (py "timestamp,station,aqi,pollutant,status,detail_url" ++ [13; 10]
          ++ py "2024-11-02T03:04:01Z,Us Embassy 1,55,PM 2.5,Sedang,https://rendahemisi.jakarta.go.id/ispu-detail/us-embassy-1/" ++ [13; 10]
          ++ py "2024-11-02T03:04:01Z,Dki1 Bundaran Hi,,PM 10,Baik,/ispu-detail/dki1-bundaran-hi" ++ [13; 10]).
Proof. vm_compute. reflexivity. Qed.

(** Names outside ASCII: u-umlaut (252, capital 220) keeps its place in
    the word, the ligature fi (64257) opens into its two letters, a
    capital sigma (931) at the end of a word becomes the final small
    sigma (962), the capital I with dot (304) inside a word becomes two
    code points. *)
Example slug_examples_unicode :
  slug_to_name [109; 252; 110; 99; 104; 101; 110; 45; 115; 252; 100]
  = [77; 252; 110; 99; 104; 101; 110; 32; 83; 252; 100]
  /\ slug_to_name [64257; 45; 120] = [70; 105; 32; 88]
  /\ slug_to_name [913; 931; 45; 927; 916; 927; 931]
     = [913; 962; 32; 927; 948; 959; 962]
  /\ slug_to_name [304; 115; 116; 97; 110; 98; 117; 108; 45; 105; 304]
     = [304; 115; 116; 97; 110; 98; 117; 108; 32; 73; 105; 775]
  /\ slug_to_name (py "US-EMBASSY-1") = py "Us Embassy 1".
Proof. repeat split. Qed.

(** The rows [append_csv] writes are read back as the cells of the
    records, a quoted field included. *)
Example csv_read_example :
  csv_read (csv_writerow [Some (py "t"); None; Some [97; 44; 34; 98]]
            ++ csv_writerow [Some []; Some (py "x"); None])
  = [[py "t"; []; [97; 44; 34; 98]]; [[]; py "x"; []]].
Proof. reflexivity. Qed.

(** The run in which the CSV path is a directory: the JSON file has
    been replaced when [OSError] leaves the script. *)
Example main_on_csv_locked :
  let w := sample_world (Response 200 page_two) old_files in
  fst (main_on [OUTPUT_CSV] w) = Raise OSError
  /\ fs_read (files (snd (main_on [OUTPUT_CSV] w))) OUTPUT_JSON
     = Some (json_dumps
               (match fst (scrape (started w)) with
                | Ok records => records
                | Raise _ => []
                end))
  /\ fs_read (files (snd (main_on [OUTPUT_CSV] w))) OUTPUT_CSV
     = fs_read old_files OUTPUT_CSV.
Proof. vm_compute. repeat split. Qed.

(** ** The claims *)

(** C1: for every slug [s] that contains hyphens, [slug_to_name s] is
    [s] with every hyphen replaced by a space and every other character
    kept, then title-cased word by word; no hyphen is left in it.  For
    an ASCII slug the casing is spelled out: the name has the length of
    [s], spells the same letters, a space where [s] had a hyphen, and a
    letter in it is a capital exactly when no letter stands before it.
    [slug_to_name "us-embassy-1"] and [slug_to_name "US-EMBASSY-1"] are
    ["Us Embassy 1"]; outside ASCII, a capital U with diaeresis (220)
    inside a word becomes the small one (252). *)
Theorem slug_to_name_replaces_and_titles (s : str) :
  In hyphen s ->
  let spaced := replace hyphen space s in
  List.length spaced = List.length s
  /\ (forall i c, nth_error s i = Some c ->
        nth_error spaced i = Some (if c =? hyphen then space else c))
  /\ slug_to_name s = title_each_word spaced
  /\ ~ In hyphen (slug_to_name s)
  /\ (ascii_str s = true ->
      List.length (slug_to_name s) = List.length s
      /\ casefold_ascii (slug_to_name s) = casefold_ascii spaced
      /\ well_cased false (slug_to_name s) = true
      /\ forall i, nth_error s i = Some hyphen ->
                   nth_error (slug_to_name s) i = Some space)
  /\ slug_to_name (py "us-embassy-1") = py "Us Embassy 1"
  /\ slug_to_name (py "US-EMBASSY-1") = py "Us Embassy 1"
  /\ slug_to_name [77; 220; 78; 67; 72; 69; 78; 45; 83; 220; 68]
     = [77; 252; 110; 99; 104; 101; 110; 32; 83; 252; 100].
Proof.
  intros _ spaced. split; [apply replace_length|].
  split; [intros i c H; unfold spaced; now rewrite replace_nth, H|].
  split; [apply title_words|].
  split; [apply slug_to_name_no_hyphen|].
  split; [|repeat split].
  intros A. destruct (slug_to_name_ascii s A) as [-> R].
  destruct (title_plain_ascii_shape _ false R) as (L & _ & W).
  split; [now rewrite L, replace_length|].
  split; [now apply title_plain_casefold_ascii|].
  split; [exact W|].
  intros i H. apply title_plain_space_ascii; [exact R|].
  now rewrite replace_nth, H.
Qed.

Lemma slug_to_name_replaces_and_titles_witness :
  In hyphen (py "us-embassy-1")
  /\ slug_to_name (py "us-embassy-1")
     = title_each_word (replace hyphen space (py "us-embassy-1"))
  /\ well_cased false (slug_to_name (py "us-embassy-1")) = true.
Proof.
  assert (H : In hyphen (py "us-embassy-1")) by (right; right; left; reflexivity).
  split; [exact H|].
  destruct (slug_to_name_replaces_and_titles (py "us-embassy-1") H)
    as (_ & _ & T & _ & A & _).
  split; [exact T|]. exact (proj1 (proj2 (proj2 (A eq_refl)))).
Defined.

(** C9, as stated, fails: the image of "a", U+0130, "b" holds no hyphen,
    and [slug_to_name] changes it again (the final "b" becomes "B"
    after the combining dot that lower-casing U+0130 leaves). *)
Lemma slug_to_name_twice_differs :
  ~ In hyphen (slug_to_name [97; 304; 98])
  /\ slug_to_name (slug_to_name [97; 304; 98]) <> slug_to_name [97; 304; 98].
Proof.
  split; [apply slug_to_name_no_hyphen | discriminate].
Qed.

(** C9, amended: for every ASCII string [s] whose image holds no hyphen,
    [slug_to_name (slug_to_name s) = slug_to_name s]. *)
Theorem slug_to_name_idempotent_ascii (s : str) :
  ascii_str s = true ->
  ~ In hyphen (slug_to_name s) ->
  slug_to_name (slug_to_name s) = slug_to_name s.
Proof.
  intros A H. unfold slug_to_name at 1.
  rewrite (replace_absent _ _ _ H).
  destruct (slug_to_name_ascii s A) as [E R]. rewrite E.
  destruct (title_plain_ascii_shape _ false R) as (_ & A' & _).
  rewrite (title_ascii _ A'). now apply title_plain_idempotent_ascii.
Qed.

Lemma slug_to_name_idempotent_ascii_witness :
  slug_to_name (slug_to_name (py "us-embassy-1"))
  = slug_to_name (py "us-embassy-1").
Proof.
  apply (slug_to_name_idempotent_ascii (py "us-embassy-1")).
  - reflexivity.
  - apply slug_to_name_no_hyphen.
Defined.

(** C10: on a tree of [html.parser], whenever the detail-link lookup
    returns a tag, [link_tag["href"]] returns a string (the one that
    holds the marker), and lines 41 to 49 raise nothing. *)
Theorem href_lookup_cannot_fail (li link_tag : tag) :
  forallb from_html_parser (contents li) = true ->
  select_one detail_link li = Some link_tag ->
  (exists href, getitem link_tag (py "href") = Some href
                /\ contains (py "ispu-detail") href = true)
  /\ forall e, link_fields li <> Raise e.
Proof.
  intros W S. split.
  - exact (detail_link_href li link_tag W S).
  - destruct (link_fields_found li link_tag W S) as (h & g & _ & _ & _ & _ & E).
    rewrite E. discriminate.
Qed.

Lemma href_lookup_cannot_fail_witness :
  getitem (link_of (top li_full)) (py "href")
  = Some (py "https://rendahemisi.jakarta.go.id/ispu-detail/us-embassy-1/").
Proof.
  destruct (href_lookup_cannot_fail (top li_full) (link_of (top li_full))
              eq_refl eq_refl) as [(href & G & _) _].
  rewrite G. vm_compute in G. injection G as <-. reflexivity.
Defined.

(** C4: an item without the AQI heading, with a detail link, a pollutant
    paragraph and a status label, gives a record whose [aqi] is [None]
    while the four other fields hold strings, each read from its own
    tag: [detail_url] is the reference of the link, [station] the name
    of its last segment, and [pollutant] and [status] are the texts of
    the paragraph and of the label, with every character of them that
    is not whitespace, in order, and no whitespace at either end. *)
Theorem missing_heading_leaves_other_fields
  (timestamp : str) (li link_tag pollutant_tag status_tag : tag) :
  forallb from_html_parser (contents li) = true ->
  select_one detail_link li = Some link_tag ->
  select_one value_heading li = None ->
  select_one value_paragraph li = Some pollutant_tag ->
  select_one status_label li = Some status_tag ->
  exists record (station href slug pollutant status : str),
    item_record timestamp li = Ok record
    /\ dict_get record (py "aqi") = Some None
    /\ dict_get record (py "station") = Some (Some station)
    /\ station <> []
    /\ last_nonempty_segment href = Some slug
    /\ station = slug_to_name slug
    /\ dict_get record (py "pollutant") = Some (Some pollutant)
    /\ pollutant = get_text_strip pollutant_tag
    /\ visible pollutant = visible (text_under pollutant_tag)
    /\ trimmed pollutant
    /\ dict_get record (py "status") = Some (Some status)
    /\ status = get_text_strip status_tag
    /\ visible status = visible (text_under status_tag)
    /\ trimmed status
    /\ dict_get record (py "detail_url") = Some (Some href)
    /\ getitem link_tag (py "href") = Some href
    /\ contains (py "ispu-detail") href = true.
Proof.
  intros W L V P S.
  destruct (link_fields_found li link_tag W L)
    as (href & slug & G & C & NE & LS & LF).
  eexists _, (slug_to_name slug), href, slug,
    (get_text_strip pollutant_tag), (get_text_strip status_tag).
  rewrite (item_record_fields timestamp li _ _ LF), V, P, S.
  repeat match goal with |- _ /\ _ => split end;
    try reflexivity; try assumption;
    try apply visible_get_text; try apply get_text_strip_trimmed.
  now apply slug_to_name_nonempty.
Qed.

Lemma missing_heading_leaves_other_fields_witness :
  item_record (py "t") (top li_no_heading)
  = Ok [ (py "timestamp", Some (py "t"));
         (py "station", Some (py "Dki1 Bundaran Hi"));
         (py "aqi", None);
         (py "pollutant", Some (py "PM 10"));
         (py "status", Some (py "Baik"));
         (py "detail_url", Some (py "/ispu-detail/dki1-bundaran-hi")) ]
  /\ exists record (pollutant status : str),
       item_record (py "t") (top li_no_heading) = Ok record
       /\ dict_get record (py "aqi") = Some None
       /\ dict_get record (py "pollutant") = Some (Some pollutant)
       /\ visible pollutant = py "PM10"
       /\ dict_get record (py "status") = Some (Some status)
       /\ visible status = py "Baik".
Proof.
  split; [reflexivity|].
  destruct (missing_heading_leaves_other_fields (py "t") (top li_no_heading)
              (link_of (top li_no_heading)) (paragraph_of (top li_no_heading))
              (label_of (top li_no_heading))
              eq_refl eq_refl eq_refl eq_refl eq_refl)
    as (record & station & href & slug & pollutant & status
        & R & A & _ & _ & _ & _ & P & _ & VP & _ & S & _ & VS & _).
  exists record, pollutant, status.
  split; [exact R|]. split; [exact A|]. split; [exact P|].
  split; [now rewrite VP|]. split; [exact S|]. now rewrite VS.
Defined.

(** C5: on a tree of [html.parser], an item with a detail link gets as
    [station] the last non-empty segment of the link's reference, with
    hyphens replaced by spaces and title-cased word by word, and the
    reference as [detail_url]; for an ASCII segment the name has the
    length of the segment, spells its letters, and a letter in it is a
    capital exactly when no letter stands before it.  An item without
    such a link gets [None] for both. *)
Theorem station_from_last_segment (timestamp : str) (li : tag) :
  forallb from_html_parser (contents li) = true ->
  (forall link_tag,
     select_one detail_link li = Some link_tag ->
     exists (href slug name : str) record,
       getitem link_tag (py "href") = Some href
       /\ contains (py "ispu-detail") href = true
       /\ last_nonempty_segment href = Some slug
       /\ last_item (split slash (rstrip slash href)) = Some slug
       /\ item_record timestamp li = Ok record
       /\ dict_get record (py "station") = Some (Some name)
       /\ name = slug_to_name slug
       /\ name = title_each_word (replace hyphen space slug)
       /\ (ascii_str slug = true ->
           List.length name = List.length slug
           /\ casefold_ascii name = casefold_ascii (replace hyphen space slug)
           /\ well_cased false name = true)
       /\ dict_get record (py "detail_url") = Some (Some href))
  /\ (select_one detail_link li = None ->
      exists record,
        item_record timestamp li = Ok record
        /\ dict_get record (py "station") = Some None
        /\ dict_get record (py "detail_url") = Some None).
Proof.
  intros W. split.
  - intros link_tag S.
    destruct (detail_link_href li link_tag W S) as (href & G & C).
    destruct (slug_of_reference href (marker_has_letter href C))
      as (slug & NE & L1 & L2).
    assert (LF : link_fields li = Ok (Some (slug_to_name slug), Some href))
      by (unfold link_fields; now rewrite S, G, L1).
    exists href, slug, (slug_to_name slug). eexists.
    rewrite (item_record_fields timestamp li _ _ LF).
    repeat match goal with |- _ /\ _ => split end;
      try assumption; try reflexivity.
    + unfold slug_to_name. now rewrite title_words.
    + intros A. destruct (slug_to_name_ascii slug A) as [-> R].
      destruct (title_plain_ascii_shape _ false R) as (L & _ & Wc).
      split; [now rewrite L, replace_length|].
      split; [now apply title_plain_casefold_ascii | exact Wc].
  - intros S. eexists.
    rewrite (item_record_fields timestamp li _ _ (link_fields_absent li S)).
    repeat split.
Qed.

Lemma station_from_last_segment_witness :
  exists record,
    item_record (py "t") (top li_full) = Ok record
    /\ dict_get record (py "station") = Some (Some (py "Us Embassy 1"))
    /\ dict_get record (py "detail_url")
       = Some (Some (py "https://rendahemisi.jakarta.go.id/ispu-detail/us-embassy-1/")).
Proof.
  destruct (station_from_last_segment (py "t") (top li_full) eq_refl) as [F _].
  destruct (F (link_of (top li_full)) eq_refl)
    as (href & slug & name & record & G & _ & L & _ & R & St & N & _ & _ & U).
  exists record. split; [exact R|].
  vm_compute in G. injection G as <-.
  vm_compute in L. injection L as <-.
  split; [rewrite St, N; reflexivity | exact U].
Defined.

(** The selector can match a tag whose attribute is spelled [HREF]; the
    lookup of line 47 then fails.  [html.parser] never builds such a
    tag. *)
Example capital_attribute_raises :
  link_fields
    (top (el "li" [] [ el "a" [("HREF", "/ispu-detail/x")] [] ]))
  = Raise (KeyError (py "href")).
Proof. reflexivity. Qed.

(** C6: every record [scrape] returns has a non-empty string as
    [station] and exactly the six keys [timestamp], [station], [aqi],
    [pollutant], [status], [detail_url].  It is the record of one of the
    station items of the page, and a field whose tag is missing from
    that item is [None] under its key: [aqi], [pollutant] and [status]
    are [None] when the selector finds no tag and the stripped text of
    the tag otherwise; [detail_url] is the reference of the item's
    link. *)
Theorem returned_records_shape (w w' : world) (records : list dict) :
  scrape w = (Ok records, w') ->
  exists st soup,
    net w = Response st soup
    /\ Forall (fun record =>
                 keys record = fieldnames
                 /\ (exists station : str,
                       dict_get record (py "station") = Some (Some station)
                       /\ station <> [])
                 /\ exists li link_tag (href : str),
                      In li (select station_items soup)
                      /\ dict_get record (py "aqi")
                         = Some (match select_one value_heading li with
                                 | Some found => Some (get_text_strip found)
                                 | None => None
                                 end)
                      /\ dict_get record (py "pollutant")
                         = Some (match select_one value_paragraph li with
                                 | Some found => Some (get_text_strip found)
                                 | None => None
                                 end)
                      /\ dict_get record (py "status")
                         = Some (match select_one status_label li with
                                 | Some found => Some (get_text_strip found)
                                 | None => None
                                 end)
                      /\ select_one detail_link li = Some link_tag
                      /\ getitem link_tag (py "href") = Some href
                      /\ dict_get record (py "detail_url") = Some (Some href))
         records.
Proof.
  intros H. destruct (scrape_returns w records w' H) as (st & soup & Hn & _ & L & _).
  exists st, soup. split; [exact Hn|].
  destruct (scrape_loop_origin _ _ _ _ L) as (added & -> & F).
  cbn [app]. eapply Forall_impl; [|exact F].
  intros record (li & station & I & R & St & NE).
  split; [exact (item_record_keys _ _ _ R)|].
  split; [now exists station|].
  unfold item_record in R.
  destruct (link_fields li) as [[name url]|e] eqn:LF; [|discriminate].
  injection R as <-.
  assert (name = Some station) by (now injection St). subst name.
  destruct (link_fields_some li station url LF)
    as (link_tag & href & slug & S & G & _ & _ & ->).
  exists li, link_tag, href. repeat split; assumption || reflexivity.
Qed.

Lemma returned_records_shape_witness :
  exists first second,
    fst (scrape (sample_world (Response 200 page_mixed) [])) = Ok [first; second]
    /\ keys second = fieldnames
    /\ dict_get first (py "aqi") = Some (Some (py "55"))
    /\ dict_get second (py "aqi") = Some None
    /\ dict_get second (py "pollutant") = Some (Some (py "PM 10")).
Proof.
  destruct (scrape (sample_world (Response 200 page_mixed) []))
    as [[records|e] w'] eqn:E; [|vm_compute in E; discriminate].
  destruct (returned_records_shape _ _ _ E) as (st & soup & _ & F).
  assert (R : records
              = match fst (scrape (sample_world (Response 200 page_mixed) [])) with
                | Ok rs => rs
                | Raise _ => []
                end) by (now rewrite E).
  vm_compute in R. subst records.
  eexists _, _. split; [reflexivity|].
  inversion F as [|r1 rs1 _ F1]. inversion F1 as [|r2 rs2 (K & _) _].
  split; [exact K|]. repeat split.
Defined.

(** C7: the records of one run of [scrape] all carry the same
    [timestamp], the text of the one clock reading the run takes; that
    text reads as YYYY-MM-DDTHH:MM:SSZ (for a four-digit year). *)
Theorem records_share_one_timestamp (w w' : world) (records : list dict) :
  scrape w = (Ok records, w') ->
  let t := clock w (ticks w) in
  Forall (fun record =>
            dict_get record (py "timestamp") = Some (Some (strftime_iso_z t)))
         records
  /\ ticks w' = S (ticks w)
  /\ (datetime_ok t = true -> 1000 <= year t ->
      reads_as (py "YYYY-MM-DDTHH:MM:SSZ") (strftime_iso_z t) = true).
Proof.
  intros H t.
  destruct (scrape_returns w records w' H) as (st & soup & _ & _ & L & ->).
  split; [|split].
  - pose proof (scrape_loop_kept _ _ [] records (Forall_nil _) L) as K.
    eapply Forall_impl; [|exact K]. now intros r (_ & T & _).
  - reflexivity.
  - apply strftime_iso_z_shape.
Qed.

Lemma records_share_one_timestamp_witness :
  exists records,
    fst (scrape (sample_world (Response 200 page_two) [])) = Ok records
    /\ Forall (fun record =>
                 dict_get record (py "timestamp")
                 = Some (Some (py "2024-11-02T03:04:00Z")))
              records.
Proof.
  destruct (scrape (sample_world (Response 200 page_two) []))
    as [[records|e] w'] eqn:E; [|vm_compute in E; discriminate].
  exists records. split; [reflexivity|].
  exact (proj1 (records_share_one_timestamp _ _ _ E)).
Defined.



(** [main], after its first line, is [scrape] and then the two writes
    or the message that nothing was found. *)
Lemma main_unfold w :
  main w
  = match scrape (started w) with
    | (Ok (r :: rs), w1) =>
        (save_json (r :: rs) ;; append_csv (r :: rs) ;; print Done) w1
    | (Ok [], w1) => print NoData w1
    | (Raise e, w1) => (Raise e, w1)
    end.
Proof.
  change (main w)
    with ((data <- scrape ;;
           match data with
           | _ :: _ => save_json data ;; append_csv data ;; print Done
           | [] => print NoData
           end) (started w)).
  unfold bind at 1.
  destruct (scrape (started w)) as [[[|r rs]|e] w1]; reflexivity.
Qed.

Lemma output_paths_differ : OUTPUT_JSON <> OUTPUT_CSV.
Proof. discriminate. Qed.

(** A run that scraped at least one record writes both files: the JSON
    file is the dump of the records, the CSV file gains their rows. *)
Lemma main_with_records w r rs :
  scrape (started w) = (Ok (r :: rs), tick (started w)) ->
  Forall (fun record => keys record = fieldnames) (r :: rs) ->
  exists w',
    main w = (Ok tt, w')
    /\ fs_read (files w') OUTPUT_JSON = Some (json_dumps (r :: rs))
    /\ fs_read (files w') OUTPUT_CSV
       = Some (text_of (files w) OUTPUT_CSV
               ++ (match fs_read (files w) OUTPUT_CSV with
                   | Some _ => []
                   | None => writeheader fieldnames
                   end)
               ++ List.concat (map row_of (r :: rs))).
Proof.
  intros S K. rewrite main_unfold, S.
  unfold bind at 1. rewrite save_json_eq.
  unfold bind at 1, write_file, print at 1.
  cbn [files stdout set_files net clock ticks].
  set (w1 := {| net := _; clock := _; ticks := _; files := _; stdout := _ |}).
  unfold bind at 1.
  destruct (append_csv_rows (r :: rs) w1 K) as (w2 & A & C & O).
  rewrite A. eexists. split; [reflexivity|].
  cbn [print snd files]. split.
  - rewrite (O OUTPUT_JSON output_paths_differ). unfold w1. cbn [files].
    apply fs_read_write_same.
  - rewrite C. unfold w1, text_of. cbn [files tick started].
    rewrite (fs_read_write_other _ _ _ OUTPUT_CSV
               (fun E => output_paths_differ (eq_sym E))).
    reflexivity.
Qed.

(** C3: when the page holds no station item, [scrape] returns the empty
    list and raises nothing, and the run writes no file: the files are
    what they were, and the run ends with the message that no data was
    found. *)
Theorem no_items_no_writes (w : world) (st : N) (soup : list node) :
  net w = Response st soup ->
  error_status st = false ->
  select station_items soup = [] ->
  scrape w = (Ok [], tick w)
  /\ exists w',
       main w = (Ok tt, w')
       /\ files w' = files w
       /\ stdout w' = stdout w ++ [Starting (clock w (ticks w)); NoData].
Proof.
  intros Hn He Hs. split.
  - rewrite (scrape_fetched w st soup Hn He), Hs. reflexivity.
  - rewrite main_unfold.
    rewrite (scrape_fetched (started w) st soup Hn He), Hs.
    cbn [scrape_loop]. eexists. split; [reflexivity|].
    cbn [files stdout tick started print snd]. split; [reflexivity|].
    now rewrite <- app_assoc.
Qed.

Lemma no_items_no_writes_witness :
  exists w',
    main (sample_world (Response 200 page_empty) old_files) = (Ok tt, w')
    /\ files w' = old_files.
Proof.
  destruct (no_items_no_writes
              (sample_world (Response 200 page_empty) old_files) 200 page_empty
              eq_refl eq_refl eq_refl)
    as (_ & w' & M & F & _).
  exists w'. split; [exact M | exact F].
Defined.

(** C2, as stated, fails: status 300 is outside the class 2xx (and is
    not one of the redirects [requests] follows), [raise_for_status]
    lets it pass, the page it carries yields records, and the run
    replaces the JSON file and appends to the CSV file. *)
Lemma status_300_page_is_written :
  let w := sample_world (Response 300 page_two) old_files in
  non_success 300 = true
  /\ (exists r rs, fst (scrape w) = Ok (r :: rs))
  /\ fs_read (files (snd (main w))) OUTPUT_JSON <> fs_read (files w) OUTPUT_JSON
  /\ fs_read (files (snd (main w))) OUTPUT_CSV <> fs_read (files w) OUTPUT_CSV.
Proof.
  intros w. split; [reflexivity|]. split; [|split].
  - vm_compute. eexists _, _. reflexivity.
  - vm_compute. discriminate.
  - vm_compute. discriminate.
Qed.

(** C2, amended: whatever the page would yield, when the GET fails at
    the network level or returns a status from 400 to 599, the run stops
    with the exception before any write: the files are what they were. *)
Theorem failed_fetch_writes_nothing (w : world) :
  (net w = Unreachable
   \/ exists st soup, net w = Response st soup /\ error_status st = true) ->
  exists e w',
    main w = (Raise e, w')
    /\ files w' = files w
    /\ (e = RequestException \/ exists st, e = HTTPError st).
Proof.
  intros [Hn | (st & soup & Hn & He)]; rewrite main_unfold.
  - rewrite (scrape_unreachable (started w) Hn).
    eexists _, _. repeat split. now left.
  - rewrite (scrape_error_status (started w) st soup Hn He).
    eexists _, _. repeat split. right. now exists st.
Qed.

Lemma failed_fetch_writes_nothing_witness :
  exists e w',
    main (sample_world (Response 500 page_two) old_files) = (Raise e, w')
    /\ files w' = old_files.
Proof.
  destruct (failed_fetch_writes_nothing
              (sample_world (Response 500 page_two) old_files))
    as (e & w' & M & F & _).
  - right. exists 500, page_two. split; reflexivity.
  - exists e, w'. split; [exact M | exact F].
Defined.

(** ** Further properties *)

(** *** The loop of [scrape] *)

Lemma link_fields_total li :
  forallb from_html_parser (contents li) = true ->
  exists station detail_url,
    link_fields li = Ok (station, detail_url)
    /\ truthy station = has_link li.
Proof.
  intros W. unfold has_link.
  destruct (select_one detail_link li) as [link_tag|] eqn:S.
  - destruct (link_fields_found li link_tag W S)
      as (href & slug & _ & _ & NE & _ & LF).
    exists (Some (slug_to_name slug)), (Some href). split; [exact LF|].
    apply truthy_nonempty, slug_to_name_nonempty, NE.
  - exists None, None. split; [now apply link_fields_absent | reflexivity].
Qed.

(** On trees of [html.parser] the loop raises nothing and keeps, in
    order, the records of the items that have a detail link. *)
Lemma scrape_loop_filter timestamp items :
  (forall li, In li items -> forallb from_html_parser (contents li) = true) ->
  forall records,
  exists added,
    scrape_loop timestamp items records = Ok (records ++ added)
    /\ Forall2 (fun li record => item_record timestamp li = Ok record)
         (filter has_link items) added.
Proof.
  induction items as [|li items IH]; intros H records.
  - exists []. split; [simpl; now rewrite app_nil_r | constructor].
  - destruct (link_fields_total li (H li (or_introl eq_refl)))
      as (station & url & LF & T).
    pose proof (item_record_fields timestamp li _ _ LF) as R.
    match type of R with _ = Ok ?r => set (record := r) in * end.
    assert (St : dict_get record (py "station") = Some station) by reflexivity.
    cbn [scrape_loop filter]. rewrite R, St, T.
    destruct (has_link li).
    + destruct (IH (fun x I => H x (or_intror I)) (records ++ [record]))
        as (added & E & F).
      exists (record :: added). split.
      * replace (records ++ record :: added)
          with ((records ++ [record]) ++ added) by (now rewrite <- app_assoc).
        exact E.
      * constructor; [exact R | exact F].
    + exact (IH (fun x I => H x (or_intror I)) records).
Qed.

Lemma select_contents_lowered s soup :
  forallb from_html_parser soup = true ->
  forall li, In li (select s soup) ->
             forallb from_html_parser (contents li) = true.
Proof.
  intros W li I. pose proof (select_lowered _ _ _ W I) as T.
  apply andb_true_iff in T. tauto.
Qed.

(** X1: on a fetched page, [scrape] returns the records of exactly the
    station items that have a detail link, in document order; the items
    without one are dropped. *)
Theorem scrape_keeps_linked_items (w : world) (st : N) (soup : list node) :
  net w = Response st soup ->
  error_status st = false ->
  forallb from_html_parser soup = true ->
  exists records,
    scrape w = (Ok records, tick w)
    /\ Forall2 (fun li record =>
                  item_record (strftime_iso_z (clock w (ticks w))) li = Ok record)
         (filter has_link (select station_items soup)) records.
Proof.
  intros Hn He Hp.
  destruct (scrape_loop_filter (strftime_iso_z (clock w (ticks w)))
              (select station_items soup)
              (select_contents_lowered _ _ Hp) [])
    as (records & L & F).
  exists records. split; [|exact F].
  rewrite (scrape_fetched w st soup Hn He). now rewrite L.
Qed.

Lemma scrape_keeps_linked_items_witness :
  List.length (select station_items page_mixed) = 3%nat
  /\ exists records,
       scrape (sample_world (Response 200 page_mixed) [])
       = (Ok records, tick (sample_world (Response 200 page_mixed) []))
       /\ List.length records = 2%nat.
Proof.
  split; [reflexivity|].
  destruct (scrape_keeps_linked_items
              (sample_world (Response 200 page_mixed) []) 200 page_mixed
              eq_refl eq_refl eq_refl)
    as (records & S & F).
  exists records. split; [exact S|].
  apply Forall2_length in F. rewrite <- F. reflexivity.
Defined.

(** X2: the only exceptions that leave [scrape] on a page of
    [html.parser] are those of the fetch; when one does, the clock was
    not read and the world is as it was. *)
Theorem scrape_raises_only_fetch_errors (w w' : world) (e : exn) :
  (forall st soup, net w = Response st soup ->
                   forallb from_html_parser soup = true) ->
  scrape w = (Raise e, w') ->
  w' = w
  /\ ((e = RequestException /\ net w = Unreachable)
      \/ exists st soup,
           e = HTTPError st /\ net w = Response st soup
           /\ error_status st = true).
Proof.
  intros Hp H. destruct (net w) as [|st soup] eqn:N.
  - rewrite (scrape_unreachable w N) in H. injection H as <- <-.
    split; [reflexivity | now left].
  - destruct (error_status st) eqn:E.
    + rewrite (scrape_error_status w st soup N E) in H. injection H as <- <-.
      split; [reflexivity|]. right. now exists st, soup.
    + exfalso. rewrite (scrape_fetched w st soup N E) in H.
      destruct (scrape_loop_filter (strftime_iso_z (clock w (ticks w)))
                  (select station_items soup)
                  (select_contents_lowered _ _ (Hp st soup eq_refl)) [])
        as (records & L & _).
      rewrite L in H. discriminate.
Qed.

Lemma scrape_raises_only_fetch_errors_witness :
  snd (scrape (sample_world (Response 404 page_two) old_files))
  = sample_world (Response 404 page_two) old_files.
Proof.
  destruct (scrape (sample_world (Response 404 page_two) old_files))
    as [[records|e] w'] eqn:E; [vm_compute in E; discriminate|].
  refine (proj1 (scrape_raises_only_fetch_errors _ w' e _ E)).
  intros st soup [= <- <-]. reflexivity.
Defined.

(** *** [save_json] and [append_csv] *)




(** [append_csv] in one step: the text it adds and how it ends. *)
Lemma append_csv_run records w :
  append_csv records w
  = let text := header_for (files w) ++ fst (writerows fieldnames records) in
    let fs := fs_write (files w) OUTPUT_CSV (text_of (files w) OUTPUT_CSV ++ text) in
    match snd (writerows fieldnames records) with
    | Some e => (Raise e, set_files w fs)
    | None =>
        (Ok tt,
         {| net := net w; clock := clock w; ticks := ticks w; files := fs;
            stdout := stdout w ++ [CsvAppended (List.length records)] |})
    end.
Proof.
  rewrite append_csv_eq.
  unfold bind, isfile, append_file, print, raise, header_for, text_of.
  destruct (writerows fieldnames records) as [rows [e|]];
    destruct (fs_read (files w) OUTPUT_CSV); reflexivity.
Qed.




(** X4: [append_csv] only ever adds to the CSV file: whatever the
    records, and also when it raises, the text the file had is the
    beginning of the text it has afterwards, and no other file changes. *)
Theorem append_csv_only_appends (records : list dict) (w : world) :
  exists added,
    fs_read (files (snd (append_csv records w))) OUTPUT_CSV
    = Some (text_of (files w) OUTPUT_CSV ++ added)
    /\ forall path, path <> OUTPUT_CSV ->
         fs_read (files (snd (append_csv records w))) path
         = fs_read (files w) path.
Proof.
  rewrite append_csv_run. cbv zeta.
  exists (header_for (files w) ++ fst (writerows fieldnames records)).
  destruct (snd (writerows fieldnames records)); cbn [snd files set_files];
    (split; [apply fs_read_write_same
            | intros path D; now apply fs_read_write_other]).
Qed.





(** *** Runs of [main] *)


Lemma main_run_nothing w :
  scrape (started w) = (Ok [], tick (started w)) ->
  main w
  = (Ok tt,
     {| net := net w; clock := clock w; ticks := S (S (ticks w));
        files := files w;
        stdout := stdout w ++ [Starting (clock w (ticks w)); NoData] |}).
Proof.
  intros S. rewrite main_unfold, S.
  unfold print, tick, started. cbn [files stdout net clock ticks].
  now rewrite <- app_assoc.
Qed.



(** *** Runs of [main] where a file cannot be opened *)









(** *** Station names *)

Lemma casefold_pair c d :
  (if ascii_upper c then c + 32 else c) = (if ascii_upper d then d + 32 else d) ->
  c = d
  \/ (ascii_upper c = true /\ d = c + 32)
  \/ (ascii_upper d = true /\ c = d + 32).
Proof.
  destruct (ascii_upper c) eqn:Uc; destruct (ascii_upper d) eqn:Ud; intros H.
  - left. lia.
  - right. left. now split.
  - right. right. now split.
  - now left.
Qed.

(** A capital ASCII letter and its small letter are treated alike. *)
Lemma letter_pair u :
  ascii_upper u = true ->
  is_cased (u + 32) = is_cased u
  /\ is_case_ignorable (u + 32) = is_case_ignorable u
  /\ to_title_full (u + 32) = to_title_full u
  /\ to_lower_full (u + 32) = to_lower_full u
  /\ u <> 931 /\ u + 32 <> 931 /\ u <> hyphen /\ u + 32 <> hyphen.
Proof.
  intros U. pose proof U as U'. unfold ascii_upper in U'.
  apply andb_true_iff in U'. destruct U' as [U1 U2].
  apply N.leb_le in U1, U2.
  assert (Au : is_ascii u = true) by (apply is_ascii_lt; lia).
  assert (Al : is_ascii (u + 32) = true) by (apply is_ascii_lt; lia).
  destruct (ascii_data u Au) as (Tu & Lu & Cu & Iu & Su).
  destruct (ascii_data (u + 32) Al) as (Tl & Ll & Cl & Il & Sl).
  assert (Ul : ascii_upper (u + 32) = false)
    by (unfold ascii_upper; cases_N; lia).
  assert (Ll' : ascii_lower (u + 32) = true)
    by (unfold ascii_lower; cases_N; lia).
  assert (Lu' : ascii_lower u = false)
    by (unfold ascii_lower; cases_N; lia).
  rewrite Tu, Lu, Cu, Tl, Ll, Cl, U, Ul, Ll', Lu'.
  rewrite Iu by (now rewrite U). rewrite Il by (now rewrite Ll', orb_true_r).
  unfold hyphen. repeat split; try assumption; try lia.
  f_equal. lia.
Qed.

Lemma casefold_char c d :
  (if ascii_upper c then c + 32 else c) = (if ascii_upper d then d + 32 else d) ->
  let c' := if c =? hyphen then space else c in
  let d' := if d =? hyphen then space else d in
  is_cased c' = is_cased d'
  /\ is_case_ignorable c' = is_case_ignorable d'
  /\ forall b1 b2 a1 a2 (p : bool),
       cased_before b1 = cased_before b2 ->
       uncased_after a1 = uncased_after a2 ->
       (if p then lower_ucs4 b1 a1 c' else to_title_full c')
       = (if p then lower_ucs4 b2 a2 d' else to_title_full d').
Proof.
  intros H c' d'. subst c' d'.
  destruct (casefold_pair c d H) as [<- | [[U ->] | [U ->]]].
  - repeat split. intros b1 b2 a1 a2 p Hb Ha. destruct p; [|reflexivity].
    unfold lower_ucs4, handle_capital_sigma. now rewrite Hb, Ha.
  - destruct (letter_pair c U) as (Ec & Ei & Et & El & S1 & S2 & H1 & H2).
    destruct (N.eqb_spec c hyphen); [congruence|].
    destruct (N.eqb_spec (c + 32) hyphen); [congruence|].
    repeat split; try congruence. intros b1 b2 a1 a2 p _ _.
    destruct p; [|congruence].
    now rewrite !lower_ucs4_plain by assumption.
  - destruct (letter_pair d U) as (Ec & Ei & Et & El & S1 & S2 & H1 & H2).
    destruct (N.eqb_spec d hyphen); [congruence|].
    destruct (N.eqb_spec (d + 32) hyphen); [congruence|].
    repeat split; try congruence. intros b1 b2 a1 a2 p _ _.
    destruct p; [|congruence].
    now rewrite !lower_ucs4_plain by assumption.
Qed.

Lemma uncased_after_casefold a :
  forall b,
    casefold_ascii a = casefold_ascii b ->
    uncased_after (replace hyphen space a) = uncased_after (replace hyphen space b).
Proof.
  induction a as [|c a IH]; intros [|d b] H; try discriminate; [reflexivity|].
  simpl in H. injection H as Hc Hs.
  cbn [replace map]. rewrite !uncased_after_cons.
  destruct (casefold_char c d Hc) as (-> & -> & _).
  fold (replace hyphen space a). fold (replace hyphen space b).
  now rewrite (IH b Hs).
Qed.

Lemma do_title_casefold a :
  forall b b1 b2 p,
    casefold_ascii a = casefold_ascii b ->
    cased_before b1 = cased_before b2 ->
    do_title b1 p (replace hyphen space a) = do_title b2 p (replace hyphen space b).
Proof.
  induction a as [|c a IH]; intros [|d b] b1 b2 p H Hb; try discriminate;
    [reflexivity|].
  simpl in H. injection H as Hc Hs.
  cbn [replace map]. rewrite !do_title_cons.
  fold (replace hyphen space a). fold (replace hyphen space b).
  destruct (casefold_char c d Hc) as (Ec & Ei & Em).
  f_equal.
  - exact (Em b1 b2 _ _ p Hb (uncased_after_casefold a b Hs)).
  - rewrite Ec. apply IH; [exact Hs|].
    rewrite !cased_before_cons. now rewrite Ei, Ec, Hb.
Qed.

(** X9: [slug_to_name] does not see the case of ASCII letters in its
    argument: two slugs that differ only there get the same name. *)
Theorem slug_to_name_ignores_case (a b : str) :
  casefold_ascii a = casefold_ascii b -> slug_to_name a = slug_to_name b.
Proof. intros H. unfold slug_to_name, title. now apply do_title_casefold. Qed.

Lemma slug_to_name_ignores_case_witness :
  slug_to_name (py "US-Embassy-1A") = slug_to_name (py "us-embassy-1a").
Proof.
  apply (slug_to_name_ignores_case (py "US-Embassy-1A") (py "us-embassy-1a")).
  reflexivity.
Defined.

(** X10: on an ASCII slug the name has the length of the slug, is
    ASCII, and is cased word by word: a letter is a capital exactly when
    no letter stands before it. *)
Theorem slug_to_name_ascii_shape (s : str) :
  ascii_str s = true ->
  List.length (slug_to_name s) = List.length s
  /\ ascii_str (slug_to_name s) = true
  /\ well_cased false (slug_to_name s) = true.
Proof.
  intros A. destruct (slug_to_name_ascii s A) as [-> R].
  destruct (title_plain_ascii_shape _ false R) as (L & A' & W).
  rewrite L, replace_length. now repeat split.
Qed.

Lemma slug_to_name_ascii_shape_witness :
  List.length (slug_to_name (py "dKI1-bundaran-HI")) = 16%nat
  /\ well_cased false (slug_to_name (py "dKI1-bundaran-HI")) = true.
Proof.
  destruct (slug_to_name_ascii_shape (py "dKI1-bundaran-HI") eq_refl)
    as (L & _ & W).
  split; [exact L | exact W].
Defined.

Lemma lstrip_char_repeat ch k s :
  lstrip_char ch (repeat ch k ++ s) = lstrip_char ch s.
Proof.
  induction k as [|k IH]; [reflexivity|]. simpl. now rewrite N.eqb_refl.
Qed.

(** X11: slashes at the end of a reference do not count: with any
    number of them added, line 48 finds the same slug. *)
Theorem trailing_slashes_ignored (href : str) (k : nat) :
  last_item (split slash (rstrip slash (href ++ repeat slash k)))
  = last_item (split slash (rstrip slash href)).
Proof.
  unfold rstrip.
  now rewrite rev_app_distr, rev_repeat_same, lstrip_char_repeat.
Qed.

(** *** The fields of the records *)

Lemma last_item_in {A} (xs : list A) x : last_item xs = Some x -> In x xs.
Proof.
  induction xs as [|y xs IH]; [discriminate|]. simpl.
  destruct xs as [|z zs]; [intros [= ->]; now left | intros H; right; now apply IH].
Qed.

Lemma split_free_of_sep sep s :
  forall w, In w (split sep s) -> ~ In sep w.
Proof.
  induction s as [|c s IH]; simpl; intros w I.
  - destruct I as [<-|[]]. intros [].
  - destruct (N.eqb_spec c sep) as [->|D].
    + destruct I as [<-|I]; [intros [] | now apply IH].
    + pose proof (split_nonempty sep s) as NE.
      destruct (split sep s) as [|x xs]; [congruence|].
      destruct I as [<-|I].
      * intros [E|I']; [congruence|]. exact (IH x (or_introl eq_refl) I').
      * apply IH. now right.
Qed.

Lemma slug_to_name_keeps_out_slash s :
  ~ In slash s -> ~ In slash (slug_to_name s).
Proof.
  intros H. apply do_title_keeps_out; [now right|]. intros I.
  apply in_map_iff in I. destruct I as (c & E & I). revert E.
  destruct (N.eqb_spec c hyphen); [discriminate | intros ->; exact (H I)].
Qed.

Lemma Forall2_right {A B} (R : A -> B -> Prop) (P : B -> Prop) xs ys :
  Forall2 R xs ys ->
  (forall x y, In x xs -> R x y -> P y) ->
  Forall P ys.
Proof.
  induction 1 as [|x y xs ys Rxy _ IH]; intros H; constructor.
  - apply (H x y); [now left | exact Rxy].
  - apply IH. intros x' y' I. apply H. now right.
Qed.

(** X12: every record [scrape] returns from a page of [html.parser]
    holds the reference of its detail link, with the marker in it, as
    [detail_url], and a station name without hyphen and without
    slash. *)
Theorem returned_records_link
  (w w' : world) (st : N) (soup : list node) (records : list dict) :
  net w = Response st soup ->
  forallb from_html_parser soup = true ->
  scrape w = (Ok records, w') ->
  Forall (fun record =>
            exists name href : str,
              dict_get record (py "station") = Some (Some name)
              /\ ~ In hyphen name /\ ~ In slash name
              /\ dict_get record (py "detail_url") = Some (Some href)
              /\ contains (py "ispu-detail") href = true)
         records.
Proof.
  intros Hn Hp H.
  destruct (scrape_returns w records w' H) as (st' & soup' & Hn' & _ & L & _).
  rewrite Hn in Hn'. injection Hn' as <- <-.
  pose proof (select_contents_lowered station_items soup Hp) as Hl.
  destruct (scrape_loop_filter (strftime_iso_z (clock w (ticks w)))
              (select station_items soup) Hl []) as (added & L' & F).
  rewrite L in L'. injection L' as ->. cbn [app] in F.
  apply (Forall2_right _ _ _ _ F). intros li record I R.
  apply filter_In in I. destruct I as [I HL]. unfold has_link in HL.
  destruct (select_one detail_link li) as [link_tag|] eqn:S; [|discriminate].
  destruct (link_fields_found li link_tag (Hl li I) S)
    as (href & slug & _ & C & _ & LS & LF).
  rewrite (item_record_fields _ li _ _ LF) in R. injection R as <-.
  exists (slug_to_name slug), href. repeat split; try assumption.
  - apply slug_to_name_no_hyphen.
  - apply slug_to_name_keeps_out_slash. unfold last_nonempty_segment in LS.
    apply last_item_in, filter_In in LS. destruct LS as [LS _].
    exact (split_free_of_sep slash href slug LS).
Qed.

Lemma returned_records_link_witness :
  exists records,
    fst (scrape (sample_world (Response 200 page_mixed) [])) = Ok records
    /\ Forall (fun record =>
                 exists name : str,
                   dict_get record (py "station") = Some (Some name)
                   /\ ~ In slash name)
              records.
Proof.
  destruct (scrape (sample_world (Response 200 page_mixed) []))
    as [[records|e] w'] eqn:E; [|vm_compute in E; discriminate].
  exists records. split; [reflexivity|].
  pose proof (returned_records_link
                (sample_world (Response 200 page_mixed) []) w' 200 page_mixed
                records eq_refl eq_refl E) as F.
  eapply Forall_impl; [|exact F].
  intros r (name & href & St & _ & NS & _). now exists name.
Defined.

Lemma item_record_text_fields timestamp li record :
  item_record timestamp li = Ok record ->
  dict_get record (py "aqi")
  = Some (option_map get_text_strip (select_one value_heading li))
  /\ dict_get record (py "pollutant")
     = Some (option_map get_text_strip (select_one value_paragraph li))
  /\ dict_get record (py "status")
     = Some (option_map get_text_strip (select_one status_label li)).
Proof.
  unfold item_record. destruct (link_fields li) as [[station url]|e];
    [|discriminate].
  intros [= <-]. repeat split.
Qed.

Lemma trimmed_text_of_tag (found : option tag) :
  trimmed_value (Some (option_map get_text_strip found)).
Proof.
  destruct found as [t|]; [apply get_text_strip_trimmed | exact I].
Qed.

(** X13: the [aqi], [pollutant] and [status] of a record are [None] or a
    text that neither begins nor ends with whitespace. *)
Theorem text_fields_trimmed (timestamp : str) (li : tag) (record : dict) :
  item_record timestamp li = Ok record ->
  trimmed_value (dict_get record (py "aqi"))
  /\ trimmed_value (dict_get record (py "pollutant"))
  /\ trimmed_value (dict_get record (py "status")).
Proof.
  intros R. destruct (item_record_text_fields _ _ _ R) as (-> & -> & ->).
  repeat split; apply trimmed_text_of_tag.
Qed.

Lemma text_fields_trimmed_witness :
  exists record,
    item_record (py "t") (top li_full) = Ok record
    /\ dict_get record (py "aqi") = Some (Some (py "55"))
    /\ trimmed_value (dict_get record (py "aqi")).
Proof.
  destruct (item_record (py "t") (top li_full)) as [record|e] eqn:E;
    [|vm_compute in E; discriminate].
  exists record. split; [reflexivity|]. split.
  - vm_compute in E. injection E as <-. reflexivity.
  - exact (proj1 (text_fields_trimmed _ _ _ E)).
Defined.

(** *** The timestamp, read back *)

Lemma digit_inj a b : digit a = digit b -> a = b.
Proof. unfold digit. lia. Qed.

Lemma tens_units_eq a b :
  a / 10 = b / 10 -> a mod 10 = b mod 10 -> a = b.
Proof.
  intros Q R.
  rewrite (N.div_mod a 10), (N.div_mod b 10) by discriminate.
  now rewrite Q, R.
Qed.

Lemma pad2_inj n m : n < 100 -> m < 100 -> pad2 n = pad2 m -> n = m.
Proof.
  intros Hn Hm H. unfold pad2 in H. injection H as T U.
  apply digit_inj in T, U.
  rewrite !N.mod_small in T by (apply N.Div0.div_lt_upper_bound; lia).
  now apply tens_units_eq.
Qed.

Lemma four_digits_inj y z :
  y <= 9999 -> z <= 9999 ->
  [digit (y / 1000 mod 10); digit (y / 100 mod 10);
   digit (y / 10 mod 10); digit (y mod 10)]
  = [digit (z / 1000 mod 10); digit (z / 100 mod 10);
     digit (z / 10 mod 10); digit (z mod 10)] ->
  y = z.
Proof.
  intros Hy Hz H. injection H as A B C D.
  apply digit_inj in A, B, C, D.
  rewrite !N.mod_small in A by (apply N.Div0.div_lt_upper_bound; lia).
  apply tens_units_eq; [|exact D].
  apply tens_units_eq; [|exact C].
  rewrite !N.Div0.div_div. change (10 * 10) with 100.
  apply tens_units_eq; [|exact B].
  rewrite !N.Div0.div_div. exact A.
Qed.

Lemma datetime_ok_bounds t :
  datetime_ok t = true ->
  year t <= 9999 /\ month t < 100 /\ day t < 100
  /\ hour t < 100 /\ minute t < 100 /\ second t < 100.
Proof.
  unfold datetime_ok. intros V.
  repeat (apply andb_true_iff in V; destruct V as [V ?]).
  repeat match goal with
    | L : (_ <=? _) = true |- _ => apply N.leb_le in L
    end.
  repeat split; lia.
Qed.

(** X14: the timestamp tells the reading of the clock: two readings with
    a four-digit year that give the same text are the same to the
    second. *)
Theorem timestamp_tells_the_second (t u : datetime) :
  datetime_ok t = true -> datetime_ok u = true ->
  1000 <= year t -> 1000 <= year u ->
  strftime_iso_z t = strftime_iso_z u ->
  t = u.
Proof.
  intros Vt Vu Yt Yu E.
  destruct (datetime_ok_bounds t Vt) as (Ty & Tmo & Td & Th & Tmi & Ts).
  destruct (datetime_ok_bounds u Vu) as (Uy & Umo & Ud & Uh & Umi & Us).
  unfold strftime_iso_z in E.
  rewrite !fmt_year_four_digits in E by assumption.
  cbn [app] in E.
  injection E as Y1 Y2 Y3 Y4 Mo1 Mo2 D1 D2 Ho1 Ho2 Mi1 Mi2 Se1 Se2.
  assert (Ey : year t = year u)
    by (apply four_digits_inj; [assumption | assumption | congruence]).
  assert (Emo : month t = month u)
    by (apply pad2_inj; [assumption | assumption | unfold pad2; congruence]).
  assert (Ed : day t = day u)
    by (apply pad2_inj; [assumption | assumption | unfold pad2; congruence]).
  assert (Eh : hour t = hour u)
    by (apply pad2_inj; [assumption | assumption | unfold pad2; congruence]).
  assert (Emi : minute t = minute u)
    by (apply pad2_inj; [assumption | assumption | unfold pad2; congruence]).
  assert (Es : second t = second u)
    by (apply pad2_inj; [assumption | assumption | unfold pad2; congruence]).
  clear - Ey Emo Ed Eh Emi Es. destruct t, u. cbn in *. congruence.
Qed.

Lemma timestamp_tells_the_second_witness :
  strftime_iso_z (sample_clock 7) = strftime_iso_z (sample_clock 7)
  /\ sample_clock 7 = sample_clock 7.
Proof.
  split; [reflexivity|].
  apply (timestamp_tells_the_second (sample_clock 7) (sample_clock 7));
    try reflexivity; vm_compute; discriminate.
Defined.
